(** * virtual-battery: the battery state machine, its controllers and the
      hourly simulation loop, embedded in Rocq.

    Numbers.  Python's floats are idealised as the real numbers [R]:
    rounding, infinities and NaN produced by arithmetic are outside that
    model.  The one NaN the program writes on purpose ([np.nan] in freshly
    created columns, and the quantile of an empty series) is modelled by
    [None] in a [cell].  Over [R] an equation between computed values is
    the program's own expression without its rounding error.  Whether a
    call returns or raises is decided by the program on the rounded values:
    where that outcome would rest on a cancellation that floats need not
    satisfy ([sqrt e * sqrt e = e], [(s * e) / e = s]) the theorems speak of
    calls that return, and [battery_model_binary64] repeats the battery on
    IEEE 754 binary64 values to show runs on which rounding decides.

    A method of a mutable object is a function from the object's state to an
    outcome AND the state the object is left in: an exception does not undo
    the assignments made before it was raised. *)

From Stdlib Require Import Reals Lra Lia ZArith List String Ascii Bool.
From Stdlib Require Floats.
Import ListNotations.
Open Scope R_scope.

(** ** Python exceptions *)

Inductive exn : Type :=
| AssertionError (msg : string)
| KeyError
| IndexError
| UnboundLocalError (name : string)
| ValueError
| ZeroDivisionError.

Inductive result (A : Type) : Type :=
| Ok (a : A)
| Raise (e : exn).
Arguments Ok {A} a.
Arguments Raise {A} e.

Definition is_Ok {A} (r : result A) : bool :=
  match r with Ok _ => true | Raise _ => false end.

(** ** Methods as state transformers that may raise *)

Definition M (S A : Type) : Type := S -> result A * S.

Definition ret {S A} (a : A) : M S A := fun s => (Ok a, s).

Definition raise {S A} (e : exn) : M S A := fun s => (Raise e, s).

Definition bind {S A B} (m : M S A) (k : A -> M S B) : M S B :=
  fun s =>
    match m s with
    | (Ok a, s') => k a s'
    | (Raise e, s') => (Raise e, s')
    end.

Definition get {S} : M S S := fun s => (Ok s, s).

Definition modify {S} (f : S -> S) : M S unit := fun s => (Ok tt, f s).

Definition lift {S A} (r : result A) : M S A := fun s => (r, s).

Declare Scope py_scope.
Delimit Scope py_scope with py.
Notation "x <- m ;; k" := (bind m (fun x => k))
  (at level 61, m at next level, right associativity) : py_scope.
Notation "m ;; k" := (bind m (fun _ => k))
  (at level 61, right associativity) : py_scope.

(** ** Comparisons and arithmetic of Python numbers *)

Definition Rle_b (x y : R) : bool := if Rle_dec x y then true else false.
Definition Rlt_b (x y : R) : bool := if Rlt_dec x y then true else false.
Definition Rge_b (x y : R) : bool := Rle_b y x.
Definition Rgt_b (x y : R) : bool := Rlt_b y x.

(** [assert cond, msg] *)
Definition py_assert {S} (cond : bool) (msg : string) : M S unit :=
  if cond then ret tt else raise (AssertionError msg).

(** [a / b] on Python floats. *)
Definition py_div (a b : R) : result R :=
  if Req_dec_T b 0 then Raise ZeroDivisionError else Ok (a / b).

(** [math.sqrt(x)] *)
Definition math_sqrt (x : R) : result R :=
  if Rlt_b x 0 then Raise ValueError else Ok (sqrt x).

(** The builtin [min]: the first of the smallest arguments is returned, a
    later argument replaces the current one only when strictly smaller. *)
Definition py_min2 (a b : R) : R := if Rlt_b b a then b else a.
Definition py_min3 (a b c : R) : R := py_min2 (py_min2 a b) c.

(** A float cell of a pandas column; [None] is NaN. *)
Definition cell : Type := option R.

(** ** battery_model.py *)

Module battery_model.

Record Battery : Type := mkBattery {
  model_name : string;
  max_capacity : R;
  max_charge_rate : R;
  state_of_charge : R;
  round_trip_efficiency : R;
  charge_efficiency : R;
  available_to_discharge : R;
  available_store_cap : R
}.

(** The class attributes, which a fresh instance sees until [__init__]
    assigns its own. *)
Definition class_defaults : Battery :=
  mkBattery "" 0 0 0 1 1 0 1.

Definition set_model_name (v : string) (b : Battery) : Battery :=
  mkBattery v (max_capacity b) (max_charge_rate b) (state_of_charge b)
    (round_trip_efficiency b) (charge_efficiency b)
    (available_to_discharge b) (available_store_cap b).
Definition set_max_capacity (v : R) (b : Battery) : Battery :=
  mkBattery (model_name b) v (max_charge_rate b) (state_of_charge b)
    (round_trip_efficiency b) (charge_efficiency b)
    (available_to_discharge b) (available_store_cap b).
Definition set_max_charge_rate (v : R) (b : Battery) : Battery :=
  mkBattery (model_name b) (max_capacity b) v (state_of_charge b)
    (round_trip_efficiency b) (charge_efficiency b)
    (available_to_discharge b) (available_store_cap b).
Definition set_state_of_charge (v : R) (b : Battery) : Battery :=
  mkBattery (model_name b) (max_capacity b) (max_charge_rate b) v
    (round_trip_efficiency b) (charge_efficiency b)
    (available_to_discharge b) (available_store_cap b).
Definition set_round_trip_efficiency (v : R) (b : Battery) : Battery :=
  mkBattery (model_name b) (max_capacity b) (max_charge_rate b)
    (state_of_charge b) v (charge_efficiency b)
    (available_to_discharge b) (available_store_cap b).
Definition set_charge_efficiency (v : R) (b : Battery) : Battery :=
  mkBattery (model_name b) (max_capacity b) (max_charge_rate b)
    (state_of_charge b) (round_trip_efficiency b) v
    (available_to_discharge b) (available_store_cap b).
Definition set_available_to_discharge (v : R) (b : Battery) : Battery :=
  mkBattery (model_name b) (max_capacity b) (max_charge_rate b)
    (state_of_charge b) (round_trip_efficiency b) (charge_efficiency b)
    v (available_store_cap b).
Definition set_available_store_cap (v : R) (b : Battery) : Battery :=
  mkBattery (model_name b) (max_capacity b) (max_charge_rate b)
    (state_of_charge b) (round_trip_efficiency b) (charge_efficiency b)
    (available_to_discharge b) v.

Local Open Scope py_scope.

(** [Battery._update_charge_values] *)
Definition _update_charge_values (proposed_charge : R) : M Battery unit :=
  modify (set_state_of_charge proposed_charge) ;;
  self <- get ;;
  modify (set_available_to_discharge
            (state_of_charge self * charge_efficiency self)) ;;
  self <- get ;;
  q <- lift (py_div (max_capacity self - state_of_charge self)
                    (charge_efficiency self)) ;;
  modify (set_available_store_cap q).

(** [Battery.__init__] *)
Definition __init__ (model_name : string)
    (max_capacity max_charge_rate initial_state_of_charge
     round_trip_efficiency : R) : M Battery unit :=
  modify (set_model_name model_name) ;;
  modify (set_max_capacity max_capacity) ;;
  modify (set_max_charge_rate max_charge_rate) ;;
  modify (set_round_trip_efficiency round_trip_efficiency) ;;
  r <- lift (math_sqrt round_trip_efficiency) ;;
  modify (set_charge_efficiency r) ;;
  _update_charge_values initial_state_of_charge.

(** The call [Battery(...)]: a fresh instance is initialised and returned,
    unless [__init__] raises. *)
Definition new (model_name : string)
    (max_capacity max_charge_rate initial_state_of_charge
     round_trip_efficiency : R) : result Battery :=
  match __init__ model_name max_capacity max_charge_rate
          initial_state_of_charge round_trip_efficiency class_defaults with
  | (Ok _, self) => Ok self
  | (Raise e, _) => Raise e
  end.

Definition msg_rate : string :=
  "You tried to charge or discharge the battery faster than it is able to!".
Definition msg_drained : string :=
  "You drained the battery, there is no juice left!".
Definition msg_overfull : string :=
  "You can't fill the battery over its maximum capacity!".

(** [Battery.charge] *)
Definition charge (request : R) : M Battery unit :=
  self <- get ;;
  py_assert (Rle_b (Rabs request) (max_charge_rate self)) msg_rate ;;
  proposed_charge <-
    (if Rge_b request 0
     then ret (state_of_charge self + request * charge_efficiency self)
     else x <- lift (py_div request (charge_efficiency self)) ;;
          ret (state_of_charge self + x)) ;;
  py_assert (Rge_b proposed_charge 0) msg_drained ;;
  py_assert (Rle_b proposed_charge (max_capacity self)) msg_overfull ;;
  _update_charge_values proposed_charge.

End battery_model.

(** The error kinds of the battery contract are the three assertion
    failures of [Battery.charge], told apart by their messages. *)
Definition InvalidRequest : exn := AssertionError battery_model.msg_rate.
Definition OverDischarge : exn := AssertionError battery_model.msg_drained.
Definition OverCharge : exn := AssertionError battery_model.msg_overfull.

(** ** battery_model.py on binary64 floats

    The same class, statement by statement, on IEEE 754 binary64 values
    (primitive floats), which is what a Python [float] is: every [+], [-],
    [*], [/] and [math.sqrt] rounds to nearest, and a comparison with NaN is
    false.  The integers the program passes (14, 0) are exactly
    representable.  This model is the one to consult where rounding decides
    whether a call returns or raises. *)

Module battery_model_binary64.
Import PrimFloat.
Local Open Scope float_scope.
Local Open Scope py_scope.
#[local] Set Warnings "-inexact-float".

Record Battery : Type := mkBattery {
  model_name : string;
  max_capacity : float;
  max_charge_rate : float;
  state_of_charge : float;
  round_trip_efficiency : float;
  charge_efficiency : float;
  available_to_discharge : float;
  available_store_cap : float
}.

Definition class_defaults : Battery :=
  mkBattery "" 0 0 0 1 1 0 1.

Definition set_model_name (v : string) (b : Battery) : Battery :=
  mkBattery v (max_capacity b) (max_charge_rate b) (state_of_charge b)
    (round_trip_efficiency b) (charge_efficiency b)
    (available_to_discharge b) (available_store_cap b).
Definition set_max_capacity (v : float) (b : Battery) : Battery :=
  mkBattery (model_name b) v (max_charge_rate b) (state_of_charge b)
    (round_trip_efficiency b) (charge_efficiency b)
    (available_to_discharge b) (available_store_cap b).
Definition set_max_charge_rate (v : float) (b : Battery) : Battery :=
  mkBattery (model_name b) (max_capacity b) v (state_of_charge b)
    (round_trip_efficiency b) (charge_efficiency b)
    (available_to_discharge b) (available_store_cap b).
Definition set_state_of_charge (v : float) (b : Battery) : Battery :=
  mkBattery (model_name b) (max_capacity b) (max_charge_rate b) v
    (round_trip_efficiency b) (charge_efficiency b)
    (available_to_discharge b) (available_store_cap b).
Definition set_round_trip_efficiency (v : float) (b : Battery) : Battery :=
  mkBattery (model_name b) (max_capacity b) (max_charge_rate b)
    (state_of_charge b) v (charge_efficiency b)
    (available_to_discharge b) (available_store_cap b).
Definition set_charge_efficiency (v : float) (b : Battery) : Battery :=
  mkBattery (model_name b) (max_capacity b) (max_charge_rate b)
    (state_of_charge b) (round_trip_efficiency b) v
    (available_to_discharge b) (available_store_cap b).
Definition set_available_to_discharge (v : float) (b : Battery) : Battery :=
  mkBattery (model_name b) (max_capacity b) (max_charge_rate b)
    (state_of_charge b) (round_trip_efficiency b) (charge_efficiency b)
    v (available_store_cap b).
Definition set_available_store_cap (v : float) (b : Battery) : Battery :=
  mkBattery (model_name b) (max_capacity b) (max_charge_rate b)
    (state_of_charge b) (round_trip_efficiency b) (charge_efficiency b)
    (available_to_discharge b) v.

(** [a / b]: Python raises on a zero divisor, of either sign. *)
Definition py_div (a b : float) : result float :=
  if b =? 0 then Raise ZeroDivisionError else Ok (a / b).

(** [math.sqrt(x)]: a negative argument is a ValueError; NaN is passed on. *)
Definition math_sqrt (x : float) : result float :=
  if x <? 0 then Raise ValueError else Ok (sqrt x).

(** [Battery._update_charge_values] *)
Definition _update_charge_values (proposed_charge : float) : M Battery unit :=
  modify (set_state_of_charge proposed_charge) ;;
  self <- get ;;
  modify (set_available_to_discharge
            (state_of_charge self * charge_efficiency self)) ;;
  self <- get ;;
  q <- lift (py_div (max_capacity self - state_of_charge self)
                    (charge_efficiency self)) ;;
  modify (set_available_store_cap q).

(** [Battery.__init__] *)
Definition __init__ (model_name : string)
    (max_capacity max_charge_rate initial_state_of_charge
     round_trip_efficiency : float) : M Battery unit :=
  modify (set_model_name model_name) ;;
  modify (set_max_capacity max_capacity) ;;
  modify (set_max_charge_rate max_charge_rate) ;;
  modify (set_round_trip_efficiency round_trip_efficiency) ;;
  r <- lift (math_sqrt round_trip_efficiency) ;;
  modify (set_charge_efficiency r) ;;
  _update_charge_values initial_state_of_charge.

Definition new (model_name : string)
    (max_capacity max_charge_rate initial_state_of_charge
     round_trip_efficiency : float) : result Battery :=
  match __init__ model_name max_capacity max_charge_rate
          initial_state_of_charge round_trip_efficiency class_defaults with
  | (Ok _, self) => Ok self
  | (Raise e, _) => Raise e
  end.

(** [Battery.charge] *)
Definition charge (request : float) : M Battery unit :=
  self <- get ;;
  py_assert (abs request <=? max_charge_rate self) battery_model.msg_rate ;;
  proposed_charge <-
    (if 0 <=? request
     then ret (state_of_charge self + request * charge_efficiency self)
     else x <- lift (py_div request (charge_efficiency self)) ;;
          ret (state_of_charge self + x)) ;;
  py_assert (0 <=? proposed_charge) battery_model.msg_drained ;;
  py_assert (proposed_charge <=? max_capacity self)
    battery_model.msg_overfull ;;
  _update_charge_values proposed_charge.

(** Successive calls of [charge] on one battery. *)
Fixpoint charge_each (requests : list float) : M Battery unit :=
  match requests with
  | [] => ret tt
  | request :: rest => charge request ;; charge_each rest
  end.

(** [Battery("", 3.6, 1.0, 0, 0.81)] *)
Definition small_battery : result Battery := new "" 3.6 1.0 0 0.81.

(** Three hours of charging at the rate limit. *)
Definition three_full_rate_hours : list float := [1.0; 1.0; 1.0].

(** [Battery("Tesla Powerwall", 14, 3.3, 0, 0.90)], the battery of
    user_input.py. *)
Definition default_battery : result Battery :=
  new "Tesla Powerwall" 14 3.3 0 0.90.

Definition half_rate_request : float := 1.7.

(** The object [default_battery] evaluates to, and the same object after
    [charge(1.7)]. *)
Definition default_battery_object : Battery :=
  match default_battery with
  | Ok b => b
  | Raise _ => class_defaults
  end.

Definition default_battery_charged : Battery :=
  snd (charge half_rate_request default_battery_object).

End battery_model_binary64.

(** ** What the program uses of pandas *)

(** An hourly index label.  [hour] is the hour of day, [dayofweek] is
    computed from the civil date, Monday being 0 and Sunday 6.  A label is
    its year, month, day and hour: minutes and the offset from UTC are not
    kept, so the two labels of the hour repeated when daylight saving time
    ends are one label here. *)
Record Timestamp : Type := mkTimestamp {
  year : Z;
  month : Z;
  day : Z;
  hour : Z
}.

Definition days_from_civil (y m d : Z) : Z :=
  let y' := if (m <=? 2)%Z then (y - 1)%Z else y in
  let era := (y' / 400)%Z in
  let yoe := (y' - era * 400)%Z in
  let mp := ((m + 9) mod 12)%Z in
  let doy := ((153 * mp + 2) / 5 + d - 1)%Z in
  let doe := (yoe * 365 + yoe / 4 - yoe / 100 + doy)%Z in
  (era * 146097 + doe - 719468)%Z.

(** 1970-01-01, day 0, was a Thursday. *)
Definition dayofweek (t : Timestamp) : Z :=
  ((days_from_civil (year t) (month t) (day t) + 3) mod 7)%Z.

Definition same_day (a b : Timestamp) : bool :=
  ((year a =? year b) && (month a =? month b) && (day a =? day b))%Z.

Definition Timestamp_eqb (a b : Timestamp) : bool :=
  same_day a b && (hour a =? hour b)%Z.

(** A row of the frame the simulation works on.  [name] is the index label
    ([row.name]); the other fields are the columns the core reads or writes:
    'Usage (kWh)', 'LBMP ($/MWHr)', 'LBMP ($/kWh)',
    'NYSEG Delivery Charge ($/kWh)', 'Apparent Price ($/kWh)',
    'Charge Decision (kWh)', 'State of Charge (kWh)',
    'Available to Discharge (kWh)', 'Available Storage Capacity (kWh)',
    'Net Electricity Purchased (kWh)'. *)
Record Row : Type := mkRow {
  name : Timestamp;
  Usage : R;
  LBMP_MWHr : R;
  LBMP_kWh : R;
  NYSEG_Delivery_Charge : R;
  Apparent_Price : R;
  Charge_Decision : cell;
  State_of_Charge : cell;
  Available_to_Discharge : cell;
  Available_Storage_Capacity : cell;
  Net_Electricity_Purchased : cell
}.

Definition DataFrame : Type := list Row.

(** [df.loc[cur_datetime]]: the row labelled [t]. *)
Fixpoint loc (df : DataFrame) (t : Timestamp) : result Row :=
  match df with
  | [] => Raise KeyError
  | row :: rest => if Timestamp_eqb (name row) t then Ok row else loc rest t
  end.

(** [df.loc["Y-M-D"]]: the rows of one calendar day. *)
Definition loc_day (df : DataFrame) (t : Timestamp) : result DataFrame :=
  match filter (fun row => same_day (name row) t) df with
  | [] => Raise KeyError
  | rows => Ok rows
  end.

Fixpoint insert_sorted (x : R) (l : list R) : list R :=
  match l with
  | [] => [x]
  | y :: l' => if Rle_b x y then x :: l else y :: insert_sorted x l'
  end.

Definition sort_values (l : list R) : list R := fold_right insert_sorted [] l.

(** [Series.quantile(q)] with pandas' default linear interpolation: on the
    sorted values, position [q * (n - 1)] is interpolated between its two
    neighbours; the quantile of an empty series is NaN, and [q] outside
    [0, 1] is a ValueError. *)
Definition quantile (values : list R) (q : R) : result cell :=
  if Rle_b 0 q && Rle_b q 1 then
    match sort_values values with
    | [] => Ok None
    | (v0 :: _) as sorted =>
        let pos := q * (INR (List.length sorted) - 1) in
        let lo := Z.to_nat (Int_part pos) in
        let a := nth lo sorted v0 in
        let b := nth (Nat.min (S lo) (List.length sorted - 1)) sorted v0 in
        Ok (Some (a + (b - a) * (pos - IZR (Int_part pos))))
    end
  else Raise ValueError.

(** [x > y] and [x < y] against a value that may be NaN: false on NaN. *)
Definition gt_cell (x : R) (y : cell) : bool :=
  match y with Some v => Rgt_b x v | None => false end.
Definition lt_cell (x : R) (y : cell) : bool :=
  match y with Some v => Rlt_b x v | None => false end.

(** ** battery_controller.py *)

Module battery_controller.
Import battery_model.
Local Open Scope py_scope.

Module controller_peaksimple.

Record obj : Type := mkobj {
  peak_hours : list Z;
  trough_hour : Z
}.

Definition class_defaults : obj := mkobj [] 0.

Definition __init__ (peak_hours : list Z) (trough_hour : Z) : M obj unit :=
  modify (fun self => mkobj peak_hours (controller_peaksimple.trough_hour self)) ;;
  modify (fun self => mkobj (controller_peaksimple.peak_hours self) trough_hour).

Definition new (peak_hours : list Z) (trough_hour : Z) : result obj :=
  match __init__ peak_hours trough_hour class_defaults with
  | (Ok _, self) => Ok self
  | (Raise e, _) => Raise e
  end.

(** [x in l] on a list of hour numbers *)
Definition py_in (x : Z) (l : list Z) : bool := existsb (Z.eqb x) l.

Definition decide (df : DataFrame) (cur_datetime : Timestamp)
    (battery_obj : Battery) : M obj R :=
  self <- get ;;
  if py_in (hour cur_datetime) (peak_hours self)
     && (dayofweek cur_datetime <=? 4)%Z
  then
    row <- lift (loc df cur_datetime) ;;
    ret (-1 * py_min3 (max_charge_rate battery_obj)
                      (available_to_discharge battery_obj)
                      (Usage row))
  else if (hour cur_datetime >=? trough_hour self)%Z
  then ret (py_min2 (max_charge_rate battery_obj)
                    (available_store_cap battery_obj))
  else ret 0.

End controller_peaksimple.

Module controller_dailythresh.

Record obj : Type := mkobj {
  thresh_high_quant : R;
  thresh_low_quant : R;
  thresh_high_price : cell;
  thresh_low_price : cell
}.

Definition class_defaults : obj := mkobj 1 0 (Some 1) (Some 0).

Definition set_thresh_high_quant (v : R) (c : obj) : obj :=
  mkobj v (thresh_low_quant c) (thresh_high_price c) (thresh_low_price c).
Definition set_thresh_low_quant (v : R) (c : obj) : obj :=
  mkobj (thresh_high_quant c) v (thresh_high_price c) (thresh_low_price c).
Definition set_thresh_high_price (v : cell) (c : obj) : obj :=
  mkobj (thresh_high_quant c) (thresh_low_quant c) v (thresh_low_price c).
Definition set_thresh_low_price (v : cell) (c : obj) : obj :=
  mkobj (thresh_high_quant c) (thresh_low_quant c) (thresh_high_price c) v.

Definition update_thresh (df : DataFrame) : M obj unit :=
  self <- get ;;
  h <- lift (quantile (map Apparent_Price df) (thresh_high_quant self)) ;;
  modify (set_thresh_high_price h) ;;
  self <- get ;;
  l <- lift (quantile (map Apparent_Price df) (thresh_low_quant self)) ;;
  modify (set_thresh_low_price l).

Definition __init__ (df : DataFrame) (thresh_high_quant thresh_low_quant : R)
    : M obj unit :=
  modify (set_thresh_high_quant thresh_high_quant) ;;
  modify (set_thresh_low_quant thresh_low_quant) ;;
  update_thresh df.

Definition new (df : DataFrame) (thresh_high_quant thresh_low_quant : R)
    : result obj :=
  match __init__ df thresh_high_quant thresh_low_quant class_defaults with
  | (Ok _, self) => Ok self
  | (Raise e, _) => Raise e
  end.

Definition decide (df : DataFrame) (cur_datetime : Timestamp)
    (battery_obj : Battery) : M obj R :=
  (if (hour cur_datetime =? 0)%Z
   then day_df <- lift (loc_day df cur_datetime) ;; update_thresh day_df
   else ret tt) ;;
  row <- lift (loc df cur_datetime) ;;
  let cur_price := Apparent_Price row in
  self <- get ;;
  if gt_cell cur_price (thresh_high_price self)
  then ret (-1 * py_min3 (max_charge_rate battery_obj)
                         (available_to_discharge battery_obj)
                         (Usage row))
  else if lt_cell cur_price (thresh_low_price self)
  then ret (py_min2 (max_charge_rate battery_obj)
                    (available_store_cap battery_obj))
  else ret 0.

End controller_dailythresh.

(** A controller object is an instance of one of the two classes; a call
    of its [decide] goes to the method of its class. *)
Inductive controller : Type :=
| PeakSimple (c : controller_peaksimple.obj)
| DailyThresh (c : controller_dailythresh.obj).

Definition decide (df : DataFrame) (cur_datetime : Timestamp)
    (battery_obj : Battery) : M controller R :=
  fun self =>
    match self with
    | PeakSimple c =>
        let (r, c') := controller_peaksimple.decide df cur_datetime battery_obj c in
        (r, PeakSimple c')
    | DailyThresh c =>
        let (r, c') := controller_dailythresh.decide df cur_datetime battery_obj c in
        (r, DailyThresh c')
    end.

(** The keyword arguments of [make_controller]; a key that was not passed
    is [None], and reading it is a KeyError. *)
Record kwargs : Type := mkkwargs {
  kw_df : option DataFrame;
  kw_thresh_high_quant : option R;
  kw_thresh_low_quant : option R;
  kw_peak_hours : option (list Z);
  kw_trough_hour : option Z
}.

Definition getitem {A} (o : option A) : result A :=
  match o with Some a => Ok a | None => Raise KeyError end.

Definition rbind {A B} (r : result A) (k : A -> result B) : result B :=
  match r with Ok a => k a | Raise e => Raise e end.

(** With a [controller_type] that is neither of the two tags no branch
    assigns [obj], and [return obj] reads an unbound local. *)
Definition make_controller (controller_type : string) (kw : kwargs)
    : result controller :=
  if String.eqb controller_type "daily_threshold" then
    rbind (getitem (kw_df kw)) (fun df =>
    rbind (getitem (kw_thresh_high_quant kw)) (fun hq =>
    rbind (getitem (kw_thresh_low_quant kw)) (fun lq =>
    rbind (controller_dailythresh.new df hq lq) (fun obj =>
    Ok (DailyThresh obj)))))
  else if String.eqb controller_type "simple_peak" then
    rbind (getitem (kw_peak_hours kw)) (fun ph =>
    rbind (getitem (kw_trough_hour kw)) (fun th =>
    rbind (controller_peaksimple.new ph th) (fun obj =>
    Ok (PeakSimple obj))))
  else Raise (UnboundLocalError "obj").

End battery_controller.

(** The error of naming a controller variant that does not exist. *)
Definition UnknownControllerType : exn := UnboundLocalError "obj".

(** ** virtual_battery.py *)

Module virtual_battery.
Import battery_model battery_controller.
Local Open Scope py_scope.

(** The dictionary made by [set_params]: its keys are exactly the names
    defined in user_input.py, whatever overrides were passed. *)
Record ui_dict : Type := mkui_dict {
  run_name : string;
  monthly_customer_charge : R;
  delivery_charge_peak : R;
  delivery_charge_offpeak : R;
  peak_price_hours : list Z;
  battery_model_name : string;
  battery_max_capacity : R;
  battery_max_charge_rate : R;
  battery_initial_state_of_charge : R;
  battery_round_trip_efficiency : R;
  controller_type : string;
  thresh_high_quant : R;
  thresh_low_quant : R;
  peak_hours : list Z;
  trough_hour : Z;
  hours_per_month : R
}.

(** A row of [model_df], the frame handed over by data acquisition; of its
    columns the simulation reads 'Usage (kWh)' and 'LBMP ($/MWHr)'. *)
Record MeterRow : Type := mkMeterRow {
  m_name : Timestamp;
  m_Usage : R;
  m_LBMP_MWHr : R
}.

(** [l[0]] and [l[-1]] *)
Definition first_item (l : list Z) : result Z :=
  match l with [] => Raise IndexError | x :: _ => Ok x end.
Definition last_item (l : list Z) : result Z :=
  match l with [] => Raise IndexError | x :: r => Ok (last r x) end.

(** The copy of [model_df] with the three pricing columns added; the
    columns filled in later hold NaN. *)
Definition add_pricing_columns (ui : ui_dict) (model_df : list MeterRow)
    : result DataFrame :=
  rbind (first_item (peak_price_hours ui)) (fun lo =>
  rbind (last_item (peak_price_hours ui)) (fun hi =>
  Ok (map (fun m =>
        let t := m_name m in
        let lbmp := m_LBMP_MWHr m / 1000 in
        let peak := ((hour t >=? lo) && (hour t <=? hi)
                     && (dayofweek t <=? 4))%Z in
        let delivery := if peak then delivery_charge_peak ui
                        else delivery_charge_offpeak ui in
        mkRow t (m_Usage m) (m_LBMP_MWHr m) lbmp delivery (lbmp + delivery)
              None None None None None)
      model_df))).

(** What a run has done to its objects, in the order it did it: the
    battery state written into the row of [t], a call of [decide] for [t]
    that returned [request], a call of [charge(request)] that returned.
    The log is not part of the program: it is kept beside the state so
    that the order and the number of the calls can be stated. *)
Inductive event : Type :=
| EvRecord (t : Timestamp) (soc atd cap : R)
| EvDecide (t : Timestamp) (request : R)
| EvCharge (t : Timestamp) (request : R).

(** The objects [step_result_df] closes over or receives. *)
Record world : Type := mkworld {
  battery : Battery;
  controller : battery_controller.controller;
  result_df : DataFrame;
  log : list event
}.

Definition on_battery {A} (m : M Battery A) : M world A :=
  fun w =>
    let (r, b) := m (battery w) in
    (r, mkworld b (controller w) (result_df w) (log w)).

Definition on_controller {A} (m : M battery_controller.controller A)
    : M world A :=
  fun w =>
    let (r, c) := m (controller w) in
    (r, mkworld (battery w) c (result_df w) (log w)).

Definition emit (e : event) : M world unit :=
  modify (fun w => mkworld (battery w) (controller w) (result_df w)
                           (log w ++ [e])).

(** Assignment into the row at position [i] of the frame: [row] in
    [step_result_df] is that row, not a copy of it. *)
Fixpoint update_row (i : nat) (f : Row -> Row) (df : DataFrame) : DataFrame :=
  match df, i with
  | [], _ => []
  | row :: rest, O => f row :: rest
  | row :: rest, S j => row :: update_row j f rest
  end.

Definition assign_row (i : nat) (f : Row -> Row) : M world unit :=
  modify (fun w => mkworld (battery w) (controller w)
                           (update_row i f (result_df w)) (log w)).

Definition set_State_of_Charge (v : cell) (r : Row) : Row :=
  mkRow (name r) (Usage r) (LBMP_MWHr r) (LBMP_kWh r)
    (NYSEG_Delivery_Charge r) (Apparent_Price r) (Charge_Decision r)
    v (Available_to_Discharge r) (Available_Storage_Capacity r)
    (Net_Electricity_Purchased r).
Definition set_Available_to_Discharge (v : cell) (r : Row) : Row :=
  mkRow (name r) (Usage r) (LBMP_MWHr r) (LBMP_kWh r)
    (NYSEG_Delivery_Charge r) (Apparent_Price r) (Charge_Decision r)
    (State_of_Charge r) v (Available_Storage_Capacity r)
    (Net_Electricity_Purchased r).
Definition set_Available_Storage_Capacity (v : cell) (r : Row) : Row :=
  mkRow (name r) (Usage r) (LBMP_MWHr r) (LBMP_kWh r)
    (NYSEG_Delivery_Charge r) (Apparent_Price r) (Charge_Decision r)
    (State_of_Charge r) (Available_to_Discharge r) v
    (Net_Electricity_Purchased r).
Definition set_Charge_Decision (v : cell) (r : Row) : Row :=
  mkRow (name r) (Usage r) (LBMP_MWHr r) (LBMP_kWh r)
    (NYSEG_Delivery_Charge r) (Apparent_Price r) v
    (State_of_Charge r) (Available_to_Discharge r)
    (Available_Storage_Capacity r) (Net_Electricity_Purchased r).
Definition set_Net_Electricity_Purchased (v : cell) (r : Row) : Row :=
  mkRow (name r) (Usage r) (LBMP_MWHr r) (LBMP_kWh r)
    (NYSEG_Delivery_Charge r) (Apparent_Price r) (Charge_Decision r)
    (State_of_Charge r) (Available_to_Discharge r)
    (Available_Storage_Capacity r) v.

(** [step_result_df(bat_df, row, battery, controller)], with [row] the row
    at position [i]; [bat_df] is [result_df] itself. *)
Definition step_result_df (i : nat) : M world unit :=
  w <- get ;;
  match nth_error (result_df w) i with
  | None => raise IndexError
  | Some row =>
      let t := name row in
      assign_row i (set_State_of_Charge
                      (Some (state_of_charge (battery w)))) ;;
      assign_row i (set_Available_to_Discharge
                      (Some (available_to_discharge (battery w)))) ;;
      assign_row i (set_Available_Storage_Capacity
                      (Some (available_store_cap (battery w)))) ;;
      emit (EvRecord t (state_of_charge (battery w))
                       (available_to_discharge (battery w))
                       (available_store_cap (battery w))) ;;
      w <- get ;;
      charge_decision <-
        on_controller (battery_controller.decide (result_df w) t (battery w)) ;;
      emit (EvDecide t charge_decision) ;;
      on_battery (charge charge_decision) ;;
      emit (EvCharge t charge_decision) ;;
      assign_row i (set_Charge_Decision (Some charge_decision))
  end.

(** [result_df.apply(f, axis=1)]: [f] on every row, in the order of the
    frame. *)
Fixpoint for_each {S} (l : list nat) (f : nat -> M S unit) : M S unit :=
  match l with
  | [] => ret tt
  | i :: rest => f i ;; for_each rest f
  end.

Definition apply_axis1 (f : nat -> M world unit) : M world unit :=
  w <- get ;;
  for_each (seq 0 (List.length (result_df w))) f.

(** [a + b] on cells: NaN if either is. *)
Definition add_cell (a : R) (b : cell) : cell :=
  match b with Some y => Some (a + y) | None => None end.

Definition add_net_column (df : DataFrame) : DataFrame :=
  map (fun r => set_Net_Electricity_Purchased
                  (add_cell (Usage r) (Charge_Decision r)) r) df.

(** [simulate(ui_dict, model_df)], up to the finished [result_df]; the
    summary statistics computed from it afterwards only read it.  The
    second component is the log of the run. *)
Definition simulate (ui : ui_dict) (model_df : list MeterRow)
    : result DataFrame * list event :=
  match add_pricing_columns ui model_df with
  | Raise e => (Raise e, [])
  | Ok df0 =>
      match battery_model.new (battery_model_name ui)
              (battery_max_capacity ui) (battery_max_charge_rate ui)
              (battery_initial_state_of_charge ui)
              (battery_round_trip_efficiency ui) with
      | Raise e => (Raise e, [])
      | Ok bat =>
          match make_controller (controller_type ui)
                  (mkkwargs (Some df0) (Some (thresh_high_quant ui))
                     (Some (thresh_low_quant ui)) (Some (peak_hours ui))
                     (Some (trough_hour ui))) with
          | Raise e => (Raise e, [])
          | Ok ctl =>
              match apply_axis1 step_result_df (mkworld bat ctl df0 []) with
              | (Raise e, w) => (Raise e, log w)
              | (Ok _, w) => (Ok (add_net_column (result_df w)), log w)
              end
          end
      end
  end.

End virtual_battery.

(** * Specification-level definitions *)

Import battery_model.

(** The state of charge [Battery.charge] proposes for a request. *)
Definition proposed_charge_of (b : Battery) (request : R) : R :=
  if Rge_b request 0
  then state_of_charge b + request * charge_efficiency b
  else state_of_charge b + request / charge_efficiency b.

(** The battery an accepted proposal leaves behind. *)
Definition updated (b : Battery) (p : R) : Battery :=
  mkBattery (model_name b) (max_capacity b) (max_charge_rate b) p
    (round_trip_efficiency b) (charge_efficiency b)
    (p * charge_efficiency b)
    ((max_capacity b - p) / charge_efficiency b).

(** A battery with the default parameters of user_input.py, except that it
    loses nothing (round-trip efficiency 1), holding [soc0] kWh. *)
Definition powerwall (soc0 : R) : Battery :=
  mkBattery "Tesla Powerwall 2" 14 (33 / 10) soc0 1 1 soc0 (14 - soc0).

(** The battery objects a program can hold: made by the constructor, then
    subjected to any calls of [charge], failed ones included. *)
Inductive reachable : Battery -> Prop :=
| reachable_new n cap rate soc0 rte b :
    battery_model.new n cap rate soc0 rte = Ok b -> reachable b
| reachable_charge b request o b' :
    reachable b -> charge request b = (o, b') -> reachable b'.

(** What every such object satisfies. *)
Record consistent (b : Battery) : Prop := mkconsistent {
  cons_rte : 0 < round_trip_efficiency b;
  cons_eff : charge_efficiency b = sqrt (round_trip_efficiency b);
  cons_eff_pos : 0 < charge_efficiency b;
  cons_atd : available_to_discharge b = state_of_charge b * charge_efficiency b;
  cons_cap : available_store_cap b =
             (max_capacity b - state_of_charge b) / charge_efficiency b
}.

Definition in_bounds (b : Battery) : Prop :=
  0 <= state_of_charge b <= max_capacity b.

(** A sequence of [charge] calls on one battery: the states after each
    call, or the exception that stopped the sequence. *)
Fixpoint charge_all (requests : list R) (b : Battery) : result (list Battery) :=
  match requests with
  | [] => Ok []
  | r :: rest =>
      match charge r b with
      | (Ok _, b') =>
          match charge_all rest b' with
          | Ok states => Ok (b' :: states)
          | Raise e => Raise e
          end
      | (Raise e, _) => Raise e
      end
  end.

(** The test that opens [controller_peaksimple.decide]. *)
Definition is_weekday_peak (self : battery_controller.controller_peaksimple.obj)
    (t : Timestamp) : bool :=
  battery_controller.controller_peaksimple.py_in (hour t)
    (battery_controller.controller_peaksimple.peak_hours self)
  && (dayofweek t <=? 4)%Z.

(** The schedule of user_input.py: discharge at 16:00 and 17:00, charge
    from 02:00 on. *)
Definition schedule : battery_controller.controller_peaksimple.obj :=
  battery_controller.controller_peaksimple.mkobj [16; 17]%Z 2%Z.

(** Two afternoons of March 2018: the 13th was a Tuesday, the 17th a
    Saturday. *)
Definition tuesday16 : Timestamp := mkTimestamp 2018 3 13 16.
Definition saturday16 : Timestamp := mkTimestamp 2018 3 17 16.

(** A row with the columns the controllers read. *)
Definition demo_row (t : Timestamp) (usage price : R) : Row :=
  mkRow t usage 0 0 0 price None None None None None.

Definition demo_df : DataFrame :=
  [demo_row tuesday16 1 (3 / 10); demo_row saturday16 1 (1 / 10)].

(** The values of the apparent-price column. *)
Definition prices (df : DataFrame) : list R := map Apparent_Price df.

(** The rows of the calendar day of [t]. *)
Definition day_rows (df : DataFrame) (t : Timestamp) : DataFrame :=
  filter (fun row => same_day (name row) t) df.

(** The thresholds of a controller are the quantiles [hq] and [lq] of the
    apparent prices of [rows]. *)
Definition thresholds_from (hq lq : R)
    (c : battery_controller.controller_dailythresh.obj)
    (rows : DataFrame) : Prop :=
  quantile (prices rows) hq =
    Ok (battery_controller.controller_dailythresh.thresh_high_price c) /\
  quantile (prices rows) lq =
    Ok (battery_controller.controller_dailythresh.thresh_low_price c).

(** The request [controller_dailythresh.decide] makes for the hour of [row]
    against thresholds [high] and [low]. *)
Definition threshold_request (high low : cell) (row : Row) (bat : Battery) : R :=
  if gt_cell (Apparent_Price row) high
  then -1 * py_min3 (max_charge_rate bat) (available_to_discharge bat)
                    (Usage row)
  else if lt_cell (Apparent_Price row) low
  then py_min2 (max_charge_rate bat) (available_store_cap bat)
  else 0.

(** Successive [decide] calls on one threshold controller. *)
Fixpoint decide_each (df : DataFrame) (calls : list (Timestamp * Battery))
    : M battery_controller.controller_dailythresh.obj (list R) :=
  match calls with
  | [] => ret []
  | (t, bat) :: rest =>
      bind (battery_controller.controller_dailythresh.decide df t bat)
        (fun r => bind (decide_each df rest) (fun rs => ret (r :: rs)))
  end.

(** The time of the latest call made at hour 0, if there was one. *)
Fixpoint last_midnight_from (acc : option Timestamp)
    (calls : list (Timestamp * Battery)) : option Timestamp :=
  match calls with
  | [] => acc
  | (t, _) :: rest =>
      last_midnight_from (if (hour t =? 0)%Z then Some t else acc) rest
  end.

(** The rows whose prices the thresholds come from, after calls made
    since construction: the day of the latest hour-0 call, or the whole
    series when there was none. *)
Definition source_rows (df : DataFrame) (calls : list (Timestamp * Battery))
    : DataFrame :=
  match last_midnight_from None calls with
  | Some t0 => day_rows df t0
  | None => df
  end.

(** A series that begins one hour before midnight: 23:00 on Monday
    2018-03-12 at 2 $/kWh, then 00:00 on Tuesday at 1 $/kWh. *)
Definition monday23 : Timestamp := mkTimestamp 2018 3 12 23.
Definition tuesday00 : Timestamp := mkTimestamp 2018 3 13 0.
Definition night_df : DataFrame :=
  [demo_row monday23 1 2; demo_row tuesday00 1 1].

(** ** The hourly loop *)

Import virtual_battery.

(** One simulated hour: its time, the battery as the hour began, the
    request decided and carried out, the battery as the hour ended. *)
Record hour_step : Type := mkhour_step {
  hs_time : Timestamp;
  hs_before : Battery;
  hs_request : R;
  hs_after : Battery
}.

Definition events_of (s : hour_step) : list event :=
  [EvRecord (hs_time s) (state_of_charge (hs_before s))
            (available_to_discharge (hs_before s))
            (available_store_cap (hs_before s));
   EvDecide (hs_time s) (hs_request s);
   EvCharge (hs_time s) (hs_request s)].

(** Every hour begins with the battery the hour before left, and ends
    with what one successful [charge] of the hour's request makes of it. *)
Fixpoint chained (b : Battery) (steps : list hour_step) : Prop :=
  match steps with
  | [] => True
  | s :: rest =>
      hs_before s = b /\
      charge (hs_request s) b = (Ok tt, hs_after s) /\
      chained (hs_after s) rest
  end.

(** The row of an hour holds the battery state the hour began with, the
    request, and usage plus request as net purchase. *)
Definition recorded (row : Row) (s : hour_step) : Prop :=
  name row = hs_time s /\
  State_of_Charge row = Some (state_of_charge (hs_before s)) /\
  Available_to_Discharge row = Some (available_to_discharge (hs_before s)) /\
  Available_Storage_Capacity row = Some (available_store_cap (hs_before s)) /\
  Charge_Decision row = Some (hs_request s) /\
  Net_Electricity_Purchased row = Some (Usage row + hs_request s).

(** What [step_result_df] writes into the row of an hour. *)
Definition fill (s : hour_step) (row : Row) : Row :=
  set_Charge_Decision (Some (hs_request s))
    (set_Available_Storage_Capacity
       (Some (available_store_cap (hs_before s)))
       (set_Available_to_Discharge
          (Some (available_to_discharge (hs_before s)))
          (set_State_of_Charge
             (Some (state_of_charge (hs_before s))) row))).

Fixpoint fill_all (rows : DataFrame) (steps : list hour_step) : DataFrame :=
  match rows, steps with
  | row :: rows', s :: steps' => fill s row :: fill_all rows' steps'
  | _, _ => []
  end.

(** The row of an hour as [decide] finds it: the battery state has been
    written into it, the request not yet. *)
Definition record_state (b : Battery) (row : Row) : Row :=
  set_Available_Storage_Capacity (Some (available_store_cap b))
    (set_Available_to_Discharge (Some (available_to_discharge b))
       (set_State_of_Charge (Some (state_of_charge b)) row)).

(** The request of every hour is the value [battery_controller.decide]
    returned in that hour, called with the frame as it stood then (the
    rows [done] of the earlier hours filled in, the row of the hour with
    the battery state recorded, the later rows untouched), the label of
    the row, the battery the hour began with, and the controller as the
    hour before left it. *)
Fixpoint decided (done todo : DataFrame) (ctl : battery_controller.controller)
    (steps : list hour_step) : Prop :=
  match todo, steps with
  | [], [] => True
  | row :: rest, s :: steps' =>
      exists ctl',
        battery_controller.decide
          (done ++ record_state (hs_before s) row :: rest)
          (name row) (hs_before s) ctl = (Ok (hs_request s), ctl') /\
        decided (done ++ [fill s row]) rest ctl' steps'
  | _, _ => False
  end.

(** The parameters of user_input.py with the fixed-schedule controller
    and a battery that loses nothing, and two hours of Tuesday 2018-03-13:
    03:00, past the trough hour, and 16:00, a peak hour. *)
Definition demo_ui : ui_dict :=
  mkui_dict "default_run_name" (1592 / 100) (1242 / 10000) (3011 / 100000)
    [16; 17]%Z "Tesla Powerwall 2" 14 (33 / 10) 0 1 "simple_peak"
    (85 / 100) (15 / 100) [16; 17]%Z 2%Z 730.

Definition tuesday03 : Timestamp := mkTimestamp 2018 3 13 3.

Definition demo_model_df : list MeterRow :=
  [mkMeterRow tuesday03 1 30; mkMeterRow tuesday16 1 40].

(** ** virtual_battery.py: set_params *)

(** A Python dictionary with string keys: its items in insertion order,
    no key twice. *)
Definition py_dict (V : Type) : Type := list (string * V).

Fixpoint dict_contains {V} (key : string) (d : py_dict V) : bool :=
  match d with
  | [] => false
  | (k, _) :: rest => String.eqb k key || dict_contains key rest
  end.

Fixpoint dict_get {V} (key : string) (d : py_dict V) : option V :=
  match d with
  | [] => None
  | (k, v) :: rest => if String.eqb k key then Some v else dict_get key rest
  end.

(** [d[key] = value]: the value of a key already there is replaced where
    it stands, a new key goes to the end. *)
Fixpoint dict_set {V} (key : string) (value : V) (d : py_dict V) : py_dict V :=
  match d with
  | [] => [(key, value)]
  | (k, v) :: rest =>
      if String.eqb k key then (k, value) :: rest
      else (k, v) :: dict_set key value rest
  end.

(** [sub in s] on strings *)
Fixpoint str_contains (sub s : string) : bool :=
  String.prefix sub s ||
  match s with
  | EmptyString => false
  | String _ s' => str_contains sub s'
  end.

(** [set_params] called with the keyword arguments [kwargs];
    [module_dict] is [ui.__dict__], the names user_input.py defines
    together with the module's own dunder names. *)
Definition set_params {V} (module_dict kwargs : py_dict V) : py_dict V :=
  let ui_dict :=
    filter (fun kv => negb (str_contains "__" (fst kv))) module_dict in
  fold_left
    (fun ui_dict kv =>
       if dict_contains (fst kv) ui_dict
       then dict_set (fst kv) (snd kv) ui_dict
       else ui_dict)
    kwargs ui_dict.

(** ** model_output.py: summary_stats *)

Module model_output.

(** Arithmetic of numpy floats; [None] is a value that is not a finite
    number (NaN or an infinity), which any operation hands on, and which a
    division by zero produces. *)
Definition np_lift2 (f : R -> R -> R) (a b : cell) : cell :=
  match a, b with
  | Some x, Some y => Some (f x y)
  | _, _ => None
  end.
Definition np_add : cell -> cell -> cell := np_lift2 Rplus.
Definition np_sub : cell -> cell -> cell := np_lift2 Rminus.
Definition np_mul : cell -> cell -> cell := np_lift2 Rmult.
Definition np_div (a b : cell) : cell :=
  match a, b with
  | Some x, Some y => if Req_dec_T y 0 then None else Some (x / y)
  | _, _ => None
  end.

(** [np.dot(a, b)] of two columns of one frame *)
Fixpoint np_dot (a b : list cell) : cell :=
  match a, b with
  | x :: a', y :: b' => np_add (np_mul x y) (np_dot a' b')
  | _, _ => Some 0
  end.

(** [Series.sum()]: NaN cells are skipped. *)
Fixpoint series_sum (a : list cell) : cell :=
  match a with
  | [] => Some 0
  | Some x :: a' => np_add (Some x) (series_sum a')
  | None :: a' => series_sum a'
  end.

(** The dictionary [d], one field per key; 'monthly_cost_diff_$' is
    [monthly_cost_diff]. *)
Record summary : Type := mksummary {
  total_cost_no_battery : cell;
  total_electricity_purchases_no_battery : cell;
  peak_electricity_purchases_no_battery : cell;
  peak_ratio_no_battery : cell;
  total_cost_with_battery : cell;
  total_electricity_purchases_with_battery : cell;
  peak_electricity_purchases_with_battery : cell;
  peak_ratio_with_battery : cell;
  total_cost_diff : cell;
  total_electricity_purchases_diff : cell;
  peak_electricity_purchases_diff : cell;
  monthly_cost_diff : cell;
  monthly_electricity_purchases_diff : cell;
  monthly_peak_electricity_purchases_diff : cell;
  peak_ratio_diff : cell
}.

Definition usage_column (df : DataFrame) : list cell :=
  map (fun r => Some (Usage r)) df.
Definition price_column (df : DataFrame) : list cell :=
  map (fun r => Some (Apparent_Price r)) df.
Definition net_column (df : DataFrame) : list cell :=
  map Net_Electricity_Purchased df.

Definition summary_stats (result_df : DataFrame) (peak_hours : list Z)
    (hours_per_month : R) : result summary :=
  let n_hours := Some (INR (List.length result_df)) in
  battery_controller.rbind (virtual_battery.first_item peak_hours) (fun lo =>
  battery_controller.rbind (virtual_battery.last_item peak_hours) (fun hi =>
  let peak_hours_df :=
    filter (fun r => ((hour (name r) >=? lo) && (hour (name r) <=? hi))%Z)
           result_df in
  let cost_no := np_dot (usage_column result_df) (price_column result_df) in
  let total_no := series_sum (usage_column result_df) in
  let peak_no := series_sum (usage_column peak_hours_df) in
  let ratio_no := np_div peak_no total_no in
  let cost_with := np_dot (net_column result_df) (price_column result_df) in
  let total_with := series_sum (net_column result_df) in
  let peak_with := series_sum (net_column peak_hours_df) in
  let ratio_with := np_div peak_with total_with in
  let cost_diff := np_sub cost_no cost_with in
  let total_diff := np_sub total_with total_no in
  let peak_diff := np_sub peak_with peak_no in
  Ok (mksummary cost_no total_no peak_no ratio_no
        cost_with total_with peak_with ratio_with
        cost_diff total_diff peak_diff
        (np_mul (np_div cost_diff n_hours) (Some hours_per_month))
        (np_mul (np_div total_diff n_hours) (Some hours_per_month))
        (np_mul (np_div peak_diff n_hours) (Some hours_per_month))
        (np_sub ratio_with ratio_no)))).

End model_output.

(** [simulate(ui_dict, model_df)] with both parts of its return value:
    the summary is computed from the finished frame. *)
Definition simulate_with_summary (ui : virtual_battery.ui_dict)
    (model_df : list virtual_battery.MeterRow)
    : result (model_output.summary * DataFrame) * list virtual_battery.event :=
  match virtual_battery.simulate ui model_df with
  | (Ok result_df, lg) =>
      (battery_controller.rbind
         (model_output.summary_stats result_df
            (virtual_battery.peak_price_hours ui)
            (virtual_battery.hours_per_month ui))
         (fun result_dict => Ok (result_dict, result_df)), lg)
  | (Raise e, lg) => (Raise e, lg)
  end.

(** ** data_import.py: build_nyiso_url *)

Module data_import.

(** [s[a:b]] on strings, for [0 <= a <= b]. *)
Definition slice (a b : nat) (s : string) : string := substring a (b - a) s.

Definition digit (n : Z) : ascii := ascii_of_nat (48 + Z.to_nat (n mod 10)).

Definition digits2 (n : Z) : string :=
  String (digit (n / 10)) (String (digit n) EmptyString).

Definition digits4 (n : Z) : string :=
  String (digit (n / 1000)) (String (digit (n / 100)) (digits2 n)).

(** [str(timestamp)] of a pandas timestamp without time zone, on the
    hour: "YYYY-MM-DD HH:00:00" (a pandas year has four digits). *)
Definition str_Timestamp (t : Timestamp) : string :=
  (digits4 (year t) ++ "-" ++ digits2 (month t) ++ "-" ++ digits2 (day t)
   ++ " " ++ digits2 (hour t) ++ ":00:00")%string.

Definition _to_yyyymmdd (timestamp : Timestamp) : string :=
  let s := str_Timestamp timestamp in
  (slice 0 4 s ++ slice 5 7 s ++ slice 8 10 s)%string.

(** What the function gives: the URL, or the RuntimeError it raises. *)
Inductive url_result : Type :=
| Url (url : string)
| RuntimeError (msg : string).

Definition msg_zone : string :=
  "Zone must be specified when data_type == 'damlbmp'".

Definition build_nyiso_url (month : Timestamp) (data_type : string)
    (zone : option string) : url_result :=
  if String.eqb data_type "damlbmp" &&
     match zone with None => true | Some _ => false end
  then RuntimeError msg_zone
  else
    let url := "http://mis.nyiso.com/public/csv/"%string in
    let url := (url ++ data_type ++ "/")%string in
    let url := (url ++ _to_yyyymmdd month ++ data_type)%string in
    let url := match zone with
               | Some _ => (url ++ "_zone")%string
               | None => url
               end in
    Url (url ++ "_csv.zip")%string.

End data_import.

(** ** Definitions for the further properties *)

Definition sum_R (l : list R) : R := fold_right Rplus 0 l.

(** What one [charge] adds to the stored energy for a request. *)
Definition stored_change (eff request : R) : R :=
  if Rge_b request 0 then request * eff else request / eff.

(** A request the battery will carry out: within the rate limit, with a
    proposed state of charge within bounds. *)
Definition feasible (b : Battery) (request : R) : Prop :=
  Rabs request <= max_charge_rate b /\
  0 <= proposed_charge_of b request <= max_capacity b.

(** A request within what the battery reports: within the rate limit, and
    between what it can deliver and what it can still store. *)
Definition within_limits (b : Battery) (request : R) : Prop :=
  Rabs request <= max_charge_rate b /\
  - available_to_discharge b <= request <= available_store_cap b.

(** Every hour of the series has a usage that is not negative. *)
Definition usage_nonneg (df : DataFrame) : Prop :=
  Forall (fun r => 0 <= Usage r) df.

(** The series has a row for time [t]. *)
Definition has_row (df : DataFrame) (t : Timestamp) : Prop :=
  exists row, In row df /\ name row = t.

(** The request recorded in a row (0 for a row not yet decided). *)
Definition decision_of (row : Row) : R :=
  match Charge_Decision row with Some q => q | None => 0 end.

(** The rows [summary_stats] counts as peak: hour of day between the
    first and the last of the peak hours given, on any day of the week. *)
Definition summary_peak_rows (df : DataFrame) (lo hi : Z) : DataFrame :=
  filter (fun r => ((hour (name r) >=? lo) && (hour (name r) <=? hi))%Z) df.

(** The names user_input.py defines, as strings, behind two of the names
    every module has. *)
Definition demo_module_dict : py_dict string :=
  [("__name__", "user_input"); ("__doc__", "Created on Wed Mar  7");
   ("run_name", "default_run_name"); ("controller_type", "daily_threshold");
   ("trough_hour", "2")]%string.

(** * The battery *)

Lemma Rle_b_true x y : Rle_b x y = true <-> x <= y.
Proof. unfold Rle_b; destruct (Rle_dec x y); split; intros; auto; discriminate. Qed.

Lemma Rle_b_false x y : Rle_b x y = false <-> y < x.
Proof.
  unfold Rle_b; destruct (Rle_dec x y); split; intros; auto;
    try discriminate; lra.
Qed.

Lemma Rlt_b_true x y : Rlt_b x y = true <-> x < y.
Proof. unfold Rlt_b; destruct (Rlt_dec x y); split; intros; auto; discriminate. Qed.

Lemma Rlt_b_false x y : Rlt_b x y = false <-> y <= x.
Proof.
  unfold Rlt_b; destruct (Rlt_dec x y); split; intros; auto;
    try discriminate; lra.
Qed.

(** Case analysis on every comparison in sight, keeping the facts. *)
Ltac cmp_cases :=
  repeat match goal with
  | |- context [Rle_b ?x ?y] =>
      let E := fresh "E" in
      destruct (Rle_b x y) eqn:E;
      [apply Rle_b_true in E | apply Rle_b_false in E]
  | |- context [Rlt_b ?x ?y] =>
      let E := fresh "E" in
      destruct (Rlt_b x y) eqn:E;
      [apply Rlt_b_true in E | apply Rlt_b_false in E]
  end.

Lemma py_min2_Rmin a b : py_min2 a b = Rmin a b.
Proof.
  unfold py_min2, Rmin. cmp_cases; destruct (Rle_dec a b); lra.
Qed.

Lemma py_min3_Rmin a b c : py_min3 a b c = Rmin (Rmin a b) c.
Proof. unfold py_min3. now rewrite !py_min2_Rmin. Qed.

Lemma py_div_ok a b : b <> 0 -> py_div a b = Ok (a / b).
Proof. intros H. unfold py_div. destruct (Req_dec_T b 0); [contradiction | reflexivity]. Qed.

Lemma update_charge_values_run b p :
  charge_efficiency b <> 0 ->
  _update_charge_values p b = (Ok tt, updated b p).
Proof.
  intros H. unfold _update_charge_values, bind, modify, get, lift. simpl.
  rewrite py_div_ok by assumption. reflexivity.
Qed.

(** [charge] in closed form, on a battery whose efficiency is not zero. *)
Lemma charge_run b request :
  charge_efficiency b <> 0 ->
  charge request b =
    if Rle_b (Rabs request) (max_charge_rate b) then
      if Rge_b (proposed_charge_of b request) 0 then
        if Rle_b (proposed_charge_of b request) (max_capacity b)
        then (Ok tt, updated b (proposed_charge_of b request))
        else (Raise OverCharge, b)
      else (Raise OverDischarge, b)
    else (Raise InvalidRequest, b).
Proof.
  intros H. unfold charge, proposed_charge_of, bind, get, py_assert, ret, raise, lift.
  destruct (Rle_b (Rabs request) (max_charge_rate b)); [| reflexivity].
  destruct (Rge_b request 0).
  - destruct (Rge_b _ 0); [| reflexivity].
    destruct (Rle_b _ (max_capacity b)); [| reflexivity].
    now apply update_charge_values_run.
  - rewrite py_div_ok by assumption.
    destruct (Rge_b _ 0); [| reflexivity].
    destruct (Rle_b _ (max_capacity b)); [| reflexivity].
    now apply update_charge_values_run.
Qed.

Lemma new_run n cap rate soc0 rte :
  0 < rte ->
  battery_model.new n cap rate soc0 rte =
    Ok (mkBattery n cap rate soc0 rte (sqrt rte) (soc0 * sqrt rte)
          ((cap - soc0) / sqrt rte)).
Proof.
  intros H. pose proof (sqrt_lt_R0 rte H) as Hs.
  unfold battery_model.new, __init__, bind, modify, lift, math_sqrt.
  destruct (Rlt_b rte 0) eqn:E; [apply Rlt_b_true in E; lra |].
  cbv beta iota.
  match goal with
  | |- context [_update_charge_values ?p ?b] =>
      rewrite (update_charge_values_run b p) by (cbn -[sqrt]; lra)
  end.
  reflexivity.
Qed.

Lemma new_inv n cap rate soc0 rte b :
  battery_model.new n cap rate soc0 rte = Ok b ->
  0 < rte /\
  b = mkBattery n cap rate soc0 rte (sqrt rte) (soc0 * sqrt rte)
        ((cap - soc0) / sqrt rte).
Proof.
  intros H. destruct (Rlt_le_dec 0 rte) as [Hp | Hn].
  - rewrite new_run in H by assumption. split; [assumption | congruence].
  - exfalso. revert H.
    unfold battery_model.new, __init__, bind, modify, lift, math_sqrt.
    destruct (Rlt_b rte 0) eqn:E; [discriminate |].
    apply Rlt_b_false in E. assert (rte = 0) by lra. subst rte.
    cbn -[sqrt]. unfold _update_charge_values, bind, modify, get, lift.
    cbn -[sqrt]. unfold py_div. rewrite sqrt_0.
    destruct (Req_dec_T 0 0); [discriminate | lra].
Qed.

Lemma new_consistent n cap rate soc0 rte b :
  battery_model.new n cap rate soc0 rte = Ok b -> consistent b.
Proof.
  intros H. apply new_inv in H as [Hp ->].
  pose proof (sqrt_lt_R0 rte Hp). constructor; cbn -[sqrt]; auto.
Qed.

Lemma updated_consistent b p : consistent b -> consistent (updated b p).
Proof. intros [? ? ? ? ?]. constructor; cbn; auto. Qed.

Lemma charge_consistent b request o b' :
  consistent b -> charge request b = (o, b') -> consistent b'.
Proof.
  intros Hc. pose proof (cons_eff_pos b Hc).
  rewrite charge_run by lra.
  destruct (Rle_b _ _); [| intros [= <- <-]; assumption].
  destruct (Rge_b _ _); [| intros [= <- <-]; assumption].
  destruct (Rle_b _ _); intros [= <- <-]; auto using updated_consistent.
Qed.

Lemma reachable_consistent b : reachable b -> consistent b.
Proof.
  induction 1; eauto using new_consistent, charge_consistent.
Qed.

Lemma reachable_mk n cap rate soc0 rte :
  0 < rte ->
  reachable (mkBattery n cap rate soc0 rte (sqrt rte) (soc0 * sqrt rte)
               ((cap - soc0) / sqrt rte)).
Proof. intros H. eapply reachable_new. now apply new_run. Qed.

Lemma powerwall_reachable soc0 : reachable (powerwall soc0).
Proof.
  replace (powerwall soc0) with
    (mkBattery "Tesla Powerwall 2" 14 (33 / 10) soc0 1 (sqrt 1)
       (soc0 * sqrt 1) ((14 - soc0) / sqrt 1)).
  - apply reachable_mk. lra.
  - unfold powerwall. rewrite sqrt_1. f_equal; field.
Qed.

Lemma charge_ok_inv b request b' :
  consistent b ->
  charge request b = (Ok tt, b') ->
  Rabs request <= max_charge_rate b /\
  0 <= proposed_charge_of b request <= max_capacity b /\
  b' = updated b (proposed_charge_of b request).
Proof.
  intros Hc. pose proof (cons_eff_pos b Hc).
  rewrite charge_run by lra. unfold Rge_b.
  cmp_cases; intros [= <-]. repeat split; assumption.
Qed.

Lemma charge_ok_intro b request :
  consistent b ->
  Rabs request <= max_charge_rate b ->
  0 <= proposed_charge_of b request <= max_capacity b ->
  charge request b = (Ok tt, updated b (proposed_charge_of b request)).
Proof.
  intros Hc Hr [Hlo Hhi]. pose proof (cons_eff_pos b Hc).
  rewrite charge_run by lra. unfold Rge_b.
  cmp_cases; try reflexivity; lra.
Qed.

Lemma proposed_charging b request :
  0 <= request ->
  proposed_charge_of b request =
  state_of_charge b + request * charge_efficiency b.
Proof.
  intros H. unfold proposed_charge_of, Rge_b. cmp_cases; [reflexivity | lra].
Qed.

Lemma proposed_discharging b request :
  request < 0 ->
  proposed_charge_of b request =
  state_of_charge b + request / charge_efficiency b.
Proof.
  intros H. unfold proposed_charge_of, Rge_b. cmp_cases; [lra | reflexivity].
Qed.

(** With a round-trip efficiency of 1/4 each operation keeps one half:
    2 kWh sent to the battery store 1 kWh, and 1 kWh delivered takes 2 kWh
    out of the store. *)
Example lossy_battery_charges_and_discharges :
  exists b b1 b2,
    battery_model.new "lossy" 10 5 4 (1 / 4) = Ok b /\
    charge_efficiency b = 1 / 2 /\
    available_to_discharge b = 2 /\
    available_store_cap b = 12 /\
    charge 2 b = (Ok tt, b1) /\ state_of_charge b1 = 5 /\
    charge (-1) b = (Ok tt, b2) /\ state_of_charge b2 = 2.
Proof.
  assert (Hs : sqrt (1 / 4) = 1 / 2) by (apply sqrt_lem_1; lra).
  assert (Hb : battery_model.new "lossy" 10 5 4 (1 / 4) =
               Ok (mkBattery "lossy" 10 5 4 (1 / 4) (1 / 2) 2 12)).
  { rewrite new_run by lra. rewrite Hs. do 2 f_equal; field. }
  pose proof (new_consistent _ _ _ _ _ _ Hb) as Hc.
  eexists. eexists. eexists.
  split; [exact Hb |]. cbn [charge_efficiency available_to_discharge
                            available_store_cap].
  split; [reflexivity |]. split; [reflexivity |]. split; [reflexivity |].
  split; [| split; [| split]].
  - apply charge_ok_intro; [exact Hc | cbn; rewrite Rabs_right; lra |].
    rewrite proposed_charging by lra. cbn. lra.
  - cbn. rewrite proposed_charging by lra. cbn. lra.
  - apply charge_ok_intro; [exact Hc | cbn; rewrite Rabs_left; lra |].
    rewrite proposed_discharging by lra. cbn. lra.
  - cbn. rewrite proposed_discharging by lra. cbn. lra.
Qed.

(** ** Claims about the battery *)

(** C1.  On every battery a program can hold, a request within the rate
    limit whose outcome stays within [0, max_capacity] is carried out, and
    it moves the state of charge by [request * charge_efficiency] when
    charging and by [request / charge_efficiency] when discharging (stored
    energy then drops by [abs(request) / charge_efficiency]), where
    [charge_efficiency] is the square root of the round-trip efficiency. *)
Theorem C1_charge_applies_efficiency (b : Battery) (request : R) :
  reachable b ->
  Rabs request <= max_charge_rate b ->
  (0 <= request ->
   0 <= state_of_charge b + request * sqrt (round_trip_efficiency b)
     <= max_capacity b) ->
  (request < 0 ->
   0 <= state_of_charge b + request / sqrt (round_trip_efficiency b)
     <= max_capacity b) ->
  exists b',
    charge request b = (Ok tt, b') /\
    charge_efficiency b = sqrt (round_trip_efficiency b) /\
    (0 <= request ->
     state_of_charge b' - state_of_charge b =
     request * sqrt (round_trip_efficiency b)) /\
    (request < 0 ->
     state_of_charge b' - state_of_charge b =
     request / sqrt (round_trip_efficiency b) /\
     state_of_charge b - state_of_charge b' =
     Rabs request / sqrt (round_trip_efficiency b)).
Proof.
  intros Hreach Hrate Hup Hdown.
  pose proof (reachable_consistent b Hreach) as Hc.
  pose proof (cons_eff b Hc) as Heff.
  exists (updated b (proposed_charge_of b request)).
  destruct (Rle_lt_dec 0 request) as [Hpos | Hneg].
  - specialize (Hup Hpos). repeat split; try lra; try assumption.
    + apply charge_ok_intro; try assumption.
      rewrite proposed_charging, Heff by assumption. assumption.
    + intros _. cbn. rewrite proposed_charging, Heff by assumption. ring.
  - specialize (Hdown Hneg). repeat split; try lra; try assumption.
    + apply charge_ok_intro; try assumption.
      rewrite proposed_discharging, Heff by assumption. assumption.
    + cbn. rewrite proposed_discharging, Heff by assumption. ring.
    + cbn. rewrite proposed_discharging, Heff by assumption.
      rewrite Rabs_left by assumption. unfold Rdiv. ring.
Qed.

Lemma C1_witness :
  exists b',
    charge (-2) (powerwall 5) = (Ok tt, b') /\
    charge_efficiency (powerwall 5) =
      sqrt (round_trip_efficiency (powerwall 5)) /\
    (0 <= -2 ->
     state_of_charge b' - state_of_charge (powerwall 5) =
     -2 * sqrt (round_trip_efficiency (powerwall 5))) /\
    (-2 < 0 ->
     state_of_charge b' - state_of_charge (powerwall 5) =
     -2 / sqrt (round_trip_efficiency (powerwall 5)) /\
     state_of_charge (powerwall 5) - state_of_charge b' =
     Rabs (-2) / sqrt (round_trip_efficiency (powerwall 5))).
Proof.
  apply (C1_charge_applies_efficiency (powerwall 5) (-2)).
  - apply powerwall_reachable.
  - cbn. rewrite Rabs_left; lra.
  - intros H. lra.
  - intros _. cbn. rewrite sqrt_1. lra.
Defined.

Lemma charge_all_in_bounds requests :
  forall b states,
    consistent b ->
    charge_all requests b = Ok states ->
    List.length states = List.length requests /\ Forall in_bounds states.
Proof.
  induction requests as [| r rest IH]; intros b states Hc; cbn [charge_all].
  - intros [= <-]. split; [reflexivity | constructor].
  - destruct (charge r b) as [[[] | e] b'] eqn:Hch; [| discriminate].
    destruct (charge_all rest b') as [states' | e] eqn:Hrest; [| discriminate].
    intros [= <-].
    pose proof (charge_consistent _ _ _ _ Hc Hch) as Hc'.
    destruct (IH _ _ Hc' Hrest) as [Hlen Hall].
    apply charge_ok_inv in Hch as (_ & Hb & ->); [| assumption].
    split; [cbn; now rewrite Hlen |].
    constructor; [exact Hb | assumption].
Qed.

(** C2.  A battery constructed with an initial state of charge within
    [0, max_capacity] is within bounds, and so is the battery after every
    call of a sequence of [charge] calls none of which raises. *)
Theorem C2_state_of_charge_invariant
    (n : string) (cap rate soc0 rte : R) (b : Battery)
    (requests : list R) (states : list Battery) :
  battery_model.new n cap rate soc0 rte = Ok b ->
  0 <= soc0 <= cap ->
  charge_all requests b = Ok states ->
  in_bounds b /\
  List.length states = List.length requests /\
  Forall in_bounds states.
Proof.
  intros Hnew Hinit Hall.
  pose proof (new_consistent _ _ _ _ _ _ Hnew) as Hc.
  split.
  - apply new_inv in Hnew as [_ ->]. exact Hinit.
  - eapply charge_all_in_bounds; eassumption.
Qed.

Lemma powerwall_new soc0 :
  battery_model.new "Tesla Powerwall 2" 14 (33 / 10) soc0 1 = Ok (powerwall soc0).
Proof.
  rewrite new_run by lra. unfold powerwall. rewrite sqrt_1.
  do 2 f_equal; field.
Qed.

Lemma powerwall_charge soc0 request :
  Rabs request <= 33 / 10 ->
  0 <= soc0 + request <= 14 ->
  charge request (powerwall soc0) = (Ok tt, powerwall (soc0 + request)).
Proof.
  intros Hr Hb.
  pose proof (reachable_consistent _ (powerwall_reachable soc0)) as Hc.
  assert (Hp : proposed_charge_of (powerwall soc0) request = soc0 + request).
  { unfold proposed_charge_of, Rge_b. cmp_cases; cbn; field. }
  rewrite charge_ok_intro; try assumption; rewrite Hp; try assumption.
  unfold updated, powerwall. cbn. do 2 f_equal; field.
Qed.

Lemma C2_witness :
  in_bounds (powerwall 0) /\
  List.length [powerwall (0 + 3); powerwall (0 + 3 + -1)] =
    List.length [3; -1] /\
  Forall in_bounds [powerwall (0 + 3); powerwall (0 + 3 + -1)].
Proof.
  apply (C2_state_of_charge_invariant "Tesla Powerwall 2" 14 (33 / 10) 0 1
           (powerwall 0) [3; -1]).
  - apply powerwall_new.
  - lra.
  - cbn [charge_all].
    rewrite powerwall_charge by (try rewrite Rabs_right; lra).
    rewrite powerwall_charge by (try rewrite Rabs_left; lra).
    reflexivity.
Defined.

(** C3, as stated, fails on the floats the program computes with: the
    battery [Battery("", 3.6, 1.0, 0, 0.81)] after three calls
    [charge(1.0)] reports [available_store_cap < max_charge_rate], yet
    [charge(max_charge_rate)] returns instead of raising OverCharge:
    [available_store_cap] is a quotient rounded on its own, while the
    assertion tests the proposed state of charge. *)
Lemma C3_counterexample :
  exists b0 b : battery_model_binary64.Battery,
    battery_model_binary64.small_battery = Ok b0 /\
    battery_model_binary64.charge_each
      battery_model_binary64.three_full_rate_hours b0 = (Ok tt, b) /\
    PrimFloat.ltb (battery_model_binary64.available_store_cap b)
                  (battery_model_binary64.max_charge_rate b) = true /\
    fst (battery_model_binary64.charge
           (battery_model_binary64.max_charge_rate b) b) = Ok tt.
Proof.
  eexists. eexists.
  split; [vm_compute; reflexivity |].
  split; [vm_compute; reflexivity |].
  split; vm_compute; reflexivity.
Qed.

(** C3.  On every battery a program can hold, [charge] raises exactly when
    the request exceeds the rate limit, or the proposed state of charge is
    below 0, or it is above [max_capacity]; the exception is InvalidRequest,
    OverDischarge and OverCharge respectively (the checks are made in that
    order); a call that raises leaves the battery as it was.  In
    particular, with capacity and rate limit not negative, a request of
    [max_charge_rate] raises OverCharge whenever the proposed state of
    charge [state_of_charge + max_charge_rate * charge_efficiency] exceeds
    [max_capacity]. *)
Theorem C3_charge_errors
    (b : Battery) (request : R) (o : result unit) (b' : Battery) :
  reachable b ->
  charge request b = (o, b') ->
  let p := proposed_charge_of b request in
  (is_Ok o = false <->
   Rabs request > max_charge_rate b \/ p < 0 \/ p > max_capacity b) /\
  (Rabs request > max_charge_rate b -> o = Raise InvalidRequest) /\
  (Rabs request <= max_charge_rate b -> p < 0 -> o = Raise OverDischarge) /\
  (Rabs request <= max_charge_rate b -> 0 <= p -> p > max_capacity b ->
   o = Raise OverCharge) /\
  (is_Ok o = false -> b' = b) /\
  (0 <= max_capacity b -> 0 <= max_charge_rate b ->
   request = max_charge_rate b ->
   state_of_charge b + max_charge_rate b * charge_efficiency b
     > max_capacity b ->
   o = Raise OverCharge).
Proof.
  intros Hreach Hch p.
  pose proof (reachable_consistent b Hreach) as Hc.
  pose proof (cons_eff_pos b Hc) as Hpos.
  assert (Hfull : 0 <= max_capacity b -> 0 <= max_charge_rate b ->
                  request = max_charge_rate b ->
                  state_of_charge b + max_charge_rate b * charge_efficiency b
                    > max_capacity b ->
                  Rabs request <= max_charge_rate b /\ 0 <= p /\
                  p > max_capacity b).
  { intros Hcap Hrate -> Hlt. subst p.
    rewrite proposed_charging by assumption.
    rewrite Rabs_right by lra. lra. }
  revert Hch. rewrite charge_run by lra. fold p. unfold Rge_b.
  cmp_cases; intros [= <- <-]; cbn [is_Ok];
    repeat split; intros; try reflexivity; try discriminate; try lra;
    try (destruct Hfull as (? & ? & ?); try assumption; lra).
  all: try (right; left; lra); try (right; right; lra); try (left; lra).
  all: repeat match goal with H : _ \/ _ |- _ => destruct H end; lra.
Qed.

Lemma C3_witness :
  let p := proposed_charge_of (powerwall 13) (33 / 10) in
  (is_Ok (Raise OverCharge : result unit) = false <->
   Rabs (33 / 10) > max_charge_rate (powerwall 13) \/ p < 0 \/
   p > max_capacity (powerwall 13)) /\
  (Rabs (33 / 10) > max_charge_rate (powerwall 13) ->
   Raise OverCharge = Raise (A := unit) InvalidRequest) /\
  (Rabs (33 / 10) <= max_charge_rate (powerwall 13) -> p < 0 ->
   Raise OverCharge = Raise (A := unit) OverDischarge) /\
  (Rabs (33 / 10) <= max_charge_rate (powerwall 13) -> 0 <= p ->
   p > max_capacity (powerwall 13) ->
   Raise OverCharge = Raise (A := unit) OverCharge) /\
  (is_Ok (Raise OverCharge : result unit) = false ->
   powerwall 13 = powerwall 13) /\
  (0 <= max_capacity (powerwall 13) -> 0 <= max_charge_rate (powerwall 13) ->
   33 / 10 = max_charge_rate (powerwall 13) ->
   state_of_charge (powerwall 13)
     + max_charge_rate (powerwall 13) * charge_efficiency (powerwall 13)
     > max_capacity (powerwall 13) ->
   Raise OverCharge = Raise (A := unit) OverCharge).
Proof.
  apply (C3_charge_errors (powerwall 13) (33 / 10)).
  - apply powerwall_reachable.
  - rewrite charge_run by (cbn; lra).
    assert (Hp : proposed_charge_of (powerwall 13) (33 / 10) = 13 + 33 / 10).
    { unfold proposed_charge_of, Rge_b. cmp_cases; cbn; lra. }
    rewrite Hp. unfold Rge_b. cbn [max_charge_rate max_capacity powerwall].
    rewrite Rabs_right by lra.
    cmp_cases; try reflexivity; lra.
Defined.

(** C7, as stated, fails: a battery holding 1 kWh is charged by 1 kWh and
    then asked for all it can deliver; it ends empty, not at 1 kWh. *)
Lemma C7_counterexample :
  reachable (powerwall 1) /\
  0 <= 1 /\
  charge 1 (powerwall 1) = (Ok tt, powerwall 2) /\
  charge (- available_to_discharge (powerwall 2)) (powerwall 2) =
    (Ok tt, powerwall 0) /\
  state_of_charge (powerwall 0) <> state_of_charge (powerwall 1).
Proof.
  split; [apply powerwall_reachable |].
  split; [lra |].
  split.
  - rewrite powerwall_charge by (try rewrite Rabs_right; lra).
    replace (1 + 1) with 2 by lra. reflexivity.
  - split; [| cbn; lra].
    cbn [available_to_discharge powerwall].
    rewrite powerwall_charge by (try rewrite Rabs_left; lra).
    replace (2 + Ropp 2) with 0 by lra. reflexivity.
Qed.

(** C7, amended.  After a successful [charge(x)] with [x >= 0], a call
    discharging the whole of the resulting [available_to_discharge], when
    it returns, leaves the battery empty: the state of charge is 0, which
    is the value before the charge only if the battery was empty then.
    (Whether that second call returns is decided by the assertions of
    [charge] on the rounded values, see [full_discharge_can_be_refused].) *)
Theorem C7_charge_then_full_discharge_empties
    (b b1 b2 : Battery) (x : R) :
  reachable b ->
  0 <= x ->
  charge x b = (Ok tt, b1) ->
  charge (- available_to_discharge b1) b1 = (Ok tt, b2) ->
  state_of_charge b2 = 0 /\
  (state_of_charge b2 = state_of_charge b <-> state_of_charge b = 0).
Proof.
  intros Hreach Hx Hch Hch2.
  pose proof (reachable_consistent b Hreach) as Hc.
  pose proof (charge_consistent _ _ _ _ Hc Hch) as Hc1.
  pose proof (cons_eff_pos b1 Hc1) as Hpos.
  pose proof (cons_atd b1 Hc1) as Hatd.
  apply charge_ok_inv in Hch as (_ & Hb & Hb1); [| assumption].
  assert (Hin : 0 <= state_of_charge b1 <= max_capacity b1)
    by (rewrite Hb1; cbn; exact Hb).
  assert (Hnn : 0 <= available_to_discharge b1) by (rewrite Hatd; nra).
  assert (Hp : proposed_charge_of b1 (- available_to_discharge b1) = 0).
  { destruct (Req_dec_T (available_to_discharge b1) 0) as [Hz | Hnz].
    - rewrite Hz, Ropp_0, proposed_charging by lra.
      rewrite Hatd in Hz. nra.
    - rewrite proposed_discharging by lra. rewrite Hatd. field. lra. }
  apply charge_ok_inv in Hch2 as (_ & _ & Hb2); [| assumption].
  rewrite Hb2. cbn. rewrite Hp. split; [reflexivity |].
  split; intros; lra.
Qed.

Lemma C7_witness :
  state_of_charge (powerwall 0) = 0 /\
  (state_of_charge (powerwall 0) = state_of_charge (powerwall 1) <->
   state_of_charge (powerwall 1) = 0).
Proof.
  apply (C7_charge_then_full_discharge_empties
           (powerwall 1) (powerwall 2) (powerwall 0) 1).
  - apply powerwall_reachable.
  - lra.
  - rewrite powerwall_charge by (try rewrite Rabs_right; lra).
    replace (1 + 1) with 2 by lra. reflexivity.
  - cbn [available_to_discharge powerwall].
    rewrite powerwall_charge by (try rewrite Rabs_left; lra).
    replace (2 + Ropp 2) with 0 by lra. reflexivity.
Defined.

(** On binary64 floats the full discharge can be refused although the rate
    limit allows it: the battery of user_input.py, empty, charged with
    1.7 kWh reports 1.53 kWh available to discharge; [charge(-1.53)]
    proposes a state of charge one rounding step below 0 and raises
    OverDischarge, the battery staying as the charge left it. *)
Example full_discharge_can_be_refused :
  exists b0 b1 : battery_model_binary64.Battery,
    battery_model_binary64.default_battery = Ok b0 /\
    battery_model_binary64.charge
      battery_model_binary64.half_rate_request b0 = (Ok tt, b1) /\
    PrimFloat.leb (battery_model_binary64.available_to_discharge b1)
                  (battery_model_binary64.max_charge_rate b1) = true /\
    battery_model_binary64.charge
      (PrimFloat.opp (battery_model_binary64.available_to_discharge b1)) b1 =
      (Raise OverDischarge, b1).
Proof.
  eexists. eexists.
  split; [vm_compute; reflexivity |].
  split; [vm_compute; reflexivity |].
  split; vm_compute; reflexivity.
Qed.

(** What does bring the battery back: discharging only what the charge
    added to [available_to_discharge], that is [x] times the round-trip
    efficiency; when that call returns, the state of charge is the one
    before the charge. *)
Lemma discharging_the_gain_restores (b b1 b2 : Battery) (x : R) :
  reachable b ->
  0 <= x ->
  charge x b = (Ok tt, b1) ->
  charge (- (available_to_discharge b1 - available_to_discharge b)) b1 =
    (Ok tt, b2) ->
  available_to_discharge b1 - available_to_discharge b =
    x * round_trip_efficiency b /\
  state_of_charge b2 = state_of_charge b.
Proof.
  intros Hreach Hx Hch Hch2.
  pose proof (reachable_consistent b Hreach) as Hc.
  pose proof (charge_consistent _ _ _ _ Hc Hch) as Hc1.
  pose proof (cons_eff_pos b Hc) as Hpos.
  pose proof (cons_atd b Hc) as Hatd.
  pose proof (cons_atd b1 Hc1) as Hatd1.
  assert (Hsq : charge_efficiency b * charge_efficiency b =
                round_trip_efficiency b).
  { rewrite (cons_eff b Hc). apply sqrt_sqrt. pose proof (cons_rte b Hc). lra. }
  apply charge_ok_inv in Hch as (_ & _ & Hb1); [| assumption].
  rewrite proposed_charging in Hb1 by assumption.
  assert (Hgain : available_to_discharge b1 - available_to_discharge b =
                  x * round_trip_efficiency b).
  { rewrite Hatd1, Hatd, Hb1, <- Hsq. cbn. ring. }
  assert (Hce1 : charge_efficiency b1 = charge_efficiency b)
    by (rewrite Hb1; reflexivity).
  assert (Hsoc1 : state_of_charge b1 =
                  state_of_charge b + x * charge_efficiency b)
    by (rewrite Hb1; reflexivity).
  assert (Hnn : 0 <= x * round_trip_efficiency b).
  { pose proof (cons_rte b Hc). nra. }
  assert (Hp : proposed_charge_of b1
                 (- (available_to_discharge b1 - available_to_discharge b)) =
               state_of_charge b).
  { rewrite Hgain.
    destruct (Req_dec_T (x * round_trip_efficiency b) 0) as [Hz | Hnz].
    - rewrite Hz, Ropp_0, proposed_charging by lra.
      rewrite Hsoc1. pose proof (cons_rte b Hc). nra.
    - rewrite proposed_discharging by lra.
      rewrite Hsoc1, Hce1, <- Hsq. field. lra. }
  apply charge_ok_inv in Hch2 as (_ & _ & Hb2); [| assumption].
  split; [exact Hgain |].
  rewrite Hb2. cbn. exact Hp.
Qed.

(** C10.  The constructor checks nothing about the initial state of
    charge: whatever the value (the round-trip efficiency being positive,
    as any efficiency is), it returns a battery holding exactly that value,
    with the derived values computed from it; a value below 0 or above
    [max_capacity] gives a battery outside its bounds. *)
Theorem C10_constructor_accepts_any_initial_charge
    (n : string) (cap rate soc0 rte : R) :
  0 < rte ->
  exists b,
    battery_model.new n cap rate soc0 rte = Ok b /\
    state_of_charge b = soc0 /\
    available_to_discharge b = soc0 * sqrt rte /\
    available_store_cap b = (cap - soc0) / sqrt rte /\
    (soc0 < 0 \/ cap < soc0 -> ~ in_bounds b).
Proof.
  intros Hrte. eexists. split; [now apply new_run |].
  cbn -[sqrt]. repeat split. unfold in_bounds. cbn -[sqrt]. intros [H | H]; lra.
Qed.

Lemma C10_witness :
  exists b,
    battery_model.new "Tesla Powerwall 2" 14 (33 / 10) (-5) 1 = Ok b /\
    state_of_charge b = -5 /\
    available_to_discharge b = -5 * sqrt 1 /\
    available_store_cap b = (14 - -5) / sqrt 1 /\
    (-5 < 0 \/ 14 < -5 -> ~ in_bounds b).
Proof.
  apply (C10_constructor_accepts_any_initial_charge
           "Tesla Powerwall 2" 14 (33 / 10) (-5) 1).
  lra.
Defined.

(** * The fixed-schedule controller *)

Import battery_controller.

Lemma dayofweek_range t : (0 <= dayofweek t <= 6)%Z.
Proof. unfold dayofweek. pose proof (Z.mod_pos_bound (days_from_civil (year t) (month t) (day t) + 3) 7). lia. Qed.

(** The days the source files say they were written on. *)
Example dayofweek_headers :
  dayofweek (mkTimestamp 2018 2 14 22) = 2%Z /\
  dayofweek (mkTimestamp 2018 3 7 13) = 2%Z /\
  dayofweek (mkTimestamp 2018 3 12 12) = 0%Z /\
  dayofweek (mkTimestamp 2018 3 19 16) = 0%Z /\
  dayofweek (mkTimestamp 2018 3 29 19) = 3%Z.
Proof. repeat split; reflexivity. Qed.

Lemma py_in_In x l : controller_peaksimple.py_in x l = true <-> In x l.
Proof.
  unfold controller_peaksimple.py_in. rewrite existsb_exists. split.
  - intros (y & Hy & E). apply Z.eqb_eq in E. now subst.
  - intros H. exists x. split; [assumption | apply Z.eqb_refl].
Qed.

Lemma peaksimple_decide_peak self df t bat row :
  is_weekday_peak self t = true ->
  loc df t = Ok row ->
  controller_peaksimple.decide df t bat self =
    (Ok (- Rmin (Rmin (max_charge_rate bat) (available_to_discharge bat))
                (Usage row)), self).
Proof.
  intros Hp Hrow. unfold is_weekday_peak in Hp.
  unfold controller_peaksimple.decide, bind, get, lift, ret.
  rewrite Hp, Hrow, py_min3_Rmin. do 2 f_equal. ring.
Qed.

Lemma peaksimple_decide_offpeak self df t bat :
  is_weekday_peak self t = false ->
  controller_peaksimple.decide df t bat self =
    (Ok (if (hour t >=? controller_peaksimple.trough_hour self)%Z
         then Rmin (max_charge_rate bat) (available_store_cap bat)
         else 0), self).
Proof.
  intros Hp. unfold is_weekday_peak in Hp.
  unfold controller_peaksimple.decide, bind, get, lift, ret.
  rewrite Hp, py_min2_Rmin. now destruct (hour t >=? _)%Z.
Qed.

Lemma is_weekday_peak_spec self t :
  is_weekday_peak self t = true <->
  In (hour t) (controller_peaksimple.peak_hours self) /\ (dayofweek t <= 4)%Z.
Proof.
  unfold is_weekday_peak. rewrite andb_true_iff, py_in_In, Z.leb_le. tauto.
Qed.

(** C4.  The fixed-schedule controller's [decide] returns
    [-min(max_charge_rate, available_to_discharge, usage at current_time)]
    when the hour of day is in [peak_hours] and the day is Monday to
    Friday; otherwise [min(max_charge_rate, available_store_cap)] when the
    hour of day is at least [trough_hour]; otherwise 0.  The controller
    object is left as it was in every case (the battery and the series are
    only read: the method receives them and returns a number). *)
Theorem C4_peaksimple_decide
    (self : controller_peaksimple.obj) (df : DataFrame) (t : Timestamp)
    (bat : Battery) :
  let peak := In (hour t) (controller_peaksimple.peak_hours self) /\
              (dayofweek t <= 4)%Z in
  (peak -> forall row, loc df t = Ok row ->
     controller_peaksimple.decide df t bat self =
       (Ok (- Rmin (Rmin (max_charge_rate bat) (available_to_discharge bat))
                   (Usage row)), self)) /\
  (~ peak -> (hour t >= controller_peaksimple.trough_hour self)%Z ->
     controller_peaksimple.decide df t bat self =
       (Ok (Rmin (max_charge_rate bat) (available_store_cap bat)), self)) /\
  (~ peak -> (hour t < controller_peaksimple.trough_hour self)%Z ->
     controller_peaksimple.decide df t bat self = (Ok 0, self)) /\
  snd (controller_peaksimple.decide df t bat self) = self /\
  snd (battery_controller.decide df t bat (PeakSimple self)) = PeakSimple self.
Proof.
  intros peak. subst peak.
  assert (Hsnd : snd (controller_peaksimple.decide df t bat self) = self).
  { unfold controller_peaksimple.decide, bind, get, lift, ret.
    destruct (_ && _).
    - now destruct (loc df t).
    - now destruct (hour t >=? _)%Z. }
  repeat split.
  - intros Hp row Hrow. apply peaksimple_decide_peak; [| assumption].
    now apply is_weekday_peak_spec.
  - intros Hp Hh. rewrite peaksimple_decide_offpeak.
    + destruct (Z.geb_spec (hour t) (controller_peaksimple.trough_hour self));
        [reflexivity | lia].
    + destruct (is_weekday_peak self t) eqn:E; [| reflexivity].
      apply is_weekday_peak_spec in E. contradiction.
  - intros Hp Hh. rewrite peaksimple_decide_offpeak.
    + destruct (Z.geb_spec (hour t) (controller_peaksimple.trough_hour self));
        [lia | reflexivity].
    + destruct (is_weekday_peak self t) eqn:E; [| reflexivity].
      apply is_weekday_peak_spec in E. contradiction.
  - exact Hsnd.
  - unfold battery_controller.decide.
    destruct (controller_peaksimple.decide df t bat self) as [r c'] eqn:E.
    cbn in *. now subst.
Qed.

Lemma C4_witness :
  controller_peaksimple.decide demo_df tuesday16 (powerwall 5) schedule =
    (Ok (- Rmin (Rmin (max_charge_rate (powerwall 5))
                      (available_to_discharge (powerwall 5)))
                (Usage (demo_row tuesday16 1 (3 / 10)))), schedule).
Proof.
  apply (proj1 (C4_peaksimple_decide schedule demo_df tuesday16 (powerwall 5))).
  - split; [cbn; auto | vm_compute; discriminate].
  - reflexivity.
Defined.

(** C5, as stated, fails: on Saturday 2018-03-17 at 16:00, with 5 kWh
    available, the default schedule asks for a charge of 3.3 kWh, not 0. *)
Lemma C5_counterexample :
  controller_peaksimple.peak_hours schedule = [16; 17]%Z /\
  controller_peaksimple.trough_hour schedule = 2%Z /\
  dayofweek saturday16 = 5%Z /\
  hour saturday16 = 16%Z /\
  available_to_discharge (powerwall 5) <> 0 /\
  controller_peaksimple.decide demo_df saturday16 (powerwall 5) schedule =
    (Ok (33 / 10), schedule) /\
  33 / 10 <> 0.
Proof.
  repeat split; try reflexivity; try (cbn; lra).
  rewrite peaksimple_decide_offpeak by reflexivity.
  cbn. unfold Rmin. destruct (Rle_dec (33 / 10) (14 - 5)); [reflexivity | lra].
Qed.

(** C5, amended.  With [peak_hours = [16, 17]] and [trough_hour = 2], at
    hour 16 of a Saturday [decide] does not discharge: hour 16 is past the
    trough hour, so it returns the charging request
    [min(max_charge_rate, available_store_cap)] (which is 0 only when that
    minimum is); at hour 16 of a Tuesday, with the same battery, it returns
    [-min(max_charge_rate, available_to_discharge, usage at that hour)]. *)
Theorem C5_saturday_charges_tuesday_discharges
    (df : DataFrame) (sat tue : Timestamp) (bat : Battery) (row : Row) :
  hour sat = 16%Z -> dayofweek sat = 5%Z ->
  hour tue = 16%Z -> dayofweek tue = 1%Z ->
  loc df tue = Ok row ->
  controller_peaksimple.decide df sat bat schedule =
    (Ok (Rmin (max_charge_rate bat) (available_store_cap bat)), schedule) /\
  controller_peaksimple.decide df tue bat schedule =
    (Ok (- Rmin (Rmin (max_charge_rate bat) (available_to_discharge bat))
                (Usage row)), schedule).
Proof.
  intros Hs Hsd Ht Htd Hrow. split.
  - rewrite peaksimple_decide_offpeak.
    + rewrite Hs. reflexivity.
    + unfold is_weekday_peak. rewrite Hsd. apply andb_false_r.
  - apply peaksimple_decide_peak; [| assumption].
    unfold is_weekday_peak. rewrite Ht, Htd. reflexivity.
Qed.

Lemma C5_witness :
  controller_peaksimple.decide demo_df saturday16 (powerwall 5) schedule =
    (Ok (Rmin (max_charge_rate (powerwall 5))
              (available_store_cap (powerwall 5))), schedule) /\
  controller_peaksimple.decide demo_df tuesday16 (powerwall 5) schedule =
    (Ok (- Rmin (Rmin (max_charge_rate (powerwall 5))
                      (available_to_discharge (powerwall 5)))
                (Usage (demo_row tuesday16 1 (3 / 10)))), schedule).
Proof.
  apply (C5_saturday_charges_tuesday_discharges
           demo_df saturday16 tuesday16 (powerwall 5)
           (demo_row tuesday16 1 (3 / 10))); reflexivity.
Defined.

(** * The threshold controller *)

Lemma Int_part_0 : Int_part 0 = 0%Z.
Proof. symmetry. apply Int_part_spec. lra. Qed.

Lemma quantile_0 l :
  quantile l 0 = Ok (match sort_values l with [] => None | v :: _ => Some v end).
Proof.
  unfold quantile.
  assert (E0 : Rle_b 0 0 = true) by (apply Rle_b_true; lra).
  assert (E1 : Rle_b 0 1 = true) by (apply Rle_b_true; lra).
  rewrite E0, E1. cbn [andb].
  destruct (sort_values l) as [| v rest]; [reflexivity |].
  rewrite Rmult_0_l, Int_part_0. cbn [Z.to_nat nth].
  do 2 f_equal. lra.
Qed.

Lemma quantile_1 l :
  quantile l 1 =
  Ok (match sort_values l with
      | [] => None
      | v :: rest => Some (nth (List.length rest) (v :: rest) v)
      end).
Proof.
  unfold quantile.
  assert (E0 : Rle_b 0 1 = true) by (apply Rle_b_true; lra).
  assert (E1 : Rle_b 1 1 = true) by (apply Rle_b_true; lra).
  rewrite E0, E1. cbn [andb].
  destruct (sort_values l) as [| v rest]; [reflexivity |].
  rewrite Rmult_1_l.
  replace (INR (List.length (v :: rest)) - 1) with (INR (List.length rest)).
  2:{ cbn [List.length]. rewrite S_INR. lra. }
  rewrite Int_part_INR, Nat2Z.id.
  replace (Nat.min (S (List.length rest)) (List.length (v :: rest) - 1))
    with (List.length rest) by (cbn [List.length]; lia).
  do 2 f_equal.
  rewrite <- INR_IZR_INZ. lra.
Qed.

Lemma sort_values_pair a b :
  sort_values [a; b] = if Rle_b a b then [a; b] else [b; a].
Proof. reflexivity. Qed.

(** Between 10 and 20 the first quartile is 12.5, as pandas has it. *)
Example quantile_interpolates : quantile [20; 10] (1 / 4) = Ok (Some (25 / 2)).
Proof.
  unfold quantile.
  assert (E0 : Rle_b 0 (1 / 4) = true) by (apply Rle_b_true; lra).
  assert (E1 : Rle_b (1 / 4) 1 = true) by (apply Rle_b_true; lra).
  assert (E2 : Rle_b 20 10 = false) by (apply Rle_b_false; lra).
  rewrite E0, E1, sort_values_pair, E2. cbn [andb List.length].
  replace (1 / 4 * (INR 2 - 1)) with (1 / 4) by (cbn; lra).
  assert (E3 : Int_part (1 / 4) = 0%Z) by (symmetry; apply Int_part_spec; lra).
  rewrite E3. cbn [Z.to_nat nth Nat.min Nat.sub].
  do 2 f_equal. lra.
Qed.

Import controller_dailythresh.

Lemma update_thresh_inv rows c c' :
  update_thresh rows c = (Ok tt, c') ->
  thresh_high_quant c' = thresh_high_quant c /\
  thresh_low_quant c' = thresh_low_quant c /\
  thresholds_from (thresh_high_quant c) (thresh_low_quant c) c' rows.
Proof.
  unfold update_thresh, thresholds_from, prices, bind, get, lift, modify.
  destruct (quantile _ (thresh_high_quant c)) as [h | e]; [| discriminate].
  cbn [set_thresh_high_price thresh_low_quant].
  destruct (quantile _ (thresh_low_quant c)) as [l | e]; [| discriminate].
  intros [= <-]. cbn. auto.
Qed.

Lemma dailythresh_new_inv df hq lq c0 :
  controller_dailythresh.new df hq lq = Ok c0 ->
  thresh_high_quant c0 = hq /\ thresh_low_quant c0 = lq /\
  thresholds_from hq lq c0 df.
Proof.
  unfold controller_dailythresh.new, controller_dailythresh.__init__, bind, modify.
  cbn [set_thresh_high_quant set_thresh_low_quant].
  match goal with
  | |- context [update_thresh df ?c] =>
      destruct (update_thresh df c) as [[[] | e] c'] eqn:E; [| discriminate]
  end.
  intros [= <-]. apply update_thresh_inv in E. exact E.
Qed.

(** One call of [decide]: at hour 0 the thresholds are taken from the rows
    of that day, at any other hour the controller is left as it was; the
    request is then made against the thresholds the controller holds. *)
Lemma dailythresh_decide_inv df t bat c r c' :
  controller_dailythresh.decide df t bat c = (Ok r, c') ->
  thresh_high_quant c' = thresh_high_quant c /\
  thresh_low_quant c' = thresh_low_quant c /\
  (hour t = 0%Z ->
   thresholds_from (thresh_high_quant c) (thresh_low_quant c) c'
     (day_rows df t)) /\
  (hour t <> 0%Z -> c' = c) /\
  exists row,
    loc df t = Ok row /\
    r = threshold_request (thresh_high_price c') (thresh_low_price c') row bat.
Proof.
  unfold controller_dailythresh.decide, threshold_request.
  unfold bind at 1.
  destruct (Z.eqb_spec (hour t) 0) as [Hh | Hh].
  - unfold bind at 1, lift at 1, loc_day. fold (day_rows df t).
    destruct (day_rows df t) as [| row0 rows] eqn:Hday; [discriminate |].
    rewrite <- Hday.
    destruct (update_thresh (day_rows df t) c) as [[[] | e] c1] eqn:Hu;
      [| discriminate].
    apply update_thresh_inv in Hu as (Hq1 & Hq2 & Hfrom).
    unfold bind, lift, get, ret.
    destruct (loc df t) as [row | e]; [| discriminate].
    intros H.
    assert (c' = c1 /\
            r = threshold_request (thresh_high_price c1) (thresh_low_price c1)
                  row bat) as [-> ->].
    { unfold threshold_request.
      destruct (gt_cell _ _); [now inversion H |].
      destruct (lt_cell _ _); now inversion H. }
    split; [assumption |]. split; [assumption |].
    split; [intros _; assumption |]. split; [contradiction |].
    exists row. split; reflexivity.
  - unfold ret at 1, bind, lift, get, ret.
    destruct (loc df t) as [row | e]; [| discriminate].
    intros H.
    assert (c' = c /\
            r = threshold_request (thresh_high_price c) (thresh_low_price c)
                  row bat) as [-> ->].
    { unfold threshold_request.
      destruct (gt_cell _ _); [now inversion H |].
      destruct (lt_cell _ _); now inversion H. }
    split; [reflexivity |]. split; [reflexivity |].
    split; [contradiction |]. split; [reflexivity |].
    exists row. split; reflexivity.
Qed.

Lemma decide_each_thresholds df hq lq calls :
  forall c0 acc rs c,
    thresh_high_quant c0 = hq -> thresh_low_quant c0 = lq ->
    thresholds_from hq lq c0
      (match acc with Some t0 => day_rows df t0 | None => df end) ->
    decide_each df calls c0 = (Ok rs, c) ->
    thresh_high_quant c = hq /\ thresh_low_quant c = lq /\
    thresholds_from hq lq c
      (match last_midnight_from acc calls with
       | Some t0 => day_rows df t0
       | None => df
       end).
Proof.
  induction calls as [| [t bat] rest IH]; intros c0 acc rs c Hh Hl Hfrom.
  - cbn. intros [= <- <-]. auto.
  - cbn [decide_each last_midnight_from]. unfold bind at 1.
    destruct (controller_dailythresh.decide df t bat c0) as [[r | e] c1] eqn:Hd;
      [| discriminate].
    unfold bind at 1.
    destruct (decide_each df rest c1) as [[rs' | e] c2] eqn:Hrest;
      [| discriminate].
    unfold ret. intros [= <- <-].
    apply dailythresh_decide_inv in Hd as (Hq1 & Hq2 & Hzero & Hother & _).
    apply (IH c1 _ rs' c2); try congruence.
    destruct (Z.eqb_spec (hour t) 0) as [Hz | Hnz].
    + rewrite <- Hh, <- Hl. auto.
    + rewrite (Hother Hnz). assumption.
Qed.

Lemma last_midnight_from_snoc acc calls t bat :
  last_midnight_from acc (calls ++ [(t, bat)]) =
  if (hour t =? 0)%Z then Some t else last_midnight_from acc calls.
Proof.
  revert acc. induction calls as [| [t' bat'] rest IH]; intros acc.
  - reflexivity.
  - cbn [app last_midnight_from]. apply IH.
Qed.

Lemma quantiles_of_2_1 :
  quantile [2; 1] 1 = Ok (Some 2) /\ quantile [2; 1] 0 = Ok (Some 1).
Proof.
  assert (E : Rle_b 2 1 = false) by (apply Rle_b_false; lra).
  rewrite quantile_1, quantile_0, sort_values_pair, E. split; reflexivity.
Qed.

Lemma quantiles_of_singleton v :
  quantile [v] 1 = Ok (Some v) /\ quantile [v] 0 = Ok (Some v).
Proof. rewrite quantile_1, quantile_0. split; reflexivity. Qed.

Lemma night_new :
  controller_dailythresh.new night_df 1 0 = Ok (mkobj 1 0 (Some 2) (Some 1)).
Proof.
  destruct quantiles_of_2_1 as [Hh Hl].
  unfold controller_dailythresh.new, controller_dailythresh.__init__,
    update_thresh, bind, modify, get, lift.
  cbn [set_thresh_high_quant set_thresh_low_quant set_thresh_high_price
       set_thresh_low_price thresh_high_quant thresh_low_quant
       thresh_high_price thresh_low_price class_defaults
       map night_df demo_row Apparent_Price].
  rewrite Hh.
  cbn [set_thresh_high_quant set_thresh_low_quant set_thresh_high_price
       set_thresh_low_price thresh_high_quant thresh_low_quant
       thresh_high_price thresh_low_price].
  rewrite Hl. reflexivity.
Qed.

Lemma night_decide_monday23 bat :
  controller_dailythresh.decide night_df monday23 bat
    (mkobj 1 0 (Some 2) (Some 1)) = (Ok 0, mkobj 1 0 (Some 2) (Some 1)).
Proof.
  assert (E1 : Rlt_b 2 2 = false) by (apply Rlt_b_false; lra).
  assert (E2 : Rlt_b 2 1 = false) by (apply Rlt_b_false; lra).
  unfold controller_dailythresh.decide, bind, get, lift, ret.
  cbn [hour monday23 Z.eqb night_df loc name demo_row Timestamp_eqb same_day
       year month day andb Pos.eqb Apparent_Price thresh_high_price
       thresh_low_price gt_cell lt_cell Rgt_b].
  unfold Rgt_b. rewrite E1, E2. reflexivity.
Qed.

Lemma night_decide_tuesday00 bat c :
  thresh_high_quant c = 1 -> thresh_low_quant c = 0 ->
  controller_dailythresh.decide night_df tuesday00 bat c =
    (Ok 0, mkobj 1 0 (Some 1) (Some 1)).
Proof.
  intros Hh Hl. destruct c as [hq lq hp lp]. cbn in Hh, Hl. subst hq lq.
  destruct (quantiles_of_singleton 1) as [Q1 Q0].
  assert (E1 : Rlt_b 1 1 = false) by (apply Rlt_b_false; lra).
  unfold controller_dailythresh.decide, update_thresh, loc_day,
    bind, get, lift, ret, modify.
  cbn [hour tuesday00 monday23 Z.eqb night_df loc name demo_row Timestamp_eqb
       same_day year month day andb Pos.eqb filter map Apparent_Price
       thresh_high_quant thresh_low_quant].
  rewrite Q1.
  cbn [set_thresh_high_price set_thresh_low_price thresh_high_quant
       thresh_low_quant thresh_high_price thresh_low_price].
  rewrite Q0.
  cbn [set_thresh_high_price set_thresh_low_price thresh_high_quant
       thresh_low_quant thresh_high_price thresh_low_price
       gt_cell lt_cell].
  unfold Rgt_b. rewrite E1. reflexivity.
Qed.

(** C6, as stated, fails on a series that does not begin at midnight: the
    constructor takes the thresholds from the whole series (high 2, low 1),
    and the call at 23:00 of the first day leaves them so, although the
    lowest price of that day is 2. *)
Lemma C6_counterexample :
  controller_dailythresh.new night_df 1 0 = Ok (mkobj 1 0 (Some 2) (Some 1)) /\
  controller_dailythresh.decide night_df monday23 (powerwall 5)
    (mkobj 1 0 (Some 2) (Some 1)) = (Ok 0, mkobj 1 0 (Some 2) (Some 1)) /\
  prices (day_rows night_df monday23) = [2] /\
  quantile (prices (day_rows night_df monday23)) 0 = Ok (Some 2) /\
  ~ thresholds_from 1 0 (mkobj 1 0 (Some 2) (Some 1))
      (day_rows night_df monday23).
Proof.
  assert (Hp : prices (day_rows night_df monday23) = [2]) by reflexivity.
  destruct (quantiles_of_singleton 2) as [_ Q0].
  split; [apply night_new |].
  split; [apply night_decide_monday23 |].
  split; [exact Hp |].
  split; [rewrite Hp; exact Q0 |].
  intros [_ Hl]. rewrite Hp, Q0 in Hl.
  cbn in Hl. injection Hl as Hl. lra.
Qed.

(** C6, amended.  The constructor takes the thresholds as the configured
    quantiles of the apparent prices of the whole series.  After any calls
    of [decide], the thresholds in effect for a call at time [t] (those the
    request is made against) are the configured quantiles of the apparent
    prices of one calendar day only, the day of the latest call made at
    hour 0, this call included; they are the whole-series ones as long as
    no call was made at hour 0.  A call at hour 0 recomputes them from the
    rows of its own day, a call at another hour leaves them as they are. *)
Theorem C6_thresholds_in_effect
    (df : DataFrame) (hq lq : R) (c0 c1 c : controller_dailythresh.obj)
    (earlier : list (Timestamp * Battery)) (rs : list R)
    (t : Timestamp) (bat : Battery) (r : R) :
  controller_dailythresh.new df hq lq = Ok c0 ->
  decide_each df earlier c0 = (Ok rs, c1) ->
  controller_dailythresh.decide df t bat c1 = (Ok r, c) ->
  thresholds_from hq lq c0 df /\
  thresholds_from hq lq c (source_rows df (earlier ++ [(t, bat)])) /\
  (hour t = 0%Z -> thresholds_from hq lq c (day_rows df t)) /\
  (hour t <> 0%Z -> c = c1) /\
  exists row,
    loc df t = Ok row /\
    r = threshold_request (thresh_high_price c) (thresh_low_price c) row bat.
Proof.
  intros Hnew Hearlier Hdecide.
  apply dailythresh_new_inv in Hnew as (Hh0 & Hl0 & Hfrom0).
  destruct (decide_each_thresholds df hq lq earlier c0 None rs c1
              Hh0 Hl0 Hfrom0 Hearlier) as (Hh1 & Hl1 & Hfrom1).
  apply dailythresh_decide_inv in Hdecide
    as (Hh & Hl & Hzero & Hother & Hrow).
  rewrite Hh1, Hl1 in Hzero.
  split; [assumption |].
  split.
  - unfold source_rows. rewrite last_midnight_from_snoc.
    destruct (Z.eqb_spec (hour t) 0) as [Hz | Hnz]; [auto |].
    rewrite (Hother Hnz). assumption.
  - split; [assumption |]. split; [| assumption].
    intros Hnz. rewrite (Hother Hnz). reflexivity.
Qed.

Lemma C6_witness :
  thresholds_from 1 0 (mkobj 1 0 (Some 2) (Some 1)) night_df /\
  thresholds_from 1 0 (mkobj 1 0 (Some 1) (Some 1))
    (source_rows night_df ([(monday23, powerwall 5)] ++ [(tuesday00, powerwall 5)])) /\
  (hour tuesday00 = 0%Z ->
   thresholds_from 1 0 (mkobj 1 0 (Some 1) (Some 1))
     (day_rows night_df tuesday00)) /\
  (hour tuesday00 <> 0%Z ->
   mkobj 1 0 (Some 1) (Some 1) = mkobj 1 0 (Some 2) (Some 1)) /\
  exists row,
    loc night_df tuesday00 = Ok row /\
    0 = threshold_request (thresh_high_price (mkobj 1 0 (Some 1) (Some 1)))
          (thresh_low_price (mkobj 1 0 (Some 1) (Some 1))) row (powerwall 5).
Proof.
  apply (C6_thresholds_in_effect night_df 1 0
           (mkobj 1 0 (Some 2) (Some 1)) (mkobj 1 0 (Some 2) (Some 1))
           (mkobj 1 0 (Some 1) (Some 1))
           [(monday23, powerwall 5)] [0] tuesday00 (powerwall 5) 0).
  - apply night_new.
  - cbn [decide_each]. unfold bind at 1.
    rewrite night_decide_monday23. reflexivity.
  - apply night_decide_tuesday00; reflexivity.
Defined.

(** * The hourly loop *)

Lemma update_row_middle pre row rest f :
  update_row (List.length pre) f (pre ++ row :: rest) = pre ++ f row :: rest.
Proof. induction pre as [| x pre IH]; cbn; [reflexivity | now rewrite IH]. Qed.

Lemma nth_error_middle_row (pre : DataFrame) row rest :
  nth_error (pre ++ row :: rest) (List.length pre) = Some row.
Proof. induction pre as [| x pre IH]; cbn; [reflexivity | exact IH]. Qed.

(** One hour of a run that goes on: the row of the hour is filled in, one
    [charge] has succeeded on the battery, and three events were logged. *)
Lemma step_result_df_ok pre row rest w w' :
  result_df w = pre ++ row :: rest ->
  step_result_df (List.length pre) w = (Ok tt, w') ->
  exists s,
    hs_time s = name row /\
    hs_before s = battery w /\
    charge (hs_request s) (battery w) = (Ok tt, hs_after s) /\
    battery w' = hs_after s /\
    result_df w' = pre ++ fill s row :: rest /\
    log w' = log w ++ events_of s.
Proof.
  intros Hdf. unfold step_result_df. unfold bind at 1, get at 1.
  rewrite Hdf, nth_error_middle_row.
  unfold assign_row, emit, modify, bind, get, on_controller, on_battery.
  cbn [battery virtual_battery.controller result_df log]. rewrite Hdf, !update_row_middle.
  destruct (battery_controller.decide _ (name row) (battery w) (virtual_battery.controller w))
    as [[q | e] c'] eqn:Hdec; [| discriminate].
  cbn [battery virtual_battery.controller result_df log].
  destruct (charge q (battery w)) as [[[] | e] b'] eqn:Hch; [| discriminate].
  cbn [battery virtual_battery.controller result_df log].
  intros [= <-]. cbn [battery virtual_battery.controller result_df log].
  exists (mkhour_step (name row) (battery w) q b').
  cbn [hs_time hs_before hs_request hs_after].
  repeat split; try assumption.
  - rewrite update_row_middle. reflexivity.
  - unfold events_of. cbn [hs_time hs_before hs_request hs_after].
    rewrite <- !app_assoc. reflexivity.
Qed.

Lemma for_each_rows mid :
  forall pre post w w',
    result_df w = pre ++ mid ++ post ->
    for_each (seq (List.length pre) (List.length mid)) step_result_df w =
      (Ok tt, w') ->
    exists steps,
      map hs_time steps = map name mid /\
      chained (battery w) steps /\
      result_df w' = pre ++ fill_all mid steps ++ post /\
      log w' = log w ++ flat_map events_of steps.
Proof.
  induction mid as [| row mid IH]; intros pre post w w' Hdf.
  - cbn. intros [= <-]. exists []. cbn. rewrite app_nil_r. auto.
  - cbn [List.length seq for_each]. unfold bind at 1.
    destruct (step_result_df (List.length pre) w) as [[[] | e] w1] eqn:Hstep;
      [| discriminate].
    intros Hrest.
    destruct (step_result_df_ok pre row (mid ++ post) w w1 Hdf Hstep)
      as (s & Ht & Hb & Hch & Hb1 & Hdf1 & Hlog1).
    assert (Hdf1' : result_df w1 = (pre ++ [fill s row]) ++ mid ++ post)
      by (rewrite Hdf1, <- app_assoc; reflexivity).
    replace (S (List.length pre)) with (List.length (pre ++ [fill s row]))
      in Hrest by (rewrite length_app; cbn; lia).
    destruct (IH _ _ _ _ Hdf1' Hrest) as (steps & Hts & Hchain & Hdf' & Hlog').
    exists (s :: steps). cbn [map chained fill_all flat_map].
    repeat split.
    + rewrite Ht, Hts. reflexivity.
    + assumption.
    + assumption.
    + rewrite <- Hb1. assumption.
    + rewrite Hdf', <- app_assoc. reflexivity.
    + rewrite Hlog', Hlog1, <- app_assoc. reflexivity.
Qed.

Lemma add_pricing_columns_inv ui model_df df0 :
  add_pricing_columns ui model_df = Ok df0 ->
  map name df0 = map m_name model_df /\ map Usage df0 = map m_Usage model_df.
Proof.
  unfold add_pricing_columns, rbind.
  destruct (first_item _) as [lo | e]; [| discriminate].
  destruct (last_item _) as [hi | e]; [| discriminate].
  intros [= <-]. rewrite !map_map. split; reflexivity.
Qed.

Lemma finished_rows rows :
  forall steps,
    map hs_time steps = map name rows ->
    map name (add_net_column (fill_all rows steps)) = map name rows /\
    map Usage (add_net_column (fill_all rows steps)) = map Usage rows /\
    Forall2 recorded (add_net_column (fill_all rows steps)) steps.
Proof.
  induction rows as [| row rows IH]; intros [| s steps]; cbn [map];
    try discriminate.
  - intros _. cbn. repeat split; constructor.
  - intros [= Ht Hts]. destruct (IH steps Hts) as (Hn & Hu & Hr).
    cbn [fill_all add_net_column map]. fold (add_net_column (fill_all rows steps)).
    repeat split.
    + cbn. now rewrite Hn.
    + cbn. now rewrite Hu.
    + constructor; [| assumption].
      unfold recorded. cbn. rewrite Ht. repeat split; reflexivity.
Qed.

(** One hour of a run that goes on, with the call of [decide] it made: the
    request charged and written into the row is the value that call
    returned, and the controller is left as that call left it. *)
Lemma step_result_df_decides pre row rest w w' :
  result_df w = pre ++ row :: rest ->
  step_result_df (List.length pre) w = (Ok tt, w') ->
  exists s,
    hs_time s = name row /\
    hs_before s = battery w /\
    battery_controller.decide
      (pre ++ record_state (battery w) row :: rest)
      (name row) (battery w) (virtual_battery.controller w) =
      (Ok (hs_request s), virtual_battery.controller w') /\
    charge (hs_request s) (battery w) = (Ok tt, hs_after s) /\
    battery w' = hs_after s /\
    result_df w' = pre ++ fill s row :: rest /\
    log w' = log w ++ events_of s.
Proof.
  intros Hdf. unfold step_result_df. unfold bind at 1, get at 1.
  rewrite Hdf, nth_error_middle_row.
  unfold assign_row, emit, modify, bind, get, on_controller, on_battery.
  cbn [battery virtual_battery.controller result_df log]. rewrite Hdf, !update_row_middle.
  fold (record_state (battery w) row).
  destruct (battery_controller.decide _ (name row) (battery w) (virtual_battery.controller w))
    as [[q | e] c'] eqn:Hdec; [| discriminate].
  cbn [battery virtual_battery.controller result_df log].
  destruct (charge q (battery w)) as [[[] | e] b'] eqn:Hch; [| discriminate].
  cbn [battery virtual_battery.controller result_df log].
  intros [= <-]. cbn [battery virtual_battery.controller result_df log].
  exists (mkhour_step (name row) (battery w) q b').
  cbn [hs_time hs_before hs_request hs_after].
  do 5 (split; [first [reflexivity | assumption] |]).
  split.
  - rewrite update_row_middle. reflexivity.
  - unfold events_of. cbn [hs_time hs_before hs_request hs_after].
    rewrite <- !app_assoc. reflexivity.
Qed.

Lemma for_each_decides mid :
  forall pre w w',
    result_df w = pre ++ mid ->
    for_each (seq (List.length pre) (List.length mid)) step_result_df w =
      (Ok tt, w') ->
    exists steps,
      map hs_time steps = map name mid /\
      chained (battery w) steps /\
      decided pre mid (virtual_battery.controller w) steps /\
      result_df w' = pre ++ fill_all mid steps /\
      log w' = log w ++ flat_map events_of steps.
Proof.
  induction mid as [| row mid IH]; intros pre w w' Hdf.
  - cbn. intros [= <-]. exists []. cbn. rewrite app_nil_r in Hdf. rewrite !app_nil_r.
    repeat split; first [assumption | reflexivity].
  - cbn [List.length seq for_each]. unfold bind at 1.
    destruct (step_result_df (List.length pre) w) as [[[] | e] w1] eqn:Hstep;
      [| discriminate].
    intros Hrest.
    destruct (step_result_df_decides pre row mid w w1 Hdf Hstep)
      as (s & Ht & Hb & Hdec & Hch & Hb1 & Hdf1 & Hlog1).
    assert (Hdf1' : result_df w1 = (pre ++ [fill s row]) ++ mid)
      by (rewrite Hdf1, <- app_assoc; reflexivity).
    replace (S (List.length pre)) with (List.length (pre ++ [fill s row]))
      in Hrest by (rewrite length_app; cbn; lia).
    destruct (IH _ _ _ Hdf1' Hrest)
      as (steps & Hts & Hchain & Hdecs & Hdf' & Hlog').
    exists (s :: steps). cbn [map chained decided fill_all flat_map].
    split; [rewrite Ht, Hts; reflexivity |].
    split; [split; [assumption | split; [assumption |]];
            rewrite <- Hb1; assumption |].
    split; [exists (virtual_battery.controller w1);
            split; [rewrite Hb; exact Hdec | exact Hdecs] |].
    split; [rewrite Hdf', <- app_assoc; reflexivity |].
    rewrite Hlog', Hlog1, <- app_assoc. reflexivity.
Qed.

(** C8.  A run of [simulate] that returns has gone through the rows of the
    series in their order, one hour per row; in every hour it has written
    the battery state the hour began with into the row, then called
    [battery_controller.decide] once, on the frame as it stood, the label
    of the row, that battery, and the controller built by
    [make_controller] as the hours before left it, then called [charge]
    once with the request that call returned, which is the only change the
    battery undergoes in that hour; and in the frame returned every row
    has the request of its hour, and net purchase = usage + request. *)
Theorem C8_simulate_hour_by_hour
    (ui : ui_dict) (model_df : list MeterRow)
    (result : DataFrame) (lg : list event) :
  simulate ui model_df = (Ok result, lg) ->
  exists bat0 steps df0 ctl0,
    battery_model.new (battery_model_name ui) (battery_max_capacity ui)
      (battery_max_charge_rate ui) (battery_initial_state_of_charge ui)
      (battery_round_trip_efficiency ui) = Ok bat0 /\
    map hs_time steps = map m_name model_df /\
    chained bat0 steps /\
    lg = flat_map events_of steps /\
    map name result = map m_name model_df /\
    map Usage result = map m_Usage model_df /\
    Forall2 recorded result steps /\
    add_pricing_columns ui model_df = Ok df0 /\
    make_controller (controller_type ui)
      (mkkwargs (Some df0) (Some (virtual_battery.thresh_high_quant ui))
         (Some (virtual_battery.thresh_low_quant ui))
         (Some (virtual_battery.peak_hours ui))
         (Some (virtual_battery.trough_hour ui))) = Ok ctl0 /\
    decided [] df0 ctl0 steps.
Proof.
  unfold simulate.
  destruct (add_pricing_columns ui model_df) as [df0 | e] eqn:Hdf0;
    [| discriminate].
  destruct (battery_model.new _ _ _ _ _) as [bat0 | e] eqn:Hbat;
    [| discriminate].
  destruct (make_controller _ _) as [ctl | e] eqn:Hctl; [| discriminate].
  destruct (apply_axis1 step_result_df (mkworld bat0 ctl df0 []))
    as [[[] | e] w] eqn:Hrun; [| discriminate].
  intros [= <- <-].
  unfold apply_axis1, bind, get in Hrun. cbn [result_df] in Hrun.
  destruct (for_each_decides df0 [] (mkworld bat0 ctl df0 []) w)
    as (steps & Hts & Hchain & Hdecs & Hdf & Hlog).
  { reflexivity. }
  { exact Hrun. }
  cbn [app battery log virtual_battery.controller] in Hts, Hchain, Hdecs, Hdf, Hlog.
  pose proof (add_pricing_columns_inv _ _ _ Hdf0) as [Hn0 Hu0].
  destruct (finished_rows df0 steps Hts) as (Hn & Hu & Hr).
  exists bat0, steps, df0, ctl. rewrite Hdf.
  do 9 (split; [first [reflexivity | assumption | congruence] |]).
  assumption.
Qed.

(** One hour, forwards: what [step_result_df] does when [decide] and
    [charge] return. *)
Lemma step_result_df_run pre row rest w q c' b' :
  result_df w = pre ++ row :: rest ->
  battery_controller.decide
    (pre ++ set_Available_Storage_Capacity
              (Some (available_store_cap (battery w)))
              (set_Available_to_Discharge
                 (Some (available_to_discharge (battery w)))
                 (set_State_of_Charge
                    (Some (state_of_charge (battery w))) row)) :: rest)
    (name row) (battery w) (virtual_battery.controller w) = (Ok q, c') ->
  charge q (battery w) = (Ok tt, b') ->
  step_result_df (List.length pre) w =
    (Ok tt,
     mkworld b' c'
       (pre ++ fill (mkhour_step (name row) (battery w) q b') row :: rest)
       (log w ++ events_of (mkhour_step (name row) (battery w) q b'))).
Proof.
  intros Hdf Hdec Hch. unfold step_result_df. unfold bind at 1, get at 1.
  rewrite Hdf, nth_error_middle_row.
  unfold assign_row, emit, modify, bind, get, on_controller, on_battery.
  cbn [battery virtual_battery.controller result_df log].
  rewrite Hdf, !update_row_middle, Hdec.
  cbn [battery virtual_battery.controller result_df log].
  rewrite Hch.
  cbn [battery virtual_battery.controller result_df log].
  rewrite update_row_middle. unfold events_of, fill.
  cbn [hs_time hs_before hs_request hs_after].
  rewrite <- !app_assoc. reflexivity.
Qed.

Lemma peaksimple_dispatch df t bat c r :
  controller_peaksimple.decide df t bat c = (r, c) ->
  battery_controller.decide df t bat (PeakSimple c) = (r, PeakSimple c).
Proof. intros H. unfold battery_controller.decide. now rewrite H. Qed.

(** The two demonstration hours: the battery takes 3.3 kWh at 03:00 and
    gives the 1 kWh used at 16:00. *)
Lemma demo_run :
  exists result lg,
    simulate demo_ui demo_model_df = (Ok result, lg) /\
    map State_of_Charge result = [Some 0; Some (0 + 33 / 10)] /\
    map Charge_Decision result = [Some (33 / 10); Some (-1)] /\
    lg = [EvRecord tuesday03 0 0 (14 - 0);
          EvDecide tuesday03 (33 / 10);
          EvCharge tuesday03 (33 / 10);
          EvRecord tuesday16 (0 + 33 / 10) (0 + 33 / 10) (14 - (0 + 33 / 10));
          EvDecide tuesday16 (-1);
          EvCharge tuesday16 (-1)].
Proof.
  unfold simulate.
  assert (Hp : exists r1 r2,
             add_pricing_columns demo_ui demo_model_df = Ok [r1; r2] /\
             name r1 = tuesday03 /\ name r2 = tuesday16 /\ Usage r2 = 1).
  { eexists. eexists. split; [reflexivity |]. repeat split. }
  destruct Hp as (r1 & r2 & -> & Hn1 & Hn2 & Hu2).
  cbn [demo_ui battery_model_name battery_max_capacity battery_max_charge_rate
       battery_initial_state_of_charge battery_round_trip_efficiency
       controller_type virtual_battery.thresh_high_quant
       virtual_battery.thresh_low_quant virtual_battery.peak_hours
       virtual_battery.trough_hour].
  rewrite powerwall_new.
  assert (Hc : forall df hq lq,
             make_controller "simple_peak"
               (mkkwargs (Some df) (Some hq) (Some lq) (Some [16; 17]%Z)
                  (Some 2%Z)) = Ok (PeakSimple schedule)) by reflexivity.
  rewrite Hc. clear Hc.
  unfold apply_axis1. unfold bind at 1, get at 1.
  cbn [result_df List.length seq for_each].
  unfold bind at 1.
  erewrite (step_result_df_run [] r1 [r2] _ (33 / 10) (PeakSimple schedule)
              (powerwall (0 + 33 / 10))); [| reflexivity | |].
  2:{ cbn [battery virtual_battery.controller]. apply peaksimple_dispatch.
      rewrite Hn1, peaksimple_decide_offpeak by reflexivity.
      cbn [hour tuesday03 schedule controller_peaksimple.trough_hour Z.geb
           Z.compare Pos.compare Pos.compare_cont max_charge_rate
           available_store_cap powerwall].
      unfold Rmin. destruct (Rle_dec (33 / 10) (14 - 0)); [reflexivity | lra]. }
  2:{ cbn [battery]. apply powerwall_charge; [rewrite Rabs_right |]; lra. }
  unfold bind at 1.
  erewrite (step_result_df_run [_] r2 [] _ (-1) (PeakSimple schedule)
              (powerwall (0 + 33 / 10 + -1))); [| reflexivity | |].
  2:{ cbn [battery virtual_battery.controller]. apply peaksimple_dispatch.
      erewrite peaksimple_decide_peak; cycle 1.
      - rewrite Hn2. reflexivity.
      - cbn [app loc fill set_Charge_Decision set_Available_Storage_Capacity
             set_Available_to_Discharge set_State_of_Charge name].
        rewrite Hn1, Hn2. reflexivity.
      - cbn [max_charge_rate available_to_discharge powerwall Usage
             set_Available_Storage_Capacity set_Available_to_Discharge
             set_State_of_Charge].
        rewrite Hu2. do 2 f_equal. unfold Rmin.
        destruct (Rle_dec (33 / 10) (0 + 33 / 10)); [| lra].
        destruct (Rle_dec (33 / 10) 1); lra. }
  2:{ cbn [battery]. apply powerwall_charge; [rewrite Rabs_left |]; lra. }
  unfold ret. eexists. eexists. split; [reflexivity |].
  cbn. rewrite Hn1, Hn2. repeat split; reflexivity.
Qed.

Lemma C8_witness :
  exists result lg,
    simulate demo_ui demo_model_df = (Ok result, lg) /\
    exists bat0 steps df0 ctl0,
      battery_model.new (battery_model_name demo_ui)
        (battery_max_capacity demo_ui) (battery_max_charge_rate demo_ui)
        (battery_initial_state_of_charge demo_ui)
        (battery_round_trip_efficiency demo_ui) = Ok bat0 /\
      map hs_time steps = map m_name demo_model_df /\
      chained bat0 steps /\
      lg = flat_map events_of steps /\
      map name result = map m_name demo_model_df /\
      map Usage result = map m_Usage demo_model_df /\
      Forall2 recorded result steps /\
      add_pricing_columns demo_ui demo_model_df = Ok df0 /\
      make_controller (controller_type demo_ui)
        (mkkwargs (Some df0)
           (Some (virtual_battery.thresh_high_quant demo_ui))
           (Some (virtual_battery.thresh_low_quant demo_ui))
           (Some (virtual_battery.peak_hours demo_ui))
           (Some (virtual_battery.trough_hour demo_ui))) = Ok ctl0 /\
      decided [] df0 ctl0 steps.
Proof.
  destruct demo_run as (result & lg & Hrun & _).
  exists result, lg. split; [exact Hrun |].
  apply (C8_simulate_hour_by_hour demo_ui demo_model_df result lg Hrun).
Defined.

(** * Construction of the controller *)

(** C9.  [make_controller] with a tag other than "daily_threshold" and
    "simple_peak" raises, whatever else it is given; [simulate] with such a
    tag in its parameters raises without a single hour having been
    stepped through, and the exception is that of [make_controller] when
    the pricing columns and the battery could be made. *)
Theorem C9_unknown_controller_type_fails_fast (ct : string) :
  ct <> "daily_threshold"%string ->
  ct <> "simple_peak"%string ->
  (forall kw, make_controller ct kw = Raise UnknownControllerType) /\
  (forall ui model_df,
     controller_type ui = ct ->
     exists e, simulate ui model_df = (Raise e, [])) /\
  (forall ui model_df,
     controller_type ui = ct ->
     peak_price_hours ui <> [] ->
     0 < battery_round_trip_efficiency ui ->
     simulate ui model_df = (Raise UnknownControllerType, [])).
Proof.
  intros H1 H2.
  assert (Hmk : forall kw, make_controller ct kw = Raise UnknownControllerType).
  { intros kw. unfold make_controller.
    apply String.eqb_neq in H1, H2. rewrite H1, H2. reflexivity. }
  split; [exact Hmk |]. split.
  - intros ui model_df <-. unfold simulate.
    destruct (add_pricing_columns ui model_df); [| eauto].
    destruct (battery_model.new _ _ _ _ _); [| eauto].
    rewrite Hmk. eauto.
  - intros ui model_df <- Hpph Hrte. unfold simulate, add_pricing_columns.
    destruct (peak_price_hours ui) as [| h0 hs]; [contradiction |].
    cbn [first_item last_item rbind].
    rewrite new_run by assumption. rewrite Hmk. reflexivity.
Qed.

Lemma C9_witness :
  (forall kw, make_controller "weekly_threshold" kw = Raise UnknownControllerType) /\
  (forall ui model_df,
     controller_type ui = "weekly_threshold"%string ->
     exists e, simulate ui model_df = (Raise e, [])) /\
  (forall ui model_df,
     controller_type ui = "weekly_threshold"%string ->
     peak_price_hours ui <> [] ->
     0 < battery_round_trip_efficiency ui ->
     simulate ui model_df = (Raise UnknownControllerType, [])).
Proof.
  apply (C9_unknown_controller_type_fails_fast "weekly_threshold");
    discriminate.
Defined.

(** * Further properties of the battery *)

Lemma new_zero_efficiency n cap rate soc0 :
  battery_model.new n cap rate soc0 0 = Raise ZeroDivisionError.
Proof.
  unfold battery_model.new, battery_model.__init__, bind, modify, lift, math_sqrt.
  destruct (Rlt_b 0 0) eqn:E; [apply Rlt_b_true in E; lra |].
  cbn -[sqrt]. unfold _update_charge_values, bind, modify, get, lift.
  cbn -[sqrt]. unfold py_div. rewrite sqrt_0.
  destruct (Req_dec_T 0 0); [reflexivity | lra].
Qed.

Lemma new_negative_efficiency n cap rate soc0 rte :
  rte < 0 -> battery_model.new n cap rate soc0 rte = Raise ValueError.
Proof.
  intros H.
  unfold battery_model.new, battery_model.__init__, bind, modify, lift, math_sqrt.
  destruct (Rlt_b rte 0) eqn:E; [reflexivity | apply Rlt_b_false in E; lra].
Qed.

(** X1.  The constructor checks its arguments only through the
    arithmetic it does: with a positive round-trip efficiency it returns the
    battery with every attribute set, with efficiency 0 the division in
    [_update_charge_values] raises ZeroDivisionError, with a negative one
    [math.sqrt] raises ValueError; capacity, rate limit and initial charge
    are never looked at. *)
Theorem constructor_outcome (n : string) (cap rate soc0 rte : R) :
  (0 < rte ->
   battery_model.new n cap rate soc0 rte =
     Ok (mkBattery n cap rate soc0 rte (sqrt rte) (soc0 * sqrt rte)
           ((cap - soc0) / sqrt rte))) /\
  (rte = 0 -> battery_model.new n cap rate soc0 rte = Raise ZeroDivisionError) /\
  (rte < 0 -> battery_model.new n cap rate soc0 rte = Raise ValueError).
Proof.
  split; [apply new_run |]. split.
  - intros ->. apply new_zero_efficiency.
  - apply new_negative_efficiency.
Qed.

(** X2.  Whatever calls of [charge] a constructed battery has been through,
    succeeded or failed, its derived attributes agree with its state of
    charge: [charge_efficiency] is the square root of the round-trip
    efficiency and is positive, [available_to_discharge] is
    [state_of_charge * charge_efficiency] and [available_store_cap] is
    [(max_capacity - state_of_charge) / charge_efficiency]. *)
Theorem derived_values_invariant (b : Battery) :
  reachable b ->
  0 < charge_efficiency b /\
  charge_efficiency b = sqrt (round_trip_efficiency b) /\
  available_to_discharge b =
    state_of_charge b * sqrt (round_trip_efficiency b) /\
  available_store_cap b =
    (max_capacity b - state_of_charge b) / sqrt (round_trip_efficiency b).
Proof.
  intros H. apply reachable_consistent in H. destruct H as [? He ? Ha Hc].
  rewrite <- He. auto.
Qed.

Lemma derived_values_invariant_witness :
  0 < charge_efficiency (powerwall 5) /\
  charge_efficiency (powerwall 5) = sqrt (round_trip_efficiency (powerwall 5)) /\
  available_to_discharge (powerwall 5) =
    state_of_charge (powerwall 5) * sqrt (round_trip_efficiency (powerwall 5)) /\
  available_store_cap (powerwall 5) =
    (max_capacity (powerwall 5) - state_of_charge (powerwall 5)) /
    sqrt (round_trip_efficiency (powerwall 5)).
Proof.
  apply (derived_values_invariant (powerwall 5)). apply powerwall_reachable.
Defined.

(** X3.  [charge] never touches what describes the battery: name,
    capacity, rate limit and both efficiencies are the same after any call,
    whether it returns or raises, on any battery object. *)
Theorem charge_keeps_parameters (b : Battery) (request : R) :
  let b' := snd (charge request b) in
  model_name b' = model_name b /\
  max_capacity b' = max_capacity b /\
  max_charge_rate b' = max_charge_rate b /\
  round_trip_efficiency b' = round_trip_efficiency b /\
  charge_efficiency b' = charge_efficiency b.
Proof.
  unfold charge, _update_charge_values, bind, get, py_assert, ret, raise,
    lift, modify, py_div.
  destruct (Rle_b (Rabs request) (max_charge_rate b)); [| cbn; auto 6].
  destruct (Rge_b request 0).
  - destruct (Rge_b _ 0); [| cbn; auto 6].
    destruct (Rle_b _ (max_capacity b)); [| cbn; auto 6].
    cbn. destruct (Req_dec_T (charge_efficiency b) 0); cbn; auto 6.
  - destruct (Req_dec_T (charge_efficiency b) 0); [cbn; auto 6 |].
    destruct (Rge_b _ 0); [| cbn; auto 6].
    destruct (Rle_b _ (max_capacity b)); [| cbn; auto 6].
    cbn. destruct (Req_dec_T (charge_efficiency b) 0); cbn; auto 6.
Qed.

Lemma updated_same b :
  consistent b -> updated b (state_of_charge b) = b.
Proof.
  intros [_ _ _ Ha Hc]. destruct b. unfold updated. cbn in *. now subst.
Qed.

(** X4.  A request of 0 is carried out exactly on the batteries that are
    within their bounds, and it leaves such a battery as it is; on a
    battery constructed with a charge below 0 it raises OverDischarge, on
    one constructed above capacity OverCharge (rate limit not negative). *)
Theorem charge_zero (b : Battery) :
  reachable b ->
  0 <= max_charge_rate b ->
  (in_bounds b -> charge 0 b = (Ok tt, b)) /\
  (state_of_charge b < 0 -> charge 0 b = (Raise OverDischarge, b)) /\
  (0 <= state_of_charge b -> max_capacity b < state_of_charge b ->
   charge 0 b = (Raise OverCharge, b)).
Proof.
  intros Hreach Hrate.
  pose proof (reachable_consistent b Hreach) as Hc.
  pose proof (cons_eff_pos b Hc) as Hpos.
  assert (Hp : proposed_charge_of b 0 = state_of_charge b)
    by (rewrite proposed_charging by lra; ring).
  rewrite charge_run by lra. rewrite Hp, Rabs_R0. unfold Rge_b, in_bounds.
  repeat split; intros; cmp_cases; try lra; try reflexivity.
  now rewrite updated_same.
Qed.

Lemma charge_zero_witness :
  (in_bounds (powerwall 5) -> charge 0 (powerwall 5) = (Ok tt, powerwall 5)) /\
  (state_of_charge (powerwall 5) < 0 ->
   charge 0 (powerwall 5) = (Raise OverDischarge, powerwall 5)) /\
  (0 <= state_of_charge (powerwall 5) ->
   max_capacity (powerwall 5) < state_of_charge (powerwall 5) ->
   charge 0 (powerwall 5) = (Raise OverCharge, powerwall 5)).
Proof.
  apply (charge_zero (powerwall 5)); [apply powerwall_reachable | cbn; lra].
Defined.

Lemma updated_twice b p q : updated (updated b p) q = updated b q.
Proof. reflexivity. Qed.

Lemma updated_ext b p q : p = q -> updated b p = updated b q.
Proof. now intros ->. Qed.

(** X5.  Round trip: of [x] kWh sent to a battery, [x * round_trip_efficiency]
    kWh asked back bring it to where it was: when the charge and that
    discharge both return, the battery is as it was before the charge,
    derived values included (up to the rounding of the floats; whether the
    discharge returns is decided by the assertions of [charge]). *)
Theorem charge_then_discharge_round_trip (b b1 b2 : Battery) (x : R) :
  reachable b ->
  0 <= x ->
  charge x b = (Ok tt, b1) ->
  charge (- (x * round_trip_efficiency b)) b1 = (Ok tt, b2) ->
  b2 = b.
Proof.
  intros Hreach Hx Hch Hch2.
  pose proof (reachable_consistent b Hreach) as Hc.
  pose proof (charge_consistent _ _ _ _ Hc Hch) as Hc1.
  pose proof (cons_eff_pos b Hc) as Hpos.
  pose proof (cons_rte b Hc) as Hrte.
  assert (Hsq : charge_efficiency b * charge_efficiency b =
                round_trip_efficiency b).
  { rewrite (cons_eff b Hc). apply sqrt_sqrt. lra. }
  apply charge_ok_inv in Hch as (_ & _ & ->); [| assumption].
  rewrite proposed_charging in * by assumption.
  set (p1 := state_of_charge b + x * charge_efficiency b) in *.
  assert (Hnn : 0 <= x * round_trip_efficiency b) by nra.
  assert (Hp : proposed_charge_of (updated b p1)
                 (- (x * round_trip_efficiency b)) = state_of_charge b).
  { destruct (Req_dec_T (x * round_trip_efficiency b) 0) as [Hz | Hnz].
    - rewrite Hz, Ropp_0, proposed_charging by lra.
      cbn. subst p1. nra.
    - rewrite proposed_discharging by lra.
      cbn. subst p1. rewrite <- Hsq. field. lra. }
  apply charge_ok_inv in Hch2 as (_ & _ & ->); [| assumption].
  rewrite Hp, updated_twice, updated_same by assumption. reflexivity.
Qed.

Lemma charge_then_discharge_round_trip_witness :
  powerwall (5 + 2 + - 2) = powerwall 5.
Proof.
  apply (charge_then_discharge_round_trip (powerwall 5) (powerwall (5 + 2))
           (powerwall (5 + 2 + - 2)) 2).
  - apply powerwall_reachable.
  - lra.
  - apply powerwall_charge; [rewrite Rabs_right |]; lra.
  - cbn [round_trip_efficiency powerwall].
    replace (- (2 * 1)) with (- 2) by lra.
    apply powerwall_charge; [rewrite Rabs_left |]; lra.
Defined.

(** X6.  Requests of one direction add up: when two successive charges (or
    two successive discharges) return, and the single request of their sum
    returns too, that single request leaves the battery as the two left it
    (up to the rounding of the floats). *)
Theorem same_direction_requests_add (b b1 b2 b3 : Battery) (x y : R) :
  reachable b ->
  (0 <= x /\ 0 <= y) \/ (x < 0 /\ y < 0) ->
  charge x b = (Ok tt, b1) ->
  charge y b1 = (Ok tt, b2) ->
  charge (x + y) b = (Ok tt, b3) ->
  b3 = b2.
Proof.
  intros Hreach Hsign H1 H2 H3.
  pose proof (reachable_consistent b Hreach) as Hc.
  pose proof (charge_consistent _ _ _ _ Hc H1) as Hc1.
  pose proof (cons_eff_pos b Hc) as Hpos.
  apply charge_ok_inv in H1 as (_ & _ & ->); [| assumption].
  apply charge_ok_inv in H2 as (_ & _ & ->); [| assumption].
  apply charge_ok_inv in H3 as (_ & _ & ->); [| assumption].
  rewrite updated_twice.
  assert (Hp : proposed_charge_of
                 (updated b (proposed_charge_of b x)) y =
               proposed_charge_of b (x + y)).
  { destruct Hsign as [[Hx Hy] | [Hx Hy]].
    - rewrite !proposed_charging by lra. cbn. ring.
    - rewrite !proposed_discharging by lra. cbn. field. lra. }
  rewrite Hp. reflexivity.
Qed.

Lemma same_direction_requests_add_witness :
  powerwall (5 + (1 + 2)) = powerwall (5 + 1 + 2).
Proof.
  apply (same_direction_requests_add (powerwall 5) (powerwall (5 + 1))
           (powerwall (5 + 1 + 2)) (powerwall (5 + (1 + 2))) 1 2).
  - apply powerwall_reachable.
  - left. lra.
  - apply powerwall_charge; [rewrite Rabs_right |]; lra.
  - apply powerwall_charge; [rewrite Rabs_right |]; lra.
  - apply powerwall_charge; [rewrite Rabs_right |]; lra.
Defined.

(** X7.  [available_store_cap] is what fills the battery: on a battery
    within bounds, a request of that amount, when it returns, leaves the
    state of charge at [max_capacity], with nothing more to store (up to
    the rounding of the floats). *)
Theorem charging_the_store_cap_fills (b b' : Battery) :
  reachable b ->
  in_bounds b ->
  charge (available_store_cap b) b = (Ok tt, b') ->
  state_of_charge b' = max_capacity b /\
  available_store_cap b' = 0.
Proof.
  intros Hreach [Hlo Hhi] Hch.
  pose proof (reachable_consistent b Hreach) as Hc.
  pose proof (cons_eff_pos b Hc) as Hpos.
  pose proof (cons_cap b Hc) as Hcap.
  assert (Hnn : 0 <= available_store_cap b).
  { rewrite Hcap. apply Rmult_le_pos; [lra |].
    left. now apply Rinv_0_lt_compat. }
  assert (Hp : proposed_charge_of b (available_store_cap b) = max_capacity b).
  { rewrite proposed_charging by assumption. rewrite Hcap. field. lra. }
  apply charge_ok_inv in Hch as (_ & _ & ->); [| assumption].
  split.
  - cbn. exact Hp.
  - cbn. rewrite Hp. field. lra.
Qed.

Lemma charging_the_store_cap_fills_witness :
  state_of_charge (powerwall (12 + 2)) = max_capacity (powerwall 12) /\
  available_store_cap (powerwall (12 + 2)) = 0.
Proof.
  apply (charging_the_store_cap_fills (powerwall 12) (powerwall (12 + 2))).
  - apply powerwall_reachable.
  - unfold in_bounds. cbn. lra.
  - cbn [available_store_cap powerwall].
    replace (14 - 12) with 2 by lra.
    apply powerwall_charge; [rewrite Rabs_right |]; lra.
Defined.

(** X25.  On binary64 floats, as the program computes: a call of [charge]
    that returns was within the rate limit and leaves the state of charge
    between 0 and [max_capacity], for the very comparisons of floats the
    assertions make; it keeps name, capacity, rate limit and efficiencies,
    and sets the two derived values to the rounded product and quotient of
    [_update_charge_values]. *)
Theorem binary64_charge_postcondition
    (b b' : battery_model_binary64.Battery) (request : PrimFloat.float) :
  battery_model_binary64.charge request b = (Ok tt, b') ->
  PrimFloat.leb (PrimFloat.abs request)
    (battery_model_binary64.max_charge_rate b) = true /\
  PrimFloat.leb PrimFloat.zero
    (battery_model_binary64.state_of_charge b') = true /\
  PrimFloat.leb (battery_model_binary64.state_of_charge b')
    (battery_model_binary64.max_capacity b') = true /\
  battery_model_binary64.model_name b' = battery_model_binary64.model_name b /\
  battery_model_binary64.max_capacity b' =
    battery_model_binary64.max_capacity b /\
  battery_model_binary64.max_charge_rate b' =
    battery_model_binary64.max_charge_rate b /\
  battery_model_binary64.round_trip_efficiency b' =
    battery_model_binary64.round_trip_efficiency b /\
  battery_model_binary64.charge_efficiency b' =
    battery_model_binary64.charge_efficiency b /\
  battery_model_binary64.available_to_discharge b' =
    PrimFloat.mul (battery_model_binary64.state_of_charge b')
      (battery_model_binary64.charge_efficiency b') /\
  battery_model_binary64.available_store_cap b' =
    PrimFloat.div
      (PrimFloat.sub (battery_model_binary64.max_capacity b')
         (battery_model_binary64.state_of_charge b'))
      (battery_model_binary64.charge_efficiency b').
Proof.
  unfold battery_model_binary64.charge,
    battery_model_binary64._update_charge_values,
    battery_model_binary64.py_div,
    bind, get, py_assert, ret, raise, lift, modify.
  intros H.
  repeat match type of H with
         | context [if ?c then _ else _] =>
             destruct c eqn:?; try discriminate H
         end.
  all: injection H as <-; cbn; repeat split; assumption.
Qed.

Lemma binary64_charge_postcondition_witness :
  PrimFloat.leb (PrimFloat.abs battery_model_binary64.half_rate_request)
    (battery_model_binary64.max_charge_rate
       battery_model_binary64.default_battery_object) = true /\
  PrimFloat.leb PrimFloat.zero
    (battery_model_binary64.state_of_charge
       battery_model_binary64.default_battery_charged) = true.
Proof.
  pose proof (binary64_charge_postcondition
                battery_model_binary64.default_battery_object
                battery_model_binary64.default_battery_charged
                battery_model_binary64.half_rate_request) as H.
  destruct H as (H1 & H2 & _); [vm_compute; reflexivity |].
  split; assumption.
Defined.

(** * Further properties of the controllers *)

Lemma Timestamp_eqb_refl t : Timestamp_eqb t t = true.
Proof. unfold Timestamp_eqb, same_day. now rewrite !Z.eqb_refl. Qed.

Lemma Timestamp_eqb_same_day a b : Timestamp_eqb a b = true -> same_day a b = true.
Proof. unfold Timestamp_eqb. now intros [H _]%andb_true_iff. Qed.

Lemma loc_In df t row : loc df t = Ok row -> In row df.
Proof.
  induction df as [| r df IH]; cbn; [discriminate |].
  destruct (Timestamp_eqb (name r) t); [intros [= ->]; now left | auto].
Qed.

Lemma loc_found df t : has_row df t -> exists row, loc df t = Ok row.
Proof.
  intros (row & Hin & <-). induction df as [| r df IH]; [contradiction |].
  cbn. destruct (Timestamp_eqb (name r) (name row)) eqn:E; [eauto |].
  destruct Hin as [-> | Hin]; [| auto].
  now rewrite Timestamp_eqb_refl in E.
Qed.

Lemma loc_not_found df t : ~ has_row df t -> loc df t = Raise KeyError.
Proof.
  intros Hno. induction df as [| r df IH]; [reflexivity |].
  cbn. destruct (Timestamp_eqb (name r) t) eqn:E.
  - exfalso. apply Hno. exists r. split; [now left |].
    unfold Timestamp_eqb, same_day in E.
    repeat (apply andb_true_iff in E as [E ?]).
    destruct r as [[y m d h] ? ? ? ? ? ? ? ? ? ?], t; cbn in *.
    f_equal; now apply Z.eqb_eq.
  - apply IH. intros (row & Hin & Hn). apply Hno. exists row. split; [now right | assumption].
Qed.

Lemma hold_within_limits b :
  consistent b -> in_bounds b -> 0 <= max_charge_rate b -> within_limits b 0.
Proof.
  intros Hc [Hlo Hhi] Hr.
  pose proof (cons_eff_pos b Hc) as Hpos.
  assert (Hatd_nn : 0 <= available_to_discharge b)
    by (rewrite (cons_atd b Hc); nra).
  assert (Hnn : 0 <= available_store_cap b).
  { rewrite (cons_cap b Hc). apply Rmult_le_pos; [lra |].
    left. now apply Rinv_0_lt_compat. }
  unfold within_limits. rewrite Rabs_R0. lra.
Qed.

Lemma discharge_request_within_limits b usage :
  consistent b -> in_bounds b -> 0 <= max_charge_rate b -> 0 <= usage ->
  within_limits b
    (-1 * py_min3 (max_charge_rate b) (available_to_discharge b) usage).
Proof.
  intros Hc [Hlo Hhi] Hr Hu.
  pose proof (cons_eff_pos b Hc) as Hpos.
  assert (Hatd_nn : 0 <= available_to_discharge b)
    by (rewrite (cons_atd b Hc); nra).
  assert (Hnn : 0 <= available_store_cap b).
  { rewrite (cons_cap b Hc). apply Rmult_le_pos; [lra |].
    left. now apply Rinv_0_lt_compat. }
  rewrite py_min3_Rmin.
  set (m := Rmin (Rmin (max_charge_rate b) (available_to_discharge b)) usage).
  assert (Hm : 0 <= m /\ m <= max_charge_rate b /\ m <= available_to_discharge b).
  { subst m. unfold Rmin.
    destruct (Rle_dec (max_charge_rate b) (available_to_discharge b));
      destruct (Rle_dec _ usage); lra. }
  destruct Hm as (Hm0 & Hm1 & Hm2).
  replace (-1 * m) with (- m) by ring.
  unfold within_limits. split; [rewrite Rabs_left1; lra | lra].
Qed.

Lemma charge_request_within_limits b :
  consistent b -> in_bounds b -> 0 <= max_charge_rate b ->
  within_limits b (py_min2 (max_charge_rate b) (available_store_cap b)).
Proof.
  intros Hc [Hlo Hhi] Hr.
  pose proof (cons_eff_pos b Hc) as Hpos.
  assert (Hatd_nn : 0 <= available_to_discharge b)
    by (rewrite (cons_atd b Hc); nra).
  assert (Hnn : 0 <= available_store_cap b).
  { rewrite (cons_cap b Hc). apply Rmult_le_pos; [lra |].
    left. now apply Rinv_0_lt_compat. }
  rewrite py_min2_Rmin.
  set (m := Rmin (max_charge_rate b) (available_store_cap b)).
  assert (Hm : 0 <= m /\ m <= max_charge_rate b /\ m <= available_store_cap b).
  { subst m. unfold Rmin.
    destruct (Rle_dec (max_charge_rate b) (available_store_cap b)); lra. }
  destruct Hm as (Hm0 & Hm1 & Hm2).
  unfold within_limits. split; [rewrite Rabs_right; lra | lra].
Qed.

Lemma peaksimple_decide_within_limits self df t bat :
  consistent bat -> in_bounds bat -> 0 <= max_charge_rate bat ->
  usage_nonneg df -> has_row df t ->
  exists q,
    controller_peaksimple.decide df t bat self = (Ok q, self) /\
    within_limits bat q.
Proof.
  intros Hc Hin Hr Hu Hrow.
  destruct (is_weekday_peak self t) eqn:Hp.
  - destruct (loc_found df t Hrow) as [row Hloc].
    assert (0 <= Usage row).
    { unfold usage_nonneg in Hu. rewrite Forall_forall in Hu.
      apply Hu. eapply loc_In; eassumption. }
    eexists. split.
    + unfold controller_peaksimple.decide, bind, get, lift, ret.
      unfold is_weekday_peak in Hp. rewrite Hp, Hloc. reflexivity.
    + now apply discharge_request_within_limits.
  - unfold controller_peaksimple.decide, bind, get, lift, ret.
    unfold is_weekday_peak in Hp. rewrite Hp.
    destruct (hour t >=? _)%Z; eexists; (split; [reflexivity |]).
    + now apply charge_request_within_limits.
    + now apply hold_within_limits.
Qed.

(** X9.  The fixed-schedule controller asks for no more than the battery
    reports: for a battery within bounds with a rate limit that is not
    negative, and a series without negative usage that has a row for the
    hour, [decide] returns a request that is within the rate limit and
    between [-available_to_discharge] and [available_store_cap]; the
    controller itself is unchanged. *)
Theorem peaksimple_request_within_limits
    (self : controller_peaksimple.obj) (df : DataFrame) (t : Timestamp)
    (bat : Battery) :
  reachable bat ->
  in_bounds bat ->
  0 <= max_charge_rate bat ->
  usage_nonneg df ->
  has_row df t ->
  exists q,
    controller_peaksimple.decide df t bat self = (Ok q, self) /\
    Rabs q <= max_charge_rate bat /\
    - available_to_discharge bat <= q <= available_store_cap bat.
Proof.
  intros Hreach Hin Hr Hu Hrow.
  pose proof (reachable_consistent bat Hreach) as Hc.
  destruct (peaksimple_decide_within_limits self df t bat Hc Hin Hr Hu Hrow)
    as (q & Hd & Hq1 & Hq2).
  exists q. split; [exact Hd |]. split; [exact Hq1 | exact Hq2].
Qed.

Lemma demo_df_usage_nonneg : usage_nonneg demo_df.
Proof. repeat constructor; cbn; lra. Qed.

Lemma peaksimple_request_within_limits_witness :
  exists q,
    controller_peaksimple.decide demo_df tuesday16 (powerwall 5) schedule =
      (Ok q, schedule) /\
    Rabs q <= max_charge_rate (powerwall 5) /\
    - available_to_discharge (powerwall 5) <= q <=
      available_store_cap (powerwall 5).
Proof.
  apply (peaksimple_request_within_limits schedule demo_df tuesday16 (powerwall 5)).
  - apply powerwall_reachable.
  - unfold in_bounds. cbn. lra.
  - cbn. lra.
  - apply demo_df_usage_nonneg.
  - exists (demo_row tuesday16 1 (3 / 10)). split; [now left | reflexivity].
Defined.

Lemma quantile_ok l q : 0 <= q <= 1 -> exists c, quantile l q = Ok c.
Proof.
  intros [H0 H1]. unfold quantile.
  apply Rle_b_true in H0, H1. rewrite H0, H1. cbn [andb].
  destruct (sort_values l); eauto.
Qed.

Lemma quantile_out_of_range l q : q < 0 \/ 1 < q -> quantile l q = Raise ValueError.
Proof.
  intros H. unfold quantile.
  destruct (Rle_b 0 q) eqn:E0; [| reflexivity].
  destruct (Rle_b q 1) eqn:E1; [| reflexivity].
  apply Rle_b_true in E0, E1. lra.
Qed.

Lemma update_thresh_runs rows c :
  0 <= thresh_high_quant c <= 1 ->
  0 <= thresh_low_quant c <= 1 ->
  exists c',
    update_thresh rows c = (Ok tt, c') /\
    thresh_high_quant c' = thresh_high_quant c /\
    thresh_low_quant c' = thresh_low_quant c.
Proof.
  intros Hh Hl.
  destruct (quantile_ok (map Apparent_Price rows) _ Hh) as [h Qh].
  destruct (quantile_ok (map Apparent_Price rows) _ Hl) as [l Ql].
  unfold update_thresh, bind, get, lift, modify. rewrite Qh.
  cbn [set_thresh_high_price thresh_low_quant]. rewrite Ql.
  eexists. split; [reflexivity |]. split; reflexivity.
Qed.

Lemma day_rows_nonempty df t : has_row df t -> day_rows df t <> [].
Proof.
  intros (row & Hin & Hn) Hnil.
  assert (Hf : In row (day_rows df t)).
  { unfold day_rows. apply filter_In. split; [assumption |].
    rewrite Hn. apply Timestamp_eqb_same_day, Timestamp_eqb_refl. }
  rewrite Hnil in Hf. contradiction.
Qed.

Lemma threshold_request_within_limits high low row bat :
  consistent bat -> in_bounds bat -> 0 <= max_charge_rate bat ->
  0 <= Usage row ->
  within_limits bat (threshold_request high low row bat).
Proof.
  intros Hc Hin Hr Hu. unfold threshold_request.
  destruct (gt_cell _ _); [now apply discharge_request_within_limits |].
  destruct (lt_cell _ _);
    [now apply charge_request_within_limits | now apply hold_within_limits].
Qed.

Lemma dailythresh_decide_after_update df t bat c :
  forall row, loc df t = Ok row ->
  (fun s : controller_dailythresh.obj =>
     bind (lift (loc df t))
       (fun row => bind get (fun self =>
          if gt_cell (Apparent_Price row) (thresh_high_price self)
          then ret (-1 * py_min3 (max_charge_rate bat)
                                 (available_to_discharge bat) (Usage row))
          else if lt_cell (Apparent_Price row) (thresh_low_price self)
          then ret (py_min2 (max_charge_rate bat) (available_store_cap bat))
          else ret 0)) s) c =
  (Ok (threshold_request (thresh_high_price c) (thresh_low_price c) row bat), c).
Proof.
  intros row Hloc. unfold bind, lift, get, ret, threshold_request.
  rewrite Hloc.
  destruct (gt_cell _ _); [reflexivity |].
  destruct (lt_cell _ _); reflexivity.
Qed.

Lemma dailythresh_decide_runs c df t bat :
  0 <= thresh_high_quant c <= 1 ->
  0 <= thresh_low_quant c <= 1 ->
  has_row df t ->
  exists row c',
    loc df t = Ok row /\
    controller_dailythresh.decide df t bat c =
      (Ok (threshold_request (thresh_high_price c') (thresh_low_price c')
             row bat), c') /\
    thresh_high_quant c' = thresh_high_quant c /\
    thresh_low_quant c' = thresh_low_quant c.
Proof.
  intros Hh Hl Hrow.
  destruct (loc_found df t Hrow) as [row Hloc].
  unfold controller_dailythresh.decide. unfold bind at 1.
  destruct (Z.eqb_spec (hour t) 0) as [Hz | Hnz].
  - unfold bind at 1, lift at 1, loc_day. fold (day_rows df t).
    pose proof (day_rows_nonempty df t Hrow) as Hne.
    destruct (day_rows df t) as [| r0 rows] eqn:Hday; [contradiction |].
    destruct (update_thresh_runs (r0 :: rows) c Hh Hl) as (c' & Hu & Hq1 & Hq2).
    rewrite Hu.
    exists row, c'. split; [assumption |]. split; [| split; assumption].
    apply (dailythresh_decide_after_update df t bat c' row Hloc).
  - unfold ret at 1.
    exists row, c. split; [assumption |]. split; [| split; reflexivity].
    apply (dailythresh_decide_after_update df t bat c row Hloc).
Qed.

(** X10.  The threshold controller asks for no more than the battery
    reports either: with quantile levels within [0, 1], a battery within
    bounds with a rate limit that is not negative, and a series without
    negative usage that has a row for the hour, [decide] returns a request
    that is within the rate limit and between [-available_to_discharge]
    and [available_store_cap]. *)
Theorem dailythresh_request_within_limits
    (self : controller_dailythresh.obj) (df : DataFrame) (t : Timestamp)
    (bat : Battery) :
  0 <= thresh_high_quant self <= 1 ->
  0 <= thresh_low_quant self <= 1 ->
  reachable bat ->
  in_bounds bat ->
  0 <= max_charge_rate bat ->
  usage_nonneg df ->
  has_row df t ->
  exists q self',
    controller_dailythresh.decide df t bat self = (Ok q, self') /\
    Rabs q <= max_charge_rate bat /\
    - available_to_discharge bat <= q <= available_store_cap bat.
Proof.
  intros Hh Hl Hreach Hin Hr Hu Hrow.
  pose proof (reachable_consistent bat Hreach) as Hc.
  destruct (dailythresh_decide_runs self df t bat Hh Hl Hrow)
    as (row & c' & Hloc & Hd & _ & _).
  assert (Hrow_u : 0 <= Usage row).
  { unfold usage_nonneg in Hu. rewrite Forall_forall in Hu.
    apply Hu. eapply loc_In; eassumption. }
  destruct (threshold_request_within_limits (thresh_high_price c')
              (thresh_low_price c') row bat Hc Hin Hr Hrow_u) as [Hq1 Hq2].
  eexists. exists c'.
  split; [exact Hd |]. split; [exact Hq1 | exact Hq2].
Qed.

Lemma night_df_usage_nonneg : usage_nonneg night_df.
Proof. repeat constructor; cbn; lra. Qed.

Lemma dailythresh_request_within_limits_witness :
  exists q self',
    controller_dailythresh.decide night_df tuesday00 (powerwall 5)
      (mkobj 1 0 (Some 2) (Some 1)) = (Ok q, self') /\
    Rabs q <= max_charge_rate (powerwall 5) /\
    - available_to_discharge (powerwall 5) <= q <=
      available_store_cap (powerwall 5).
Proof.
  apply (dailythresh_request_within_limits (mkobj 1 0 (Some 2) (Some 1))
           night_df tuesday00 (powerwall 5)).
  - cbn. lra.
  - cbn. lra.
  - apply powerwall_reachable.
  - unfold in_bounds. cbn. lra.
  - cbn. lra.
  - apply night_df_usage_nonneg.
  - exists (demo_row tuesday00 1 1). split; [right; now left | reflexivity].
Defined.

(** X11.  The fixed-schedule controller looks a time up in the series only
    for a weekday peak hour: there, a time the series has no row for is a
    KeyError (the controller unchanged); at any other time the request is
    the same whatever the series is. *)
Theorem peaksimple_reads_series_only_at_peak
    (self : controller_peaksimple.obj) (df : DataFrame) (t : Timestamp)
    (bat : Battery) :
  let peak := In (hour t) (controller_peaksimple.peak_hours self) /\
              (dayofweek t <= 4)%Z in
  (peak -> ~ has_row df t ->
   controller_peaksimple.decide df t bat self = (Raise KeyError, self)) /\
  (~ peak -> forall df',
   controller_peaksimple.decide df t bat self =
   controller_peaksimple.decide df' t bat self).
Proof.
  cbv zeta. split.
  - intros Hp Hno. apply is_weekday_peak_spec in Hp.
    unfold controller_peaksimple.decide, bind, get, lift, ret.
    unfold is_weekday_peak in Hp. rewrite Hp, (loc_not_found df t Hno).
    reflexivity.
  - intros Hp df'.
    assert (E : is_weekday_peak self t = false).
    { destruct (is_weekday_peak self t) eqn:E; [| reflexivity].
      apply is_weekday_peak_spec in E. contradiction. }
    now rewrite !peaksimple_decide_offpeak.
Qed.

Lemma dailythresh_decide_no_row df t bat c :
  loc df t = Raise KeyError ->
  controller_dailythresh.decide df t bat c =
    if (hour t =? 0)%Z then
      match loc_day df t with
      | Raise e => (Raise e, c)
      | Ok rows =>
          match update_thresh rows c with
          | (Ok _, c') => (Raise KeyError, c')
          | (Raise e, c') => (Raise e, c')
          end
      end
    else (Raise KeyError, c).
Proof.
  intros Hloc. unfold controller_dailythresh.decide, bind, lift, ret.
  destruct (hour t =? 0)%Z.
  - destruct (loc_day df t) as [rows | e]; [| reflexivity].
    destruct (update_thresh rows c) as [[[] | e] c']; [| reflexivity].
    now rewrite Hloc.
  - now rewrite Hloc.
Qed.

(** X12.  The threshold controller looks every time up: a call of [decide]
    for a time the series has no row for raises KeyError (quantile levels
    within [0, 1]).  At an hour other than 0 the controller is unchanged by
    the failed call; at hour 0, when the series has other rows of that
    day, the thresholds have already been replaced by that day's when the
    lookup fails. *)
Theorem dailythresh_decide_without_row
    (self : controller_dailythresh.obj) (df : DataFrame) (t : Timestamp)
    (bat : Battery) :
  0 <= thresh_high_quant self <= 1 ->
  0 <= thresh_low_quant self <= 1 ->
  ~ has_row df t ->
  fst (controller_dailythresh.decide df t bat self) = Raise KeyError /\
  (hour t <> 0%Z ->
   snd (controller_dailythresh.decide df t bat self) = self) /\
  (hour t = 0%Z -> day_rows df t <> [] ->
   thresholds_from (thresh_high_quant self) (thresh_low_quant self)
     (snd (controller_dailythresh.decide df t bat self)) (day_rows df t)).
Proof.
  intros Hh Hl Hno. pose proof (loc_not_found df t Hno) as Hloc.
  rewrite (dailythresh_decide_no_row df t bat self Hloc).
  destruct (Z.eqb_spec (hour t) 0) as [Hz | Hnz].
  - unfold loc_day. fold (day_rows df t).
    destruct (day_rows df t) as [| r0 rows] eqn:Hday.
    + cbn. split; [reflexivity |]. split; intros; contradiction.
    + destruct (update_thresh_runs (r0 :: rows) self Hh Hl) as (c' & Hu & _).
      rewrite Hu. apply update_thresh_inv in Hu as (_ & _ & Hfrom).
      cbn. split; [reflexivity |]. split; [intros; contradiction |].
      intros _ _. exact Hfrom.
  - cbn. split; [reflexivity |]. split; [reflexivity | intros; contradiction].
Qed.

Lemma dailythresh_decide_without_row_witness :
  fst (controller_dailythresh.decide night_df (mkTimestamp 2018 3 13 5)
         (powerwall 5) (mkobj 1 0 (Some 2) (Some 1))) = Raise KeyError /\
  (hour (mkTimestamp 2018 3 13 5) <> 0%Z ->
   snd (controller_dailythresh.decide night_df (mkTimestamp 2018 3 13 5)
          (powerwall 5) (mkobj 1 0 (Some 2) (Some 1))) =
   mkobj 1 0 (Some 2) (Some 1)) /\
  (hour (mkTimestamp 2018 3 13 5) = 0%Z ->
   day_rows night_df (mkTimestamp 2018 3 13 5) <> [] ->
   thresholds_from
     (thresh_high_quant (mkobj 1 0 (Some 2) (Some 1)))
     (thresh_low_quant (mkobj 1 0 (Some 2) (Some 1)))
     (snd (controller_dailythresh.decide night_df (mkTimestamp 2018 3 13 5)
             (powerwall 5) (mkobj 1 0 (Some 2) (Some 1))))
     (day_rows night_df (mkTimestamp 2018 3 13 5))).
Proof.
  apply (dailythresh_decide_without_row (mkobj 1 0 (Some 2) (Some 1))
           night_df (mkTimestamp 2018 3 13 5) (powerwall 5)).
  - cbn. lra.
  - cbn. lra.
  - intros (row & Hin & Hn).
    destruct Hin as [<- | [<- | []]]; discriminate Hn.
Defined.

Lemma dailythresh_new_runs df hq lq :
  0 <= hq <= 1 -> 0 <= lq <= 1 ->
  exists c,
    controller_dailythresh.new df hq lq = Ok c /\
    thresh_high_quant c = hq /\ thresh_low_quant c = lq /\
    thresholds_from hq lq c df.
Proof.
  intros Hh Hl.
  unfold controller_dailythresh.new, controller_dailythresh.__init__, bind, modify.
  cbn [set_thresh_high_quant set_thresh_low_quant].
  match goal with
  | |- context [update_thresh df ?c] =>
      destruct (update_thresh_runs df c) as (c' & Hu & Hq1 & Hq2);
        [cbn; assumption | cbn; assumption |];
        rewrite Hu; pose proof (update_thresh_inv _ _ _ Hu) as (_ & _ & Hfrom)
  end.
  exists c'. cbn in Hq1, Hq2, Hfrom. auto.
Qed.

Lemma dailythresh_new_out_of_range df hq lq :
  hq < 0 \/ 1 < hq \/ lq < 0 \/ 1 < lq ->
  controller_dailythresh.new df hq lq = Raise ValueError.
Proof.
  intros H.
  unfold controller_dailythresh.new, controller_dailythresh.__init__,
    update_thresh, bind, modify, get, lift.
  cbn [set_thresh_high_quant set_thresh_low_quant thresh_high_quant
       thresh_low_quant class_defaults].
  destruct (Rle_lt_dec 0 hq) as [H0 | H0];
    [destruct (Rle_lt_dec hq 1) as [H1 | H1] |].
  - destruct (quantile_ok (map Apparent_Price df) hq (conj H0 H1)) as [h ->].
    cbn [set_thresh_high_price thresh_low_quant].
    assert (Hlq : lq < 0 \/ 1 < lq) by (destruct H as [? | [? | [? | ?]]]; lra).
    rewrite (quantile_out_of_range _ lq Hlq). reflexivity.
  - rewrite (quantile_out_of_range _ hq) by (right; assumption). reflexivity.
  - rewrite (quantile_out_of_range _ hq) by (left; assumption). reflexivity.
Qed.

(** X13.  [make_controller] with one of the two tags.  "simple_peak" reads
    only [peak_hours] and [trough_hour] and returns a schedule with exactly
    these, whatever else is passed; "daily_threshold" reads only [df] and
    the two quantile levels, and returns a controller whose thresholds are
    the quantiles of the apparent prices of the whole of [df] when both
    levels are within [0, 1], and raises ValueError when one is not; a
    keyword the tag needs and that was not passed is a KeyError. *)
Theorem make_controller_known_tags (kw : kwargs) :
  (forall ph th,
     kw_peak_hours kw = Some ph -> kw_trough_hour kw = Some th ->
     make_controller "simple_peak" kw =
       Ok (PeakSimple (controller_peaksimple.mkobj ph th))) /\
  (kw_peak_hours kw = None \/ kw_trough_hour kw = None ->
   make_controller "simple_peak" kw = Raise KeyError) /\
  (forall df hq lq,
     kw_df kw = Some df -> kw_thresh_high_quant kw = Some hq ->
     kw_thresh_low_quant kw = Some lq ->
     (0 <= hq <= 1 -> 0 <= lq <= 1 ->
      exists c,
        make_controller "daily_threshold" kw = Ok (DailyThresh c) /\
        thresh_high_quant c = hq /\ thresh_low_quant c = lq /\
        thresholds_from hq lq c df) /\
     (hq < 0 \/ 1 < hq \/ lq < 0 \/ 1 < lq ->
      make_controller "daily_threshold" kw = Raise ValueError)) /\
  (kw_df kw = None \/ kw_thresh_high_quant kw = None \/
   kw_thresh_low_quant kw = None ->
   make_controller "daily_threshold" kw = Raise KeyError).
Proof.
  unfold make_controller. cbn [String.eqb Ascii.eqb Bool.eqb andb].
  destruct kw as [odf ohq olq oph oth]. cbn [kw_df kw_thresh_high_quant
    kw_thresh_low_quant kw_peak_hours kw_trough_hour].
  split; [| split; [| split]].
  - intros ph th -> ->. reflexivity.
  - intros [-> | ->]; [reflexivity |]. destruct oph; reflexivity.
  - intros df hq lq -> -> ->. cbn [getitem rbind]. split.
    + intros Hh Hl.
      destruct (dailythresh_new_runs df hq lq Hh Hl) as (c & -> & ? & ? & ?).
      exists c. auto.
    + intros H. now rewrite dailythresh_new_out_of_range.
  - intros [-> | [-> | ->]]; [reflexivity | |].
    + destruct odf; reflexivity.
    + destruct odf; [| reflexivity]. destruct ohq; reflexivity.
Qed.

(** * Further properties of the hourly loop *)

(** What a run that returns is made of. *)
Lemma simulate_inv ui model_df result lg :
  simulate ui model_df = (Ok result, lg) ->
  exists df0 steps,
    add_pricing_columns ui model_df = Ok df0 /\
    map hs_time steps = map name df0 /\
    chained
      (mkBattery (battery_model_name ui) (battery_max_capacity ui)
         (battery_max_charge_rate ui) (battery_initial_state_of_charge ui)
         (battery_round_trip_efficiency ui)
         (sqrt (battery_round_trip_efficiency ui))
         (battery_initial_state_of_charge ui *
          sqrt (battery_round_trip_efficiency ui))
         ((battery_max_capacity ui - battery_initial_state_of_charge ui) /
          sqrt (battery_round_trip_efficiency ui))) steps /\
    0 < battery_round_trip_efficiency ui /\
    result = add_net_column (fill_all df0 steps) /\
    lg = flat_map events_of steps.
Proof.
  unfold simulate.
  destruct (add_pricing_columns ui model_df) as [df0 | e] eqn:Hdf0;
    [| discriminate].
  destruct (battery_model.new _ _ _ _ _) as [bat0 | e] eqn:Hbat;
    [| discriminate].
  destruct (make_controller _ _) as [ctl | e] eqn:Hctl; [| discriminate].
  destruct (apply_axis1 step_result_df (mkworld bat0 ctl df0 []))
    as [[[] | e] w] eqn:Hrun; [| discriminate].
  intros [= <- <-].
  unfold apply_axis1, bind, get in Hrun. cbn [result_df] in Hrun.
  destruct (for_each_rows df0 [] [] (mkworld bat0 ctl df0 []) w)
    as (steps & Hts & Hchain & Hdf & Hlog).
  { cbn. now rewrite app_nil_r. }
  { exact Hrun. }
  cbn [app battery log] in Hts, Hchain, Hdf, Hlog.
  rewrite app_nil_r in Hdf.
  apply new_inv in Hbat as [Hrte ->].
  exists df0, steps. rewrite Hdf. auto 7.
Qed.

(** Along a chain every hour starts from a consistent battery with the
    parameters of the first, and its request is one the battery accepts. *)
Lemma chained_steps steps :
  forall b,
    consistent b -> chained b steps ->
    Forall (fun s =>
              consistent (hs_before s) /\
              max_capacity (hs_before s) = max_capacity b /\
              max_charge_rate (hs_before s) = max_charge_rate b /\
              charge_efficiency (hs_before s) = charge_efficiency b /\
              feasible (hs_before s) (hs_request s) /\
              hs_after s =
                updated (hs_before s)
                  (proposed_charge_of (hs_before s) (hs_request s)))
           steps.
Proof.
  induction steps as [| s rest IH]; intros b Hc Hch; [constructor |].
  cbn in Hch. destruct Hch as (Hb & Hcharge & Hrest).
  pose proof (charge_consistent _ _ _ _ Hc Hcharge) as Hc'.
  apply charge_ok_inv in Hcharge as (Hr & Hp & Hafter); [| assumption].
  constructor.
  - rewrite Hb. split; [assumption |]. do 3 (split; [reflexivity |]).
    split; [split; assumption | assumption].
  - specialize (IH _ Hc' Hrest). rewrite Hafter in IH. cbn in IH.
    eapply Forall_impl; [| exact IH]. cbn. intros s' H. exact H.
Qed.

(** After the first hour every hour starts within bounds; the first does
    when the battery was constructed so. *)
Lemma chained_in_bounds steps :
  forall b,
    consistent b -> in_bounds b -> chained b steps ->
    Forall (fun s => in_bounds (hs_before s)) steps.
Proof.
  induction steps as [| s rest IH]; intros b Hc Hin Hch; [constructor |].
  cbn in Hch. destruct Hch as (Hb & Hcharge & Hrest).
  pose proof (charge_consistent _ _ _ _ Hc Hcharge) as Hc'.
  constructor; [now rewrite Hb |].
  apply (IH _ Hc'); [| assumption].
  apply charge_ok_inv in Hcharge as (_ & Hp & ->); [exact Hp | assumption].
Qed.

Lemma Forall2_Forall_left {A B} (Rel : A -> B -> Prop) (P : B -> Prop) l1 l2 :
  Forall2 Rel l1 l2 -> Forall P l2 ->
  Forall (fun x => exists y, P y /\ Rel x y) l1.
Proof.
  induction 1; intros Hall; [constructor |].
  inversion Hall; subst. constructor; eauto.
Qed.

(** X15.  In the frame [simulate] returns no cell of the columns it fills
    is left NaN, and for a battery constructed within bounds every row
    holds a state of charge within [0, max_capacity], the two derived
    values that belong to it, and a request within the rate limit, with
    net purchase = usage + request. *)
Theorem simulate_rows_are_filled
    (ui : ui_dict) (model_df : list MeterRow)
    (result : DataFrame) (lg : list event) :
  simulate ui model_df = (Ok result, lg) ->
  0 <= battery_initial_state_of_charge ui <= battery_max_capacity ui ->
  Forall (fun row =>
            exists soc q,
              State_of_Charge row = Some soc /\
              0 <= soc <= battery_max_capacity ui /\
              Available_to_Discharge row =
                Some (soc * sqrt (battery_round_trip_efficiency ui)) /\
              Available_Storage_Capacity row =
                Some ((battery_max_capacity ui - soc) /
                      sqrt (battery_round_trip_efficiency ui)) /\
              Charge_Decision row = Some q /\
              Rabs q <= battery_max_charge_rate ui /\
              Net_Electricity_Purchased row = Some (Usage row + q))
         result.
Proof.
  intros Hrun Hsoc.
  destruct (simulate_inv _ _ _ _ Hrun)
    as (df0 & steps & Hdf0 & Hts & Hchain & Hrte & -> & _).
  set (bat0 := mkBattery _ _ _ _ _ _ _ _) in Hchain.
  assert (Hc0 : consistent bat0).
  { apply (new_consistent (battery_model_name ui) (battery_max_capacity ui)
             (battery_max_charge_rate ui) (battery_initial_state_of_charge ui)
             (battery_round_trip_efficiency ui)).
    now apply new_run. }
  pose proof (chained_steps steps bat0 Hc0 Hchain) as Hsteps.
  pose proof (chained_in_bounds steps bat0 Hc0 Hsoc Hchain) as Hbounds.
  destruct (finished_rows df0 steps Hts) as (_ & _ & Hrec).
  assert (Hboth : Forall (fun s =>
            (consistent (hs_before s) /\
             max_capacity (hs_before s) = max_capacity bat0 /\
             max_charge_rate (hs_before s) = max_charge_rate bat0 /\
             charge_efficiency (hs_before s) = charge_efficiency bat0 /\
             feasible (hs_before s) (hs_request s) /\
             hs_after s = updated (hs_before s)
                            (proposed_charge_of (hs_before s) (hs_request s))) /\
            in_bounds (hs_before s)) steps).
  { rewrite Forall_forall in *. intros s Hs. split; auto. }
  pose proof (Forall2_Forall_left _ _ _ _ Hrec Hboth) as Hall.
  eapply Forall_impl; [| exact Hall]. cbn beta.
  intros row (s & ((Hc & Hcap & Hrate & Heff & Hf & _) & Hin) & Hr).
  destruct Hr as (_ & Hs1 & Hs2 & Hs3 & Hs4 & Hs5).
  cbn in Hcap, Hrate, Heff.
  exists (state_of_charge (hs_before s)), (hs_request s).
  split; [assumption |]. split; [rewrite <- Hcap; exact Hin |].
  split; [rewrite Hs2, (cons_atd _ Hc), Heff; reflexivity |].
  split; [rewrite Hs3, (cons_cap _ Hc), Heff, Hcap; reflexivity |].
  split; [assumption |]. split; [rewrite <- Hrate; apply Hf | assumption].
Qed.

Lemma simulate_rows_are_filled_witness :
  exists result lg,
    simulate demo_ui demo_model_df = (Ok result, lg) /\
    Forall (fun row =>
              exists soc q,
                State_of_Charge row = Some soc /\
                0 <= soc <= battery_max_capacity demo_ui /\
                Available_to_Discharge row =
                  Some (soc * sqrt (battery_round_trip_efficiency demo_ui)) /\
                Available_Storage_Capacity row =
                  Some ((battery_max_capacity demo_ui - soc) /
                        sqrt (battery_round_trip_efficiency demo_ui)) /\
                Charge_Decision row = Some q /\
                Rabs q <= battery_max_charge_rate demo_ui /\
                Net_Electricity_Purchased row = Some (Usage row + q))
           result.
Proof.
  destruct demo_run as (result & lg & Hrun & _).
  exists result, lg. split; [exact Hrun |].
  apply (simulate_rows_are_filled demo_ui demo_model_df result lg Hrun).
  cbn. lra.
Defined.

Lemma Forall2_nth_left {A B} (Rel : A -> B -> Prop) l1 l2 :
  Forall2 Rel l1 l2 ->
  forall k x, nth_error l1 k = Some x ->
  exists y, nth_error l2 k = Some y /\ Rel x y.
Proof.
  induction 1 as [| a b l1 l2 Hab _ IH]; intros [| k] x; cbn; try discriminate.
  - intros [= <-]. eauto.
  - apply IH.
Qed.

Lemma proposed_is_stored_change b q :
  proposed_charge_of b q =
  state_of_charge b + stored_change (charge_efficiency b) q.
Proof. unfold proposed_charge_of, stored_change. now destruct (Rge_b q 0). Qed.

Lemma chained_adjacent steps :
  forall b k s1 s2,
    consistent b -> chained b steps ->
    nth_error steps k = Some s1 -> nth_error steps (S k) = Some s2 ->
    state_of_charge (hs_before s2) =
    state_of_charge (hs_before s1) +
    stored_change (charge_efficiency b) (hs_request s1).
Proof.
  induction steps as [| s rest IH]; intros b k s1 s2 Hc Hch H1 H2;
    [destruct k; discriminate |].
  cbn in Hch. destruct Hch as (Hb & Hcharge & Hrest).
  pose proof (charge_consistent _ _ _ _ Hc Hcharge) as Hc'.
  apply charge_ok_inv in Hcharge as (_ & _ & Hafter); [| assumption].
  destruct k as [| k].
  - cbn in H1. injection H1 as <-.
    destruct rest as [| s' rest']; [discriminate |].
    cbn in H2. injection H2 as <-.
    cbn in Hrest. destruct Hrest as (Hb' & _).
    rewrite Hb', Hafter, Hb. cbn. apply proposed_is_stored_change.
  - cbn in H1, H2.
    rewrite (IH (hs_after s) k s1 s2 Hc' Hrest H1 H2).
    rewrite Hafter. reflexivity.
Qed.

(** X16.  The state-of-charge column of the returned frame keeps the
    books of the battery: the first row holds the initial state of charge,
    and every next row holds the state of the row before plus what its
    request stored: request times the charge efficiency for a charge,
    request divided by it for a discharge. *)
Theorem state_of_charge_bookkeeping
    (ui : ui_dict) (model_df : list MeterRow)
    (result : DataFrame) (lg : list event) :
  simulate ui model_df = (Ok result, lg) ->
  (forall row,
     nth_error result 0 = Some row ->
     State_of_Charge row = Some (battery_initial_state_of_charge ui)) /\
  (forall k row row',
     nth_error result k = Some row ->
     nth_error result (S k) = Some row' ->
     exists soc q,
       State_of_Charge row = Some soc /\
       Charge_Decision row = Some q /\
       State_of_Charge row' =
         Some (soc + stored_change
                       (sqrt (battery_round_trip_efficiency ui)) q)).
Proof.
  intros Hrun.
  destruct (simulate_inv _ _ _ _ Hrun)
    as (df0 & steps & Hdf0 & Hts & Hchain & Hrte & -> & _).
  set (bat0 := mkBattery _ _ _ _ _ _ _ _) in Hchain.
  assert (Hc0 : consistent bat0).
  { apply (new_consistent (battery_model_name ui) (battery_max_capacity ui)
             (battery_max_charge_rate ui) (battery_initial_state_of_charge ui)
             (battery_round_trip_efficiency ui)).
    now apply new_run. }
  destruct (finished_rows df0 steps Hts) as (_ & _ & Hrec).
  split.
  - intros row H0.
    destruct (Forall2_nth_left _ _ _ Hrec 0%nat row H0) as (s & Hs & Hr).
    destruct steps as [| s0 rest]; [discriminate |].
    cbn in Hs. injection Hs as ->.
    cbn in Hchain. destruct Hchain as (Hb & _).
    destruct Hr as (_ & Hsoc & _). rewrite Hsoc, Hb. reflexivity.
  - intros k row row' Hk Hk'.
    destruct (Forall2_nth_left _ _ _ Hrec k row Hk) as (s1 & Hs1 & Hr1).
    destruct (Forall2_nth_left _ _ _ Hrec (S k) row' Hk') as (s2 & Hs2 & Hr2).
    pose proof (chained_adjacent steps bat0 k s1 s2 Hc0 Hchain Hs1 Hs2) as Hadj.
    destruct Hr1 as (_ & Hsoc1 & _ & _ & Hq1 & _).
    destruct Hr2 as (_ & Hsoc2 & _).
    exists (state_of_charge (hs_before s1)), (hs_request s1).
    split; [assumption |]. split; [assumption |].
    rewrite Hsoc2, Hadj. reflexivity.
Qed.

Lemma state_of_charge_bookkeeping_witness :
  exists result lg,
    simulate demo_ui demo_model_df = (Ok result, lg) /\
    (forall row,
       nth_error result 0 = Some row ->
       State_of_Charge row = Some (battery_initial_state_of_charge demo_ui)) /\
    (forall k row row',
       nth_error result k = Some row ->
       nth_error result (S k) = Some row' ->
       exists soc q,
         State_of_Charge row = Some soc /\
         Charge_Decision row = Some q /\
         State_of_Charge row' =
           Some (soc + stored_change
                         (sqrt (battery_round_trip_efficiency demo_ui)) q)).
Proof.
  destruct demo_run as (result & lg & Hrun & _).
  exists result, lg. split; [exact Hrun |].
  apply (state_of_charge_bookkeeping demo_ui demo_model_df result lg Hrun).
Defined.

Lemma add_pricing_columns_rows ui model_df df0 :
  add_pricing_columns ui model_df = Ok df0 ->
  exists lo hi,
    first_item (peak_price_hours ui) = Ok lo /\
    last_item (peak_price_hours ui) = Ok hi /\
    Forall2 (fun m row =>
               name row = m_name m /\
               Usage row = m_Usage m /\
               LBMP_kWh row = m_LBMP_MWHr m / 1000 /\
               NYSEG_Delivery_Charge row =
                 (if ((hour (m_name m) >=? lo) && (hour (m_name m) <=? hi)
                      && (dayofweek (m_name m) <=? 4))%Z
                  then delivery_charge_peak ui
                  else delivery_charge_offpeak ui) /\
               Apparent_Price row =
                 LBMP_kWh row + NYSEG_Delivery_Charge row)
            model_df df0.
Proof.
  unfold add_pricing_columns, rbind.
  destruct (first_item _) as [lo | e]; [| discriminate].
  destruct (last_item _) as [hi | e]; [| discriminate].
  intros [= <-]. exists lo, hi. split; [reflexivity |]. split; [reflexivity |].
  induction model_df as [| m ms IH]; cbn; constructor; auto.
Qed.

Lemma finished_rows_keep_inputs {A : Type} (Rel : A -> Row -> Prop) :
  (forall a row s, Rel a row ->
     Rel a (set_Net_Electricity_Purchased
              (add_cell (Usage (fill s row)) (Charge_Decision (fill s row)))
              (fill s row))) ->
  forall (l : list A) rows steps,
    List.length steps = List.length rows ->
    Forall2 Rel l rows ->
    Forall2 Rel l (add_net_column (fill_all rows steps)).
Proof.
  intros Hkeep l rows steps Hlen Hall. revert steps Hlen.
  induction Hall as [| a row l rows Harow _ IH]; intros [| s steps] Hlen;
    try discriminate; cbn; constructor.
  - now apply Hkeep.
  - apply IH. now injection Hlen.
Qed.

(** X17.  The price columns of the returned frame come from the series
    and the parameters alone, whatever battery and controller run: every
    row has LBMP in $/kWh = LBMP in $/MWh / 1000, the peak delivery charge
    exactly when its hour of day lies between the first and the last of
    [peak_price_hours] (ends included) on a day from Monday to Friday and
    the off-peak charge otherwise, and apparent price = LBMP + delivery
    charge. *)
Theorem simulate_price_columns
    (ui : ui_dict) (model_df : list MeterRow)
    (result : DataFrame) (lg : list event) :
  simulate ui model_df = (Ok result, lg) ->
  exists lo hi,
    first_item (peak_price_hours ui) = Ok lo /\
    last_item (peak_price_hours ui) = Ok hi /\
    Forall2 (fun m row =>
               name row = m_name m /\
               Usage row = m_Usage m /\
               LBMP_kWh row = m_LBMP_MWHr m / 1000 /\
               NYSEG_Delivery_Charge row =
                 (if ((hour (m_name m) >=? lo) && (hour (m_name m) <=? hi)
                      && (dayofweek (m_name m) <=? 4))%Z
                  then delivery_charge_peak ui
                  else delivery_charge_offpeak ui) /\
               Apparent_Price row =
                 LBMP_kWh row + NYSEG_Delivery_Charge row)
            model_df result.
Proof.
  intros Hrun.
  destruct (simulate_inv _ _ _ _ Hrun)
    as (df0 & steps & Hdf0 & Hts & _ & _ & -> & _).
  destruct (add_pricing_columns_rows _ _ _ Hdf0) as (lo & hi & Hlo & Hhi & Hall).
  exists lo, hi. split; [assumption |]. split; [assumption |].
  apply finished_rows_keep_inputs; [| | assumption].
  - intros m row s H. exact H.
  - rewrite <- (length_map hs_time), Hts. apply length_map.
Qed.

Lemma simulate_price_columns_witness :
  exists result lg,
    simulate demo_ui demo_model_df = (Ok result, lg) /\
    exists lo hi,
      first_item (peak_price_hours demo_ui) = Ok lo /\
      last_item (peak_price_hours demo_ui) = Ok hi /\
      Forall2 (fun m row =>
                 name row = m_name m /\
                 Usage row = m_Usage m /\
                 LBMP_kWh row = m_LBMP_MWHr m / 1000 /\
                 NYSEG_Delivery_Charge row =
                   (if ((hour (m_name m) >=? lo) && (hour (m_name m) <=? hi)
                        && (dayofweek (m_name m) <=? 4))%Z
                    then delivery_charge_peak demo_ui
                    else delivery_charge_offpeak demo_ui) /\
                 Apparent_Price row =
                   LBMP_kWh row + NYSEG_Delivery_Charge row)
              demo_model_df result.
Proof.
  destruct demo_run as (result & lg & Hrun & _).
  exists result, lg. split; [exact Hrun |].
  apply (simulate_price_columns demo_ui demo_model_df result lg Hrun).
Defined.

(** * Properties of the summary *)

Import model_output.

Lemma sum_R_plus {A} (f g : A -> R) l :
  sum_R (map (fun x => f x + g x) l) = sum_R (map f l) + sum_R (map g l).
Proof.
  unfold sum_R. induction l as [| x l IH]; cbn; [lra | rewrite IH; lra].
Qed.

Lemma sum_R_ext {A} (f g : A -> R) l :
  (forall x, f x = g x) -> sum_R (map f l) = sum_R (map g l).
Proof.
  intros H. unfold sum_R.
  induction l as [| x l IH]; cbn; [reflexivity | now rewrite H, IH].
Qed.

Lemma sum_R_cons x l : sum_R (x :: l) = x + sum_R l.
Proof. reflexivity. Qed.

Lemma np_dot_usage df :
  np_dot (usage_column df) (price_column df) =
  Some (sum_R (map (fun r => Usage r * Apparent_Price r) df)).
Proof.
  unfold usage_column, price_column.
  induction df as [| r df IH]; [reflexivity |].
  cbn [map np_dot]. rewrite IH. reflexivity.
Qed.

Lemma series_sum_usage df :
  series_sum (usage_column df) = Some (sum_R (map Usage df)).
Proof.
  unfold usage_column.
  induction df as [| r df IH]; [reflexivity |].
  cbn [map series_sum]. rewrite IH. reflexivity.
Qed.

(** On rows whose net purchase is usage + request. *)
Lemma np_dot_net df :
  Forall (fun r => Net_Electricity_Purchased r =
                   Some (Usage r + decision_of r)) df ->
  np_dot (net_column df) (price_column df) =
  Some (sum_R (map (fun r => (Usage r + decision_of r) * Apparent_Price r) df)).
Proof.
  unfold net_column, price_column.
  induction 1 as [| r df Hr _ IH]; [reflexivity |].
  cbn [map np_dot]. rewrite Hr, IH. reflexivity.
Qed.

Lemma series_sum_net df :
  Forall (fun r => Net_Electricity_Purchased r =
                   Some (Usage r + decision_of r)) df ->
  series_sum (net_column df) =
  Some (sum_R (map (fun r => Usage r + decision_of r) df)).
Proof.
  unfold net_column.
  induction 1 as [| r df Hr _ IH]; [reflexivity |].
  cbn [map series_sum]. rewrite Hr. cbn [series_sum]. rewrite IH. reflexivity.
Qed.

Lemma summary_differences df pph hpm d :
  Forall (fun r => Net_Electricity_Purchased r =
                   Some (Usage r + decision_of r)) df ->
  summary_stats df pph hpm = Ok d ->
  exists lo hi,
    first_item pph = Ok lo /\ last_item pph = Ok hi /\
    total_cost_diff d =
      Some (- sum_R (map (fun r => decision_of r * Apparent_Price r) df)) /\
    total_electricity_purchases_diff d = Some (sum_R (map decision_of df)) /\
    peak_electricity_purchases_diff d =
      Some (sum_R (map decision_of (summary_peak_rows df lo hi))).
Proof.
  intros Hnet. unfold summary_stats, rbind.
  destruct (first_item pph) as [lo | e]; [| discriminate].
  destruct (last_item pph) as [hi | e]; [| discriminate].
  fold (summary_peak_rows df lo hi).
  assert (Hpeak : Forall (fun r => Net_Electricity_Purchased r =
                                   Some (Usage r + decision_of r))
                         (summary_peak_rows df lo hi)).
  { unfold summary_peak_rows. rewrite Forall_forall in *.
    intros r Hr. apply filter_In in Hr as [Hr _]. auto. }
  rewrite np_dot_usage, (np_dot_net df Hnet), !series_sum_usage,
    (series_sum_net df Hnet), (series_sum_net _ Hpeak).
  intros [= <-]. exists lo, hi. cbn.
  split; [reflexivity |]. split; [reflexivity |].
  split; [| split]; f_equal.
  - rewrite (sum_R_ext (fun r => (Usage r + decision_of r) * Apparent_Price r)
               (fun r => Usage r * Apparent_Price r +
                         decision_of r * Apparent_Price r))
      by (intros; ring).
    rewrite sum_R_plus. ring.
  - rewrite sum_R_plus. ring.
  - rewrite sum_R_plus. ring.
Qed.

Lemma finished_rows_net rows :
  forall steps,
    map hs_time steps = map name rows ->
    Forall (fun r => Net_Electricity_Purchased r =
                     Some (Usage r + decision_of r))
           (add_net_column (fill_all rows steps)) /\
    map decision_of (add_net_column (fill_all rows steps)) =
      map hs_request steps.
Proof.
  induction rows as [| row rows IH]; intros [| s steps]; cbn [map];
    try discriminate.
  - intros _. split; [constructor | reflexivity].
  - intros [= _ Hts]. destruct (IH steps Hts) as (Hall & Hmap).
    cbn [fill_all add_net_column map].
    fold (add_net_column (fill_all rows steps)). split.
    + constructor; [reflexivity | assumption].
    + rewrite Hmap. reflexivity.
Qed.

Lemma simulate_with_summary_inv ui model_df d result lg :
  simulate_with_summary ui model_df = (Ok (d, result), lg) ->
  simulate ui model_df = (Ok result, lg) /\
  summary_stats result (peak_price_hours ui) (hours_per_month ui) = Ok d.
Proof.
  unfold simulate_with_summary.
  destruct (simulate ui model_df) as [[r | e] lg'] ; [| discriminate].
  destruct (summary_stats r _ _) as [d' | e] eqn:Hs; cbn; [| discriminate].
  intros [= <- <- <-]. split; [reflexivity | exact Hs].
Qed.

(** X18.  What the battery changes in the summary is what its requests
    add up to: in the dictionary returned with the frame, the total cost
    difference (without minus with battery) is minus the sum over the hours
    of request times apparent price, the difference of total purchases is
    the sum of the requests, and the difference of peak purchases is the
    sum of the requests of the hours whose hour of day lies between the
    first and the last of [peak_price_hours], weekends included. *)
Theorem summary_differences_are_request_sums
    (ui : ui_dict) (model_df : list MeterRow)
    (d : summary) (result : DataFrame) (lg : list event) :
  simulate_with_summary ui model_df = (Ok (d, result), lg) ->
  exists lo hi,
    first_item (peak_price_hours ui) = Ok lo /\
    last_item (peak_price_hours ui) = Ok hi /\
    total_cost_diff d =
      Some (- sum_R (map (fun r => decision_of r * Apparent_Price r) result)) /\
    total_electricity_purchases_diff d =
      Some (sum_R (map decision_of result)) /\
    peak_electricity_purchases_diff d =
      Some (sum_R (map decision_of (summary_peak_rows result lo hi))).
Proof.
  intros H. apply simulate_with_summary_inv in H as [Hrun Hsum].
  destruct (simulate_inv _ _ _ _ Hrun)
    as (df0 & steps & _ & Hts & _ & _ & Hres & _).
  destruct (finished_rows_net df0 steps Hts) as (Hnet & _).
  rewrite <- Hres in Hnet.
  exact (summary_differences _ _ _ _ Hnet Hsum).
Qed.

Lemma demo_run_with_summary :
  exists d result lg,
    simulate_with_summary demo_ui demo_model_df = (Ok (d, result), lg).
Proof.
  destruct demo_run as (result & lg & Hrun & _).
  unfold simulate_with_summary. rewrite Hrun.
  eexists. exists result, lg. reflexivity.
Qed.

Lemma summary_differences_are_request_sums_witness :
  exists d result lg,
    simulate_with_summary demo_ui demo_model_df = (Ok (d, result), lg) /\
    exists lo hi,
      first_item (peak_price_hours demo_ui) = Ok lo /\
      last_item (peak_price_hours demo_ui) = Ok hi /\
      total_cost_diff d =
        Some (- sum_R (map (fun r => decision_of r * Apparent_Price r) result)) /\
      total_electricity_purchases_diff d =
        Some (sum_R (map decision_of result)) /\
      peak_electricity_purchases_diff d =
        Some (sum_R (map decision_of (summary_peak_rows result lo hi))).
Proof.
  destruct demo_run_with_summary as (d & result & lg & Hrun).
  exists d, result, lg. split; [exact Hrun |].
  apply (summary_differences_are_request_sums demo_ui demo_model_df d result lg
           Hrun).
Defined.

Lemma stored_change_le eff q :
  0 < eff <= 1 -> stored_change eff q <= q.
Proof.
  intros [H0 H1]. unfold stored_change, Rge_b.
  cmp_cases.
  - nra.
  - assert (Hinv : 1 <= / eff).
    { rewrite <- Rinv_1. apply Rinv_le_contravar; lra. }
    unfold Rdiv. nra.
Qed.

Lemma chained_requests_sum steps :
  forall b,
    consistent b -> charge_efficiency b <= 1 -> 0 <= state_of_charge b ->
    chained b steps ->
    - state_of_charge b <= sum_R (map hs_request steps).
Proof.
  induction steps as [| s rest IH]; intros b Hc He Hsoc Hch.
  { unfold sum_R. cbn. lra. }
  cbn [map]. rewrite sum_R_cons.
  cbn in Hch. destruct Hch as (Hb & Hcharge & Hrest).
  pose proof (charge_consistent _ _ _ _ Hc Hcharge) as Hc'.
  pose proof (cons_eff_pos b Hc) as Hpos.
  apply charge_ok_inv in Hcharge as (_ & Hp & Hafter); [| assumption].
  assert (IH' : - state_of_charge (hs_after s) <= sum_R (map hs_request rest)).
  { apply IH; try assumption; rewrite Hafter; cbn; [assumption | apply Hp]. }
  rewrite Hafter in IH'. cbn [state_of_charge updated] in IH'.
  rewrite proposed_is_stored_change in IH'.
  pose proof (stored_change_le (charge_efficiency b) (hs_request s)
                (conj Hpos He)).
  lra.
Qed.

(** X19.  The battery gives back no more than it was given: with a
    round-trip efficiency of at most 1 and an initial charge that is not
    negative, the total electricity purchased with the battery is at least
    the total without it less the initial charge; starting from an empty
    battery the total never goes down. *)
Theorem battery_never_lowers_total_purchases
    (ui : ui_dict) (model_df : list MeterRow)
    (d : summary) (result : DataFrame) (lg : list event) :
  simulate_with_summary ui model_df = (Ok (d, result), lg) ->
  battery_round_trip_efficiency ui <= 1 ->
  0 <= battery_initial_state_of_charge ui ->
  exists x,
    total_electricity_purchases_diff d = Some x /\
    - battery_initial_state_of_charge ui <= x.
Proof.
  intros H Hrte Hsoc. apply simulate_with_summary_inv in H as [Hrun Hsum].
  destruct (simulate_inv _ _ _ _ Hrun)
    as (df0 & steps & _ & Hts & Hchain & Hpos & Hres & _).
  destruct (finished_rows_net df0 steps Hts) as (Hnet & Hmap).
  rewrite <- Hres in Hnet, Hmap.
  destruct (summary_differences _ _ _ _ Hnet Hsum)
    as (lo & hi & _ & _ & _ & Htot & _).
  exists (sum_R (map decision_of result)). split; [assumption |].
  rewrite Hmap.
  set (bat0 := mkBattery _ _ _ _ _ _ _ _) in Hchain.
  assert (Hc0 : consistent bat0).
  { apply (new_consistent (battery_model_name ui) (battery_max_capacity ui)
             (battery_max_charge_rate ui) (battery_initial_state_of_charge ui)
             (battery_round_trip_efficiency ui)).
    now apply new_run. }
  apply (chained_requests_sum steps bat0 Hc0); [| exact Hsoc | exact Hchain].
  cbn. rewrite <- sqrt_1. apply sqrt_le_1; lra.
Qed.

Lemma battery_never_lowers_total_purchases_witness :
  exists d result lg,
    simulate_with_summary demo_ui demo_model_df = (Ok (d, result), lg) /\
    exists x,
      total_electricity_purchases_diff d = Some x /\
      - battery_initial_state_of_charge demo_ui <= x.
Proof.
  destruct demo_run_with_summary as (d & result & lg & Hrun).
  exists d, result, lg. split; [exact Hrun |].
  apply (battery_never_lowers_total_purchases demo_ui demo_model_df d result lg
           Hrun); cbn; lra.
Defined.

(** * Properties of the parameter dictionary *)

Lemma dict_contains_get {V} k (d : py_dict V) :
  dict_contains k d = true <-> dict_get k d <> None.
Proof.
  induction d as [| [k0 v0] d IH]; cbn.
  - split; [discriminate | congruence].
  - destruct (String.eqb k0 k); cbn; [split; [discriminate | reflexivity] | exact IH].
Qed.

Lemma dict_get_In {V} k (d : py_dict V) :
  dict_get k d <> None -> In k (map fst d).
Proof.
  induction d as [| [k0 v0] d IH]; cbn; [congruence |].
  destruct (String.eqb_spec k0 k); [now left | right; auto].
Qed.

Lemma dict_set_keys {V} k v (d : py_dict V) :
  dict_contains k d = true -> map fst (dict_set k v d) = map fst d.
Proof.
  induction d as [| [k0 v0] d IH]; cbn; [discriminate |].
  destruct (String.eqb k0 k); cbn; [reflexivity |].
  intros H. now rewrite IH.
Qed.

Lemma dict_get_set_same {V} k v (d : py_dict V) :
  dict_contains k d = true -> dict_get k (dict_set k v d) = Some v.
Proof.
  induction d as [| [k0 v0] d IH]; cbn; [discriminate |].
  destruct (String.eqb k0 k) eqn:E; cbn; rewrite E; [reflexivity | exact IH].
Qed.

Lemma dict_get_set_other {V} k k' v (d : py_dict V) :
  k <> k' -> dict_get k' (dict_set k v d) = dict_get k' d.
Proof.
  intros Hne. induction d as [| [k0 v0] d IH]; cbn.
  - destruct (String.eqb_spec k k'); [contradiction | reflexivity].
  - destruct (String.eqb_spec k0 k) as [-> | Hk]; cbn.
    + destruct (String.eqb_spec k k'); [contradiction | reflexivity].
    + destruct (String.eqb k0 k'); [reflexivity | exact IH].
Qed.

Lemma set_params_fold_keys {V} (kwargs : py_dict V) :
  forall d,
    map fst
      (fold_left
         (fun ui_dict kv =>
            if dict_contains (fst kv) ui_dict
            then dict_set (fst kv) (snd kv) ui_dict
            else ui_dict) kwargs d) = map fst d.
Proof.
  induction kwargs as [| [k v] rest IH]; intros d; cbn [fold_left fst snd];
    [reflexivity |].
  rewrite IH. destruct (dict_contains k d) eqn:E; [| reflexivity].
  now apply dict_set_keys.
Qed.

Lemma set_params_fold_get {V} (kwargs : py_dict V) :
  forall d k,
    NoDup (map fst kwargs) ->
    dict_get k
      (fold_left
         (fun ui_dict kv =>
            if dict_contains (fst kv) ui_dict
            then dict_set (fst kv) (snd kv) ui_dict
            else ui_dict) kwargs d) =
    match dict_get k d with
    | None => None
    | Some v0 =>
        match dict_get k kwargs with Some v => Some v | None => Some v0 end
    end.
Proof.
  induction kwargs as [| [k1 v1] rest IH]; intros d k Hnd;
    cbn [fold_left fst snd dict_get map].
  - now destruct (dict_get k d).
  - inversion Hnd as [| ? ? Hnotin Hnd']; subst.
    rewrite (IH _ k Hnd').
    destruct (String.eqb_spec k1 k) as [-> | Hne].
    + assert (Hrest : dict_get k rest = None).
      { destruct (dict_get k rest) eqn:E; [| reflexivity].
        exfalso. apply Hnotin. apply dict_get_In. congruence. }
      rewrite Hrest.
      destruct (dict_contains k d) eqn:Hc.
      * rewrite dict_get_set_same by assumption.
        apply dict_contains_get in Hc.
        destruct (dict_get k d); [reflexivity | congruence].
      * destruct (dict_get k d) eqn:Hg; [| reflexivity].
        assert (dict_contains k d = true)
          by (apply dict_contains_get; congruence).
        congruence.
    + destruct (dict_contains k1 d); [| reflexivity].
      now rewrite dict_get_set_other.
Qed.

(** X20.  Whatever keyword arguments [set_params] is given, the dictionary
    it returns has exactly the names of user_input.py that hold no double
    underscore, in their order: an argument with another name (a misspelt
    parameter, say) is dropped without a word, and no argument can add or
    remove a key. *)
Theorem set_params_keys {V : Type} (module_dict kwargs : py_dict V) :
  map fst (set_params module_dict kwargs) =
  filter (fun k => negb (str_contains "__" k)) (map fst module_dict).
Proof.
  unfold set_params. rewrite set_params_fold_keys.
  induction module_dict as [| [k v] rest IH]; cbn; [reflexivity |].
  destruct (negb (str_contains "__" k)); cbn; now rewrite IH.
Qed.

(** X21.  The values of the dictionary [set_params] returns: a parameter
    that was passed has the value passed, a parameter that was not has its
    default from user_input.py, and a name that is not a parameter has no
    entry, passed or not. *)
Theorem set_params_values {V : Type}
    (module_dict kwargs : py_dict V) (key : string) :
  NoDup (map fst kwargs) ->
  let defaults :=
    filter (fun kv => negb (str_contains "__" (fst kv))) module_dict in
  (forall v, dict_contains key defaults = true ->
             dict_get key kwargs = Some v ->
             dict_get key (set_params module_dict kwargs) = Some v) /\
  (dict_get key kwargs = None ->
   dict_get key (set_params module_dict kwargs) = dict_get key defaults) /\
  (dict_contains key defaults = false ->
   dict_get key (set_params module_dict kwargs) = None).
Proof.
  intros Hnd defaults. unfold set_params. fold defaults.
  rewrite (set_params_fold_get kwargs defaults key Hnd).
  split; [| split].
  - intros v Hc Hk. apply dict_contains_get in Hc.
    destruct (dict_get key defaults); [now rewrite Hk | congruence].
  - intros ->. now destruct (dict_get key defaults).
  - intros Hc. destruct (dict_get key defaults) eqn:E; [| reflexivity].
    assert (dict_contains key defaults = true)
      by (apply dict_contains_get; congruence).
    congruence.
Qed.

Lemma set_params_values_witness :
  let kwargs := [("controller_type", "simple_peak");
                 ("trough_hours", "3")]%string in
  let defaults :=
    filter (fun kv => negb (str_contains "__" (fst kv))) demo_module_dict in
  (forall v, dict_contains "controller_type" defaults = true ->
             dict_get "controller_type" kwargs = Some v ->
             dict_get "controller_type" (set_params demo_module_dict kwargs) =
               Some v) /\
  (dict_get "controller_type" kwargs = None ->
   dict_get "controller_type" (set_params demo_module_dict kwargs) =
     dict_get "controller_type" defaults) /\
  (dict_contains "controller_type" defaults = false ->
   dict_get "controller_type" (set_params demo_module_dict kwargs) = None).
Proof.
  apply (set_params_values demo_module_dict
           [("controller_type", "simple_peak"); ("trough_hours", "3")]%string
           "controller_type").
  repeat constructor; cbn; intuition discriminate.
Defined.

(** A misspelt parameter changes nothing, a known one is replaced where
    it stands, and the dunder names of the module are gone. *)
Example set_params_demo :
  set_params demo_module_dict
    [("controller_type", "simple_peak"); ("trough_hours", "3")]%string =
  [("run_name", "default_run_name"); ("controller_type", "simple_peak");
   ("trough_hour", "2")]%string.
Proof. reflexivity. Qed.

(** * Properties of the NYISO address *)

Import data_import.

Lemma append_assoc_str (a b c : string) :
  ((a ++ b) ++ c = a ++ (b ++ c))%string.
Proof. induction a as [| x a IH]; cbn; [reflexivity | now rewrite IH]. Qed.

Lemma to_yyyymmdd_digits t :
  _to_yyyymmdd t =
  (digits4 (year t) ++ digits2 (month t) ++ digits2 (day t))%string.
Proof. reflexivity. Qed.

(** The example of the docstring. *)
Example build_nyiso_url_docstring :
  build_nyiso_url (mkTimestamp 2018 2 1 0) "damlbmp" (Some "CENTRL"%string) =
  Url "http://mis.nyiso.com/public/csv/damlbmp/20180201damlbmp_zone_csv.zip".
Proof. reflexivity. Qed.

(** X22.  [build_nyiso_url] raises RuntimeError exactly when the data type
    is 'damlbmp' and no zone is given.  Otherwise the address is the NYISO
    prefix, the data type, a slash, the eight digits of the date of the
    month asked for (year, month, day, without the separators of its
    printed form), the data type again, "_zone" when a zone is given, and
    "_csv.zip": neither the name of the zone nor the time of day reaches
    the address. *)
Theorem build_nyiso_url_shape
    (month_ : Timestamp) (data_type : string) (zone : option string) :
  (data_type = "damlbmp"%string -> zone = None ->
   build_nyiso_url month_ data_type zone = RuntimeError msg_zone) /\
  (data_type <> "damlbmp"%string \/ zone <> None ->
   build_nyiso_url month_ data_type zone =
     Url ("http://mis.nyiso.com/public/csv/" ++ data_type ++ "/" ++
          digits4 (year month_) ++ digits2 (month month_) ++
          digits2 (day month_) ++ data_type ++
          match zone with Some _ => "_zone" | None => "" end ++
          "_csv.zip")%string).
Proof.
  split.
  - intros -> ->. reflexivity.
  - intros H. unfold build_nyiso_url.
    assert (E : String.eqb data_type "damlbmp" &&
                match zone with None => true | Some _ => false end = false).
    { destruct zone as [z |]; [apply andb_false_r |].
      destruct H as [H | H]; [| congruence].
      apply String.eqb_neq in H. now rewrite H. }
    rewrite E, to_yyyymmdd_digits.
    destruct zone; rewrite !append_assoc_str; reflexivity.
Qed.

(** * Errors of configuration, and the rule of the threshold controller *)

(** X23.  What is wrong with the parameters comes out before the first
    hour is stepped through, in the order the program reads them: an empty
    [peak_price_hours] is an IndexError, whatever the other parameters;
    then a negative round-trip efficiency is a ValueError and one of 0 a
    ZeroDivisionError; then, for the threshold controller, a quantile level
    outside [0, 1] is a ValueError. *)
Theorem simulate_configuration_errors
    (ui : ui_dict) (model_df : list MeterRow) :
  (peak_price_hours ui = [] ->
   simulate ui model_df = (Raise IndexError, [])) /\
  (peak_price_hours ui <> [] -> battery_round_trip_efficiency ui < 0 ->
   simulate ui model_df = (Raise ValueError, [])) /\
  (peak_price_hours ui <> [] -> battery_round_trip_efficiency ui = 0 ->
   simulate ui model_df = (Raise ZeroDivisionError, [])) /\
  (peak_price_hours ui <> [] -> 0 < battery_round_trip_efficiency ui ->
   controller_type ui = "daily_threshold"%string ->
   virtual_battery.thresh_high_quant ui < 0 \/
   1 < virtual_battery.thresh_high_quant ui \/
   virtual_battery.thresh_low_quant ui < 0 \/
   1 < virtual_battery.thresh_low_quant ui ->
   simulate ui model_df = (Raise ValueError, [])).
Proof.
  unfold simulate, add_pricing_columns.
  destruct (peak_price_hours ui) as [| h0 hs].
  - repeat split; try reflexivity; intros; contradiction.
  - cbn [first_item last_item rbind].
    split; [discriminate |]. split; [| split].
    + intros _ H. now rewrite new_negative_efficiency.
    + intros _ ->. now rewrite new_zero_efficiency.
    + intros _ Hrte -> Hq. rewrite new_run by assumption.
      unfold make_controller.
      cbn [String.eqb Ascii.eqb Bool.eqb andb getitem rbind kw_df
           kw_thresh_high_quant kw_thresh_low_quant].
      now rewrite dailythresh_new_out_of_range.
Qed.

Lemma gt_cell_spec x y :
  gt_cell x y = true <-> exists h, y = Some h /\ h < x.
Proof.
  unfold gt_cell, Rgt_b. destruct y as [v |].
  - rewrite Rlt_b_true. split; [eauto | now intros (h & [= <-] & H)].
  - split; [discriminate | now intros (h & [=] & _)].
Qed.

Lemma lt_cell_spec x y :
  lt_cell x y = true <-> exists l, y = Some l /\ x < l.
Proof.
  unfold lt_cell. destruct y as [v |].
  - rewrite Rlt_b_true. split; [eauto | now intros (l & [= <-] & H)].
  - split; [discriminate | now intros (l & [=] & _)].
Qed.

(** X24.  The rule of the threshold controller.  A call of [decide] that
    returns has found the row of its hour; with the thresholds the
    controller then holds, the request is
    [-min(max_charge_rate, available_to_discharge, usage)] when the
    apparent price of the hour is above the high threshold; otherwise
    [min(max_charge_rate, available_store_cap)] when it is below the low
    one; otherwise 0.  A threshold that is NaN (the quantile of an empty
    frame) is never crossed. *)
Theorem dailythresh_decision_rule
    (self self' : controller_dailythresh.obj) (df : DataFrame)
    (t : Timestamp) (bat : Battery) (q : R) :
  controller_dailythresh.decide df t bat self = (Ok q, self') ->
  exists row,
    loc df t = Ok row /\
    let above := exists h, thresh_high_price self' = Some h /\
                           h < Apparent_Price row in
    let below := exists l, thresh_low_price self' = Some l /\
                           Apparent_Price row < l in
    (above ->
     q = - Rmin (Rmin (max_charge_rate bat) (available_to_discharge bat))
                (Usage row)) /\
    (~ above -> below ->
     q = Rmin (max_charge_rate bat) (available_store_cap bat)) /\
    (~ above -> ~ below -> q = 0).
Proof.
  intros Hd.
  apply dailythresh_decide_inv in Hd as (_ & _ & _ & _ & row & Hloc & ->).
  exists row. split; [assumption |]. cbv zeta.
  unfold threshold_request.
  destruct (gt_cell (Apparent_Price row) (thresh_high_price self')) eqn:Eg.
  - apply gt_cell_spec in Eg. split; [| split].
    + intros _. rewrite py_min3_Rmin. ring.
    + intros Hn. contradiction.
    + intros Hn. contradiction.
  - assert (Hng : ~ exists h, thresh_high_price self' = Some h /\
                              h < Apparent_Price row).
    { intros H. apply gt_cell_spec in H. congruence. }
    destruct (lt_cell (Apparent_Price row) (thresh_low_price self')) eqn:El.
    + apply lt_cell_spec in El. split; [| split].
      * intros H. contradiction.
      * intros _ _. apply py_min2_Rmin.
      * intros _ Hn. contradiction.
    + assert (Hnl : ~ exists l, thresh_low_price self' = Some l /\
                                Apparent_Price row < l).
      { intros H. apply lt_cell_spec in H. congruence. }
      split; [| split].
      * intros H. contradiction.
      * intros _ H. contradiction.
      * reflexivity.
Qed.

Lemma dailythresh_decision_rule_witness :
  exists row,
    loc night_df tuesday00 = Ok row /\
    let above := exists h, thresh_high_price (mkobj 1 0 (Some 1) (Some 1)) =
                             Some h /\ h < Apparent_Price row in
    let below := exists l, thresh_low_price (mkobj 1 0 (Some 1) (Some 1)) =
                             Some l /\ Apparent_Price row < l in
    (above ->
     0 = - Rmin (Rmin (max_charge_rate (powerwall 5))
                      (available_to_discharge (powerwall 5)))
                (Usage row)) /\
    (~ above -> below ->
     0 = Rmin (max_charge_rate (powerwall 5))
              (available_store_cap (powerwall 5))) /\
    (~ above -> ~ below -> 0 = 0).
Proof.
  apply (dailythresh_decision_rule (mkobj 1 0 (Some 2) (Some 1))
           (mkobj 1 0 (Some 1) (Some 1)) night_df tuesday00 (powerwall 5) 0).
  apply night_decide_tuesday00; reflexivity.
Defined.
